(** * The AST buffer converter (src/convert_ast/converter.ts)

    [convertProgram] decodes a flat buffer of 32-bit words, written by the
    native parser, into an ESTree syntax tree.  This file embeds the
    converter as Rocq functions and proves properties of the decoding.

    The embedding follows the source function by function:
    - the buffer is the [ArrayBuffer] that [convertProgram] receives, a list
      of bytes; [buffer[i]] on the [Uint32Array] view and
      [DataView.getFloat64] both read from it;
    - a JavaScript value that the converter produces is an [any]; objects
      and arrays carry the identity of their allocation, so that two
      references to one object can be told from two equal objects;
    - a converter is a computation in the monad [M]: it allocates, it may
      throw, and its recursion is bounded by fuel. *)

From Stdlib Require Import ZArith List String Ascii Lia Bool.
From Stdlib Require Import Strings.Byte.
From Stdlib Require Import Numbers.DecimalString.
From Stdlib Require Import Floats.
Import ListNotations.

#[local] Open Scope string_scope.
#[local] Open Scope list_scope.
#[local] Open Scope Z_scope.

(** ** JavaScript values and host operations *)

Module Js.

(** A number the converter computes with: an element of the buffer or a
    position in it.  [None] stands for no number at all: the [undefined]
    that a typed array gives for an index it does not have, and the [NaN]
    that [undefined + 1] is.  The converter never tells the two apart: both
    index no element, both are falsy, both stay [NaN] when incremented, and
    both are 0 under [<<]. *)
Definition number := option Z.

(** The values of the produced tree.  [VNumber] is an integer-valued number
    (a word read from the buffer), [VDouble] a number read by
    [getFloat64].  [VRegExp], [VArray] and [VObject] are objects: [id] names
    the allocation that created them. *)
#[warnings="-register-all"]
Inductive any : Type :=
| VUndefined
| VNull
| VBool (b : bool)
| VNumber (n : Z)
| VDouble (f : spec_float)
| VString (s : string)
| VBigInt (n : Z)
| VRegExp (id : nat) (pattern flags : string)
| VArray (id : nat) (elements : list any)
| VObject (id : nat) (properties : list (string * any)).

(** What can be thrown.  [Error message] is [new Error(message)]; the other
    two are thrown by the host: [RangeError] by [new Uint32Array] and
    [DataView.getFloat64], [SyntaxError] by [BigInt] and [new RegExp]. *)
Inductive exception : Type :=
| Error (message : string)
| RangeError
| SyntaxError.

(** The outcome of a call: it returns, it throws, or the recursion went
    deeper than the fuel allows. *)
Inductive outcome (A : Type) : Type :=
| Return (a : A)
| Throw (e : exception)
| OutOfFuel.

Arguments Return {A} a.
Arguments Throw {A} e.
Arguments OutOfFuel {A}.

(** Computations: the state is the number of objects allocated so far, which
    is also the identity the next allocation gets. *)
Definition M (A : Type) : Type := nat -> outcome (A * nat).

Definition ret {A : Type} (a : A) : M A :=
  fun next => Return (a, next).

Definition bind {A B : Type} (m : M A) (k : A -> M B) : M B :=
  fun next =>
    match m next with
    | Return (a, next') => k a next'
    | Throw e => Throw e
    | OutOfFuel => OutOfFuel
    end.

Definition throw {A : Type} (e : exception) : M A :=
  fun _ => Throw e.

Definition out_of_fuel {A : Type} : M A :=
  fun _ => OutOfFuel.

Definition allocate : M nat :=
  fun next => Return (next, S next).

(** [x ? ... : ...] and [!!x] on a number: 0, [undefined] and [NaN] are
    falsy. *)
Definition truthy (x : number) : bool :=
  match x with
  | Some z => negb (z =? 0)
  | None => false
  end.

(** [x + 1] and the new value of [x] after [x++]. *)
Definition incr (x : number) : number :=
  match x with
  | Some z => Some (z + 1)
  | None => None
  end.

(** A number as a value of the tree. *)
Definition num (x : number) : any :=
  match x with
  | Some z => VNumber z
  | None => VUndefined
  end.

(** [ToInt32]: the integer modulo 2^32, read as a signed 32-bit integer. *)
Definition ToInt32 (z : Z) : Z :=
  let m := z mod 2 ^ 32 in
  if m <? 2 ^ 31 then m else m - 2 ^ 32.

(** [x << count]: both operands go through 32-bit conversions and the
    result is a signed 32-bit integer. *)
Definition shiftLeft (x : number) (count : Z) : Z :=
  match x with
  | Some z => ToInt32 (Z.shiftl (ToInt32 z) (count mod 32))
  | None => 0
  end.

(** [`${x}`] for a number. *)
Definition toString (x : number) : string :=
  match x with
  | Some z => NilZero.string_of_int (Z.to_int z)
  | None => "undefined"
  end.

(** *** Array buffers and their views *)

Definition ArrayBuffer := list byte.

Definition byteLength (ab : ArrayBuffer) : Z := Z.of_nat (List.length ab).

(** The unsigned integer that a run of bytes encodes, first byte least
    significant. *)
Fixpoint little_endian (bytes : list byte) : Z :=
  match bytes with
  | [] => 0
  | b :: rest => Z.of_N (Byte.to_N b) + 256 * little_endian rest
  end.

(** [count] bytes from [byteOffset] on. *)
Definition slice (ab : ArrayBuffer) (byteOffset : Z) (count : nat) : list byte :=
  firstn count (skipn (Z.to_nat byteOffset) ab).

(** A [Uint32Array] made by [new Uint32Array(arrayBuffer)] views the whole
    buffer from byte 0, so it is represented by the buffer itself.  Element
    [i] is bytes [4i .. 4i+3] in the byte order of the platform, taken to be
    little-endian (the order in which the parser writes the words). *)
Definition Uint32Array := ArrayBuffer.

(** [buffer[index]]: [undefined] when the array has no such element. *)
Definition element (buffer : Uint32Array) (index : number) : number :=
  match index with
  | Some i =>
      if (0 <=? i) && (4 * i + 4 <=? byteLength buffer)
      then Some (little_endian (slice buffer (4 * i) 4))
      else None
  | None => None
  end.

(** The number that 64 bits encode in IEEE-754 binary64: sign, 11 bits of
    biased exponent, 52 bits of fraction.  All NaN patterns are the one
    NaN of JavaScript. *)
Definition float64_of_bits (bits : Z) : spec_float :=
  let sign := Z.testbit bits 63 in
  let exponent := Z.land (Z.shiftr bits 52) 2047 in
  let fraction := Z.land bits (2 ^ 52 - 1) in
  if exponent =? 0 then
    match fraction with
    | Zpos m => S754_finite sign m (-1074)
    | _ => S754_zero sign
    end
  else if exponent =? 2047 then
    if fraction =? 0 then S754_infinity sign else S754_nan
  else
    match fraction + 2 ^ 52 with
    | Zpos m => S754_finite sign m (exponent - 1075)
    | _ => S754_nan
    end.

(** The sign as bit 63. *)
Definition sign_bit (s : bool) : Z := if s then 2 ^ 63 else 0.

(** The 64 bits of a number in IEEE-754 binary64, the inverse of
    [float64_of_bits] on the numbers that are not NaN (for NaN, the quiet
    NaN without payload). *)
Definition bits_of_float64 (f : spec_float) : Z :=
  match f with
  | S754_zero s => sign_bit s
  | S754_infinity s => sign_bit s + 2047 * 2 ^ 52
  | S754_nan => 2047 * 2 ^ 52 + 2 ^ 51
  | S754_finite s m e =>
      if Z.pos m <? 2 ^ 52
      then sign_bit s + Z.pos m
      else sign_bit s + (e + 1075) * 2 ^ 52 + (Z.pos m - 2 ^ 52)
  end.

(** [new DataView(ab).getFloat64(byteOffset, true)]: a [RangeError] when
    the eight bytes are not all inside the buffer ([None] here). *)
Definition getFloat64 (ab : ArrayBuffer) (byteOffset : Z) : option spec_float :=
  if (byteOffset <? 0) || (byteLength ab <? byteOffset + 8)
  then None
  else Some (float64_of_bits (little_endian (slice ab byteOffset 8))).

(** The two host functions whose parsing is not modelled: [BigInt(text)]
    gives the integer or throws a [SyntaxError] ([None]); [new
    RegExp(pattern, flags)] gives a regular expression or throws a
    [SyntaxError] ([false]). *)
Record Host : Type := {
  BigInt : string -> option Z;
  RegExp : string -> string -> bool
}.

(** The allocation identity of an object. *)
Definition identity (v : any) : option nat :=
  match v with
  | VRegExp id _ _ | VArray id _ | VObject id _ => Some id
  | _ => None
  end.

(** [a === b] for two objects: they are one object. *)
Definition same_object (a b : any) : Prop :=
  exists id, identity a = Some id /\ identity b = Some id.

(** The property [name] of an object. *)
Fixpoint lookup (name : string) (properties : list (string * any)) : option any :=
  match properties with
  | [] => None
  | (k, v) :: rest => if String.eqb k name then Some v else lookup name rest
  end.

Definition property (name : string) (v : any) : option any :=
  match v with
  | VObject _ properties => lookup name properties
  | _ => None
  end.

End Js.

Export Js.

Declare Scope js_scope.
Delimit Scope js_scope with js.

Notation "x <- m ;; k" := (bind m (fun x => k))
  (at level 61, m at next level, right associativity) : js_scope.
Notation "buffer .[ position ]" := (element buffer position)
  (at level 1, left associativity, format "buffer .[ position ]") : js_scope.

#[local] Open Scope js_scope.

(** ** The converter *)

(** [type ReadString = (start: number, length: number) => string]: [start]
    is the result of a [<<], [length] an element of the buffer. *)
Definition ReadString := Z -> number -> string.

(** [buffer[position++]]: the element and the advanced position. *)
Definition next (buffer : Uint32Array) (position : number) : number * number :=
  (buffer.[position], incr position).

(** [!!buffer[position++]]. *)
Definition flag (r : number * number) : bool * number :=
  (truthy (fst r), snd r).

(** An object literal: a new object with the given properties, in the order
    of the literal. *)
Definition object_literal (properties : list (string * any)) : M any :=
  id <- allocate ;;
  ret (VObject id properties).

(** [TABLE[index]] for one of the three tables of kind names: [undefined]
    when the table has no such entry. *)
Definition kind_name (table : list string) (index : number) : any :=
  match index with
  | Some i =>
      match nth_error table (Z.to_nat i) with
      | Some name => VString name
      | None => VUndefined
      end
  | None => VUndefined
  end.

Definition DECLARATION_KINDS : list string := ["var"; "let"; "const"].

Definition PROPERTY_KINDS : list string := ["init"; "get"; "set"].

Definition METHOD_DEFINITION_KINDS : list string :=
  ["constructor"; "method"; "get"; "set"].

Section Converters.

Variable js : Host.
Variable buffer : Uint32Array.
Variable readString : ReadString.

(** The recursive reference to [convertNode] at this buffer and resolver;
    the knot is tied by [convertNode] below. *)
Variable convertNode : number -> M any.

Definition convertString (position : number) : string :=
  let '(length, position) := next buffer position in
  let bytePosition := shiftLeft position 2 in
  readString bytePosition length.

(** The [for] loop of [convertNodeList]: [iterations] is how many times the
    test [index < length] still holds, [list_] the array pushed to so
    far. *)
Fixpoint convertNodeList_loop (iterations : nat) (position : number)
    (list_ : list any) : M (list any) :=
  match iterations with
  | O => ret list_
  | S iterations =>
      let '(nodePosition, position) := next buffer position in
      node <- (if truthy nodePosition then convertNode nodePosition else ret VNull) ;;
      convertNodeList_loop iterations position (list_ ++ [node])
  end.

(** How often [index < length] holds for [index] = 0, 1, ...: never when
    [length] is [undefined]. *)
Definition iterations_of (length : number) : nat :=
  match length with
  | Some n => Z.to_nat n
  | None => O
  end.

Definition convertNodeList (position : number) : M any :=
  let '(length, position) := next buffer position in
  id <- allocate ;;
  list_ <- convertNodeList_loop (iterations_of length) position [] ;;
  ret (VArray id list_).

(** *** The converters of the node kinds

    Each is the function at its place in the table [nodeConverters] of the
    source, named after the comment above it there.  Computations that can
    throw or allocate are bound in the order in which JavaScript evaluates
    them: the [const]s first, then the property values of the returned
    literal from top to bottom. *)

Definition ArrayExpression (position : number) : M any :=
  let '(start, position) := next buffer position in
  let '(end_, position) := next buffer position in
  elements <- convertNodeList position ;;
  object_literal
    [("elements", elements); ("end", num end_); ("start", num start);
     ("type", VString "ArrayExpression")].

Definition ArrayPattern (position : number) : M any :=
  let '(start, position) := next buffer position in
  let '(end_, position) := next buffer position in
  elements <- convertNodeList position ;;
  object_literal
    [("elements", elements); ("end", num end_); ("start", num start);
     ("type", VString "ArrayPattern")].

Definition ArrowFunctionExpression (position : number) : M any :=
  let '(start, position) := next buffer position in
  let '(end_, position) := next buffer position in
  let '(async, position) := flag (next buffer position) in
  let '(generator, position) := flag (next buffer position) in
  let '(parametersPosition, position) := next buffer position in
  parameters <- convertNodeList parametersPosition ;;
  let '(expression, position) := flag (next buffer position) in
  body <- convertNode position ;;
  object_literal
    [("async", VBool async); ("body", body); ("end", num end_);
     ("expression", VBool expression); ("generator", VBool generator);
     ("id", VNull); ("params", parameters); ("start", num start);
     ("type", VString "ArrowFunctionExpression")].

Definition AssignmentExpression (position : number) : M any :=
  let '(start, position) := next buffer position in
  let '(end_, position) := next buffer position in
  let '(leftPosition, position) := next buffer position in
  left <- convertNode leftPosition ;;
  let '(rightPosition, position) := next buffer position in
  right <- convertNode rightPosition ;;
  let operator := convertString position in
  object_literal
    [("end", num end_); ("left", left); ("operator", VString operator);
     ("right", right); ("start", num start);
     ("type", VString "AssignmentExpression")].

Definition AssignmentPattern (position : number) : M any :=
  let '(start, position) := next buffer position in
  let '(end_, position) := next buffer position in
  let '(leftPosition, position) := next buffer position in
  left <- convertNode leftPosition ;;
  right <- convertNode position ;;
  object_literal
    [("end", num end_); ("left", left); ("right", right);
     ("start", num start); ("type", VString "AssignmentPattern")].

Definition AwaitExpression (position : number) : M any :=
  let '(start, position) := next buffer position in
  let '(end_, position) := next buffer position in
  argument <- convertNode position ;;
  object_literal
    [("argument", argument); ("end", num end_); ("start", num start);
     ("type", VString "AwaitExpression")].

Definition BinaryExpression (position : number) : M any :=
  let '(start, position) := next buffer position in
  let '(end_, position) := next buffer position in
  let '(leftPosition, position) := next buffer position in
  left <- convertNode leftPosition ;;
  let '(rightPosition, position) := next buffer position in
  right <- convertNode rightPosition ;;
  let operator := convertString position in
  object_literal
    [("end", num end_); ("left", left); ("operator", VString operator);
     ("right", right); ("start", num start);
     ("type", VString "BinaryExpression")].

Definition BlockStatement (position : number) : M any :=
  let '(start, position) := next buffer position in
  let '(end_, position) := next buffer position in
  body <- convertNodeList position ;;
  object_literal
    [("body", body); ("end", num end_); ("start", num start);
     ("type", VString "BlockStatement")].

Definition BreakStatement (position : number) : M any :=
  let '(start, position) := next buffer position in
  let '(end_, position) := next buffer position in
  let '(labelPosition, position) := next buffer position in
  label <- (if truthy labelPosition then convertNode labelPosition else ret VNull) ;;
  object_literal
    [("end", num end_); ("label", label); ("start", num start);
     ("type", VString "BreakStatement")].

Definition CallExpression (position : number) : M any :=
  let '(start, position) := next buffer position in
  let '(end_, position) := next buffer position in
  let '(optional, position) := flag (next buffer position) in
  let '(calleePosition, position) := next buffer position in
  callee <- convertNode calleePosition ;;
  argumentsList <- convertNodeList position ;;
  object_literal
    [("arguments", argumentsList); ("callee", callee); ("end", num end_);
     ("optional", VBool optional); ("start", num start);
     ("type", VString "CallExpression")].

Definition CatchClause (position : number) : M any :=
  let '(start, position) := next buffer position in
  let '(end_, position) := next buffer position in
  let '(parameterPosition, position) := next buffer position in
  body <- convertNode position ;;
  param <- (if truthy parameterPosition then convertNode parameterPosition else ret VNull) ;;
  object_literal
    [("body", body); ("end", num end_); ("param", param);
     ("start", num start); ("type", VString "CatchClause")].

Definition ChainExpression (position : number) : M any :=
  let '(start, position) := next buffer position in
  let '(end_, position) := next buffer position in
  expression <- convertNode position ;;
  object_literal
    [("end", num end_); ("expression", expression); ("start", num start);
     ("type", VString "ChainExpression")].

Definition ClassBody (position : number) : M any :=
  let '(start, position) := next buffer position in
  let '(end_, position) := next buffer position in
  body <- convertNodeList position ;;
  object_literal
    [("body", body); ("end", num end_); ("start", num start);
     ("type", VString "ClassBody")].

Definition ClassDeclaration (position : number) : M any :=
  let '(start, position) := next buffer position in
  let '(end_, position) := next buffer position in
  let '(idPosition, position) := next buffer position in
  let '(superClassPosition, position) := next buffer position in
  body <- convertNode buffer.[position] ;;
  id <- (if truthy idPosition then convertNode idPosition else ret VNull) ;;
  superClass <- (if truthy superClassPosition then convertNode superClassPosition else ret VNull) ;;
  object_literal
    [("body", body); ("end", num end_); ("id", id); ("start", num start);
     ("superClass", superClass); ("type", VString "ClassDeclaration")].

Definition ClassExpression (position : number) : M any :=
  let '(start, position) := next buffer position in
  let '(end_, position) := next buffer position in
  let '(idPosition, position) := next buffer position in
  let '(superClassPosition, position) := next buffer position in
  body <- convertNode buffer.[position] ;;
  id <- (if truthy idPosition then convertNode idPosition else ret VNull) ;;
  superClass <- (if truthy superClassPosition then convertNode superClassPosition else ret VNull) ;;
  object_literal
    [("body", body); ("end", num end_); ("id", id); ("start", num start);
     ("superClass", superClass); ("type", VString "ClassExpression")].

Definition ConditionalExpression (position : number) : M any :=
  let '(start, position) := next buffer position in
  let '(end_, position) := next buffer position in
  let '(testPosition, position) := next buffer position in
  test <- convertNode testPosition ;;
  let '(consequentPosition, position) := next buffer position in
  consequent <- convertNode consequentPosition ;;
  alternate <- convertNode position ;;
  object_literal
    [("alternate", alternate); ("consequent", consequent); ("end", num end_);
     ("start", num start); ("test", test);
     ("type", VString "ConditionalExpression")].

Definition ContinueStatement (position : number) : M any :=
  let '(start, position) := next buffer position in
  let '(end_, position) := next buffer position in
  let labelPosition := buffer.[position] in
  label <- (if truthy labelPosition then convertNode labelPosition else ret VNull) ;;
  object_literal
    [("end", num end_); ("label", label); ("start", num start);
     ("type", VString "ContinueStatement")].

Definition DebuggerStatement (position : number) : M any :=
  let '(start, position) := next buffer position in
  let '(end_, position) := next buffer position in
  object_literal
    [("end", num end_); ("start", num start);
     ("type", VString "DebuggerStatement")].

Definition DoWhileStatement (position : number) : M any :=
  let '(start, position) := next buffer position in
  let '(end_, position) := next buffer position in
  let '(testPosition, position) := next buffer position in
  test <- convertNode testPosition ;;
  body <- convertNode position ;;
  object_literal
    [("body", body); ("end", num end_); ("start", num start); ("test", test);
     ("type", VString "DoWhileStatement")].

Definition EmptyStatement (position : number) : M any :=
  let '(start, position) := next buffer position in
  let '(end_, position) := next buffer position in
  object_literal
    [("end", num end_); ("start", num start);
     ("type", VString "EmptyStatement")].

Definition ExportAllDeclaration (position : number) : M any :=
  let '(start, position) := next buffer position in
  let '(end_, position) := next buffer position in
  let '(assertionsPosition, position) := next buffer position in
  assertions <- convertNodeList assertionsPosition ;;
  let '(exportedPosition, position) := next buffer position in
  source <- convertNode position ;;
  exported <- (if truthy exportedPosition then convertNode exportedPosition else ret VNull) ;;
  object_literal
    [("assertions", assertions); ("end", num end_); ("exported", exported);
     ("source", source); ("start", num start);
     ("type", VString "ExportAllDeclaration")].

Definition ExportDefaultDeclaration (position : number) : M any :=
  let '(start, position) := next buffer position in
  let '(end_, position) := next buffer position in
  declaration <- convertNode position ;;
  object_literal
    [("declaration", declaration); ("end", num end_); ("start", num start);
     ("type", VString "ExportDefaultDeclaration")].

Definition ExportNamedDeclaration (position : number) : M any :=
  let '(start, position) := next buffer position in
  let '(end_, position) := next buffer position in
  let '(declarationPosition, position) := next buffer position in
  let '(sourcePosition, position) := next buffer position in
  let '(assertionsPosition, position) := next buffer position in
  assertions <- convertNodeList assertionsPosition ;;
  specifiers <- convertNodeList position ;;
  declaration <- (if truthy declarationPosition then convertNode declarationPosition else ret VNull) ;;
  source <- (if truthy sourcePosition then convertNode sourcePosition else ret VNull) ;;
  object_literal
    [("assertions", assertions); ("declaration", declaration);
     ("end", num end_); ("source", source); ("specifiers", specifiers);
     ("start", num start); ("type", VString "ExportNamedDeclaration")].

Definition ExportSpecifier (position : number) : M any :=
  let '(start, position) := next buffer position in
  let '(end_, position) := next buffer position in
  let '(exportedPosition, position) := next buffer position in
  local <- convertNode position ;;
  exported <- (if truthy exportedPosition then convertNode exportedPosition else ret local) ;;
  object_literal
    [("end", num end_); ("exported", exported); ("local", local);
     ("start", num start); ("type", VString "ExportSpecifier")].

Definition ExpressionStatement (position : number) : M any :=
  let '(start, position) := next buffer position in
  let '(end_, position) := next buffer position in
  expression <- convertNode position ;;
  object_literal
    [("end", num end_); ("expression", expression); ("start", num start);
     ("type", VString "ExpressionStatement")].

Definition ForInStatement (position : number) : M any :=
  let '(start, position) := next buffer position in
  let '(end_, position) := next buffer position in
  let '(leftPosition, position) := next buffer position in
  left <- convertNode leftPosition ;;
  let '(rightPosition, position) := next buffer position in
  right <- convertNode rightPosition ;;
  body <- convertNode position ;;
  object_literal
    [("body", body); ("end", num end_); ("left", left); ("right", right);
     ("start", num start); ("type", VString "ForInStatement")].

Definition ForOfStatement (position : number) : M any :=
  let '(start, position) := next buffer position in
  let '(end_, position) := next buffer position in
  let '(awaited, position) := flag (next buffer position) in
  let '(leftPosition, position) := next buffer position in
  left <- convertNode leftPosition ;;
  let '(rightPosition, position) := next buffer position in
  right <- convertNode rightPosition ;;
  body <- convertNode position ;;
  object_literal
    [("await", VBool awaited); ("body", body); ("end", num end_);
     ("left", left); ("right", right); ("start", num start);
     ("type", VString "ForOfStatement")].

Definition ForStatement (position : number) : M any :=
  let '(start, position) := next buffer position in
  let '(end_, position) := next buffer position in
  let '(initPosition, position) := next buffer position in
  let '(testPosition, position) := next buffer position in
  let '(updatePosition, position) := next buffer position in
  body <- convertNode position ;;
  init <- (if truthy initPosition then convertNode initPosition else ret VNull) ;;
  test <- (if truthy testPosition then convertNode testPosition else ret VNull) ;;
  update <- (if truthy updatePosition then convertNode updatePosition else ret VNull) ;;
  object_literal
    [("body", body); ("end", num end_); ("init", init); ("start", num start);
     ("test", test); ("type", VString "ForStatement"); ("update", update)].

Definition FunctionDeclaration (position : number) : M any :=
  let '(start, position) := next buffer position in
  let '(end_, position) := next buffer position in
  let '(async, position) := flag (next buffer position) in
  let '(generator, position) := flag (next buffer position) in
  let '(idPosition, position) := next buffer position in
  let '(parametersPosition, position) := next buffer position in
  parameters <- convertNodeList parametersPosition ;;
  body <- convertNode position ;;
  id <- (if truthy idPosition then convertNode idPosition else ret VNull) ;;
  object_literal
    [("async", VBool async); ("body", body); ("end", num end_);
     ("expression", VBool false); ("generator", VBool generator); ("id", id);
     ("params", parameters); ("start", num start);
     ("type", VString "FunctionDeclaration")].

Definition FunctionExpression (position : number) : M any :=
  let '(start, position) := next buffer position in
  let '(end_, position) := next buffer position in
  let '(async, position) := flag (next buffer position) in
  let '(generator, position) := flag (next buffer position) in
  let '(idPosition, position) := next buffer position in
  let '(parametersPosition, position) := next buffer position in
  parameters <- convertNodeList parametersPosition ;;
  body <- convertNode position ;;
  id <- (if truthy idPosition then convertNode idPosition else ret VNull) ;;
  object_literal
    [("async", VBool async); ("body", body); ("end", num end_);
     ("expression", VBool false); ("generator", VBool generator); ("id", id);
     ("params", parameters); ("start", num start);
     ("type", VString "FunctionExpression")].

Definition Identifier (position : number) : M any :=
  let '(start, position) := next buffer position in
  let '(end_, position) := next buffer position in
  let name := convertString position in
  object_literal
    [("end", num end_); ("name", VString name); ("start", num start);
     ("type", VString "Identifier")].

Definition IfStatement (position : number) : M any :=
  let '(start, position) := next buffer position in
  let '(end_, position) := next buffer position in
  let '(consequentPosition, position) := next buffer position in
  consequent <- convertNode consequentPosition ;;
  let '(alternatePosition, position) := next buffer position in
  test <- convertNode position ;;
  alternate <- (if truthy alternatePosition then convertNode alternatePosition else ret VNull) ;;
  object_literal
    [("alternate", alternate); ("consequent", consequent); ("end", num end_);
     ("start", num start); ("test", test); ("type", VString "IfStatement")].

Definition ImportAttribute (position : number) : M any :=
  let '(start, position) := next buffer position in
  let '(end_, position) := next buffer position in
  let '(keyPosition, position) := next buffer position in
  key <- convertNode keyPosition ;;
  value <- convertNode position ;;
  object_literal
    [("end", num end_); ("key", key); ("start", num start);
     ("type", VString "ImportAttribute"); ("value", value)].

Definition ImportDeclaration (position : number) : M any :=
  let '(start, position) := next buffer position in
  let '(end_, position) := next buffer position in
  let '(sourcePosition, position) := next buffer position in
  source <- convertNode sourcePosition ;;
  let '(assertionsPosition, position) := next buffer position in
  assertions <- convertNodeList assertionsPosition ;;
  specifiers <- convertNodeList position ;;
  object_literal
    [("assertions", assertions); ("end", num end_); ("source", source);
     ("specifiers", specifiers); ("start", num start);
     ("type", VString "ImportDeclaration")].

Definition ImportDefaultSpecifier (position : number) : M any :=
  let '(start, position) := next buffer position in
  let '(end_, position) := next buffer position in
  local <- convertNode position ;;
  object_literal
    [("end", num end_); ("local", local); ("start", num start);
     ("type", VString "ImportDefaultSpecifier")].

Definition ImportExpression (position : number) : M any :=
  let '(start, position) := next buffer position in
  let '(end_, position) := next buffer position in
  let '(argumentsPosition, position) := next buffer position in
  arguments_ <- convertNodeList argumentsPosition ;;
  source <- convertNode position ;;
  object_literal
    [("arguments", arguments_); ("end", num end_); ("source", source);
     ("start", num start); ("type", VString "ImportExpression")].

Definition ImportNamespaceSpecifier (position : number) : M any :=
  let '(start, position) := next buffer position in
  let '(end_, position) := next buffer position in
  local <- convertNode position ;;
  object_literal
    [("end", num end_); ("local", local); ("start", num start);
     ("type", VString "ImportNamespaceSpecifier")].

Definition ImportSpecifier (position : number) : M any :=
  let '(start, position) := next buffer position in
  let '(end_, position) := next buffer position in
  let '(importedPosition, position) := next buffer position in
  local <- convertNode position ;;
  imported <- (if truthy importedPosition then convertNode importedPosition else ret local) ;;
  object_literal
    [("end", num end_); ("imported", imported); ("local", local);
     ("start", num start); ("type", VString "ImportSpecifier")].

Definition LabeledStatement (position : number) : M any :=
  let '(start, position) := next buffer position in
  let '(end_, position) := next buffer position in
  let '(bodyPosition, position) := next buffer position in
  body <- convertNode bodyPosition ;;
  label <- convertNode position ;;
  object_literal
    [("body", body); ("end", num end_); ("label", label);
     ("start", num start); ("type", VString "LabeledStatement")].

Definition Literal_string (position : number) : M any :=
  let '(start, position) := next buffer position in
  let '(end_, position) := next buffer position in
  let '(rawPosition, position) := next buffer position in
  let raw := if truthy rawPosition then VString (convertString rawPosition) else VUndefined in
  let value := convertString position in
  object_literal
    [("end", num end_); ("raw", raw); ("start", num start);
     ("type", VString "Literal"); ("value", VString value)].

Definition Literal_boolean (position : number) : M any :=
  let '(start, position) := next buffer position in
  let '(end_, position) := next buffer position in
  let '(value, position) := flag (next buffer position) in
  object_literal
    [("end", num end_); ("raw", VString (if value then "true" else "false"));
     ("start", num start); ("type", VString "Literal"); ("value", VBool value)].

Definition Literal_number (position : number) : M any :=
  let '(start, position) := next buffer position in
  let '(end_, position) := next buffer position in
  let '(rawPosition, position) := next buffer position in
  let raw := if truthy rawPosition then VString (convertString rawPosition) else VUndefined in
  value <- match getFloat64 buffer (shiftLeft position 2) with
           | Some f => ret f
           | None => throw RangeError
           end ;;
  object_literal
    [("end", num end_); ("raw", raw); ("start", num start);
     ("type", VString "Literal"); ("value", VDouble value)].

Definition Literal_null (position : number) : M any :=
  let '(start, position) := next buffer position in
  let '(end_, position) := next buffer position in
  object_literal
    [("end", num end_); ("raw", VString "null"); ("start", num start);
     ("type", VString "Literal"); ("value", VNull)].

Definition Literal_RegExp (position : number) : M any :=
  let '(start, position) := next buffer position in
  let '(end_, position) := next buffer position in
  let '(patternPosition, position) := next buffer position in
  let pattern := convertString patternPosition in
  let flags := convertString position in
  regex <- object_literal [("flags", VString flags); ("pattern", VString pattern)] ;;
  value <- (if RegExp js pattern flags
            then id <- allocate ;; ret (VRegExp id pattern flags)
            else throw SyntaxError) ;;
  object_literal
    [("end", num end_);
     ("raw", VString ("/" ++ pattern ++ "/" ++ flags)%string);
     ("regex", regex); ("start", num start); ("type", VString "Literal");
     ("value", value)].

Definition Literal_bigint (position : number) : M any :=
  let '(start, position) := next buffer position in
  let '(end_, position) := next buffer position in
  let '(bigintPosition, position) := next buffer position in
  let bigint := convertString bigintPosition in
  let raw := convertString position in
  value <- match BigInt js bigint with
           | Some n => ret (VBigInt n)
           | None => throw SyntaxError
           end ;;
  object_literal
    [("bigint", VString bigint); ("end", num end_); ("raw", VString raw);
     ("start", num start); ("type", VString "Literal"); ("value", value)].

Definition LogicalExpression (position : number) : M any :=
  let '(start, position) := next buffer position in
  let '(end_, position) := next buffer position in
  let '(leftPosition, position) := next buffer position in
  left <- convertNode leftPosition ;;
  let '(rightPosition, position) := next buffer position in
  right <- convertNode rightPosition ;;
  let operator := convertString position in
  object_literal
    [("end", num end_); ("left", left); ("operator", VString operator);
     ("right", right); ("start", num start);
     ("type", VString "LogicalExpression")].

Definition MemberExpression (position : number) : M any :=
  let '(start, position) := next buffer position in
  let '(end_, position) := next buffer position in
  let '(optional, position) := flag (next buffer position) in
  let '(objectPosition, position) := next buffer position in
  object <- convertNode objectPosition ;;
  let '(computed, position) := flag (next buffer position) in
  property <- convertNode position ;;
  object_literal
    [("computed", VBool computed); ("end", num end_); ("object", object);
     ("optional", VBool optional); ("property", property);
     ("start", num start); ("type", VString "MemberExpression")].

Definition MetaProperty (position : number) : M any :=
  let '(start, position) := next buffer position in
  let '(end_, position) := next buffer position in
  let '(metaPosition, position) := next buffer position in
  meta <- convertNode metaPosition ;;
  property <- convertNode position ;;
  object_literal
    [("end", num end_); ("meta", meta); ("property", property);
     ("start", num start); ("type", VString "MetaProperty")].

Definition MethodDefinition (position : number) : M any :=
  let '(start, position) := next buffer position in
  let '(end_, position) := next buffer position in
  let '(kindIndex, position) := next buffer position in
  let kind := kind_name METHOD_DEFINITION_KINDS kindIndex in
  let '(computed, position) := flag (next buffer position) in
  let '(isStatic, position) := flag (next buffer position) in
  let '(valuePosition, position) := next buffer position in
  value <- convertNode valuePosition ;;
  key <- convertNode position ;;
  object_literal
    [("computed", VBool computed); ("end", num end_); ("key", key);
     ("kind", kind); ("start", num start); ("static", VBool isStatic);
     ("type", VString "MethodDefinition"); ("value", value)].

Definition NewExpression (position : number) : M any :=
  let '(start, position) := next buffer position in
  let '(end_, position) := next buffer position in
  let '(argumentsPosition, position) := next buffer position in
  callee <- convertNode position ;;
  arguments_ <- (if truthy argumentsPosition
                 then convertNodeList argumentsPosition
                 else id <- allocate ;; ret (VArray id [])) ;;
  object_literal
    [("arguments", arguments_); ("callee", callee); ("end", num end_);
     ("start", num start); ("type", VString "NewExpression")].

Definition ObjectExpression (position : number) : M any :=
  let '(start, position) := next buffer position in
  let '(end_, position) := next buffer position in
  properties <- convertNodeList position ;;
  object_literal
    [("end", num end_); ("properties", properties); ("start", num start);
     ("type", VString "ObjectExpression")].

Definition ObjectPattern (position : number) : M any :=
  let '(start, position) := next buffer position in
  let '(end_, position) := next buffer position in
  properties <- convertNodeList position ;;
  object_literal
    [("end", num end_); ("properties", properties); ("start", num start);
     ("type", VString "ObjectPattern")].

Definition PrivateIdentifier (position : number) : M any :=
  let '(start, position) := next buffer position in
  let '(end_, position) := next buffer position in
  let name := convertString position in
  object_literal
    [("end", num end_); ("name", VString name); ("start", num start);
     ("type", VString "PrivateIdentifier")].

Definition Program (position : number) : M any :=
  let '(start, position) := next buffer position in
  let '(end_, position) := next buffer position in
  body <- convertNodeList position ;;
  object_literal
    [("body", body); ("end", num end_); ("sourceType", VString "module");
     ("start", num start); ("type", VString "Program")].

Definition Property (position : number) : M any :=
  let '(start, position) := next buffer position in
  let '(end_, position) := next buffer position in
  let '(kindIndex, position) := next buffer position in
  let kind := kind_name PROPERTY_KINDS kindIndex in
  let '(method, position) := flag (next buffer position) in
  let '(computed, position) := flag (next buffer position) in
  let '(valuePosition, position) := next buffer position in
  let shorthand := negb (truthy valuePosition) in
  key <- convertNode position ;;
  value <- (if truthy valuePosition then convertNode valuePosition else ret key) ;;
  object_literal
    [("computed", VBool computed); ("end", num end_); ("key", key);
     ("kind", kind); ("method", VBool method); ("shorthand", VBool shorthand);
     ("start", num start); ("type", VString "Property"); ("value", value)].

Definition PropertyDefinition (position : number) : M any :=
  let '(start, position) := next buffer position in
  let '(end_, position) := next buffer position in
  let '(computed, position) := flag (next buffer position) in
  let '(isStatic, position) := flag (next buffer position) in
  let '(valuePosition, position) := next buffer position in
  key <- convertNode position ;;
  value <- (if truthy valuePosition then convertNode valuePosition else ret VNull) ;;
  object_literal
    [("computed", VBool computed); ("end", num end_); ("key", key);
     ("start", num start); ("static", VBool isStatic);
     ("type", VString "PropertyDefinition"); ("value", value)].

Definition RestElement (position : number) : M any :=
  let '(start, position) := next buffer position in
  let '(end_, position) := next buffer position in
  argument <- convertNode position ;;
  object_literal
    [("argument", argument); ("end", num end_); ("start", num start);
     ("type", VString "RestElement")].

Definition ReturnStatement (position : number) : M any :=
  let '(start, position) := next buffer position in
  let '(end_, position) := next buffer position in
  let argumentPosition := buffer.[position] in
  argument <- (if truthy argumentPosition then convertNode argumentPosition else ret VNull) ;;
  object_literal
    [("argument", argument); ("end", num end_); ("start", num start);
     ("type", VString "ReturnStatement")].

Definition SequenceExpression (position : number) : M any :=
  let '(start, position) := next buffer position in
  let '(end_, position) := next buffer position in
  expressions <- convertNodeList position ;;
  object_literal
    [("end", num end_); ("expressions", expressions); ("start", num start);
     ("type", VString "SequenceExpression")].

Definition SpreadElement (position : number) : M any :=
  let '(start, position) := next buffer position in
  let '(end_, position) := next buffer position in
  let '(argumentPosition, position) := next buffer position in
  argument <- convertNode argumentPosition ;;
  object_literal
    [("argument", argument); ("end", num end_); ("start", num start);
     ("type", VString "SpreadElement")].

Definition StaticBlock (position : number) : M any :=
  let '(start, position) := next buffer position in
  let '(end_, position) := next buffer position in
  body <- convertNodeList position ;;
  object_literal
    [("body", body); ("end", num end_); ("start", num start);
     ("type", VString "StaticBlock")].

Definition Super (position : number) : M any :=
  let '(start, position) := next buffer position in
  let '(end_, position) := next buffer position in
  object_literal
    [("end", num end_); ("start", num start); ("type", VString "Super")].

Definition SwitchCase (position : number) : M any :=
  let '(start, position) := next buffer position in
  let '(end_, position) := next buffer position in
  let '(testPosition, position) := next buffer position in
  consequent <- convertNodeList position ;;
  test <- (if truthy testPosition then convertNode testPosition else ret VNull) ;;
  object_literal
    [("consequent", consequent); ("end", num end_); ("start", num start);
     ("test", test); ("type", VString "SwitchCase")].

Definition SwitchStatement (position : number) : M any :=
  let '(start, position) := next buffer position in
  let '(end_, position) := next buffer position in
  let '(discriminantPosition, position) := next buffer position in
  discriminant <- convertNode discriminantPosition ;;
  cases <- convertNodeList position ;;
  object_literal
    [("cases", cases); ("discriminant", discriminant); ("end", num end_);
     ("start", num start); ("type", VString "SwitchStatement")].

Definition ThisExpression (position : number) : M any :=
  let '(start, position) := next buffer position in
  let '(end_, position) := next buffer position in
  object_literal
    [("end", num end_); ("start", num start);
     ("type", VString "ThisExpression")].

Definition ThrowStatement (position : number) : M any :=
  let '(start, position) := next buffer position in
  let '(end_, position) := next buffer position in
  argument <- convertNode position ;;
  object_literal
    [("argument", argument); ("end", num end_); ("start", num start);
     ("type", VString "ThrowStatement")].

Definition TryStatement (position : number) : M any :=
  let '(start, position) := next buffer position in
  let '(end_, position) := next buffer position in
  let '(handlerPosition, position) := next buffer position in
  let '(finalizerPosition, position) := next buffer position in
  block <- convertNode position ;;
  finalizer <- (if truthy finalizerPosition then convertNode finalizerPosition else ret VNull) ;;
  handler <- (if truthy handlerPosition then convertNode handlerPosition else ret VNull) ;;
  object_literal
    [("block", block); ("end", num end_); ("finalizer", finalizer);
     ("handler", handler); ("start", num start);
     ("type", VString "TryStatement")].

Definition VariableDeclaration (position : number) : M any :=
  let '(start, position) := next buffer position in
  let '(end_, position) := next buffer position in
  let '(kindIndex, position) := next buffer position in
  let kind := kind_name DECLARATION_KINDS kindIndex in
  declarations <- convertNodeList position ;;
  object_literal
    [("declarations", declarations); ("end", num end_); ("kind", kind);
     ("start", num start); ("type", VString "VariableDeclaration")].

Definition VariableDeclarator (position : number) : M any :=
  let '(start, position) := next buffer position in
  let '(end_, position) := next buffer position in
  let '(init_position, position) := next buffer position in
  id <- convertNode position ;;
  init <- (if truthy init_position then convertNode init_position else ret VNull) ;;
  object_literal
    [("end", num end_); ("id", id); ("init", init); ("start", num start);
     ("type", VString "VariableDeclarator")].

Definition WhileStatement (position : number) : M any :=
  let '(start, position) := next buffer position in
  let '(end_, position) := next buffer position in
  let '(testPosition, position) := next buffer position in
  test <- convertNode testPosition ;;
  body <- convertNode position ;;
  object_literal
    [("body", body); ("end", num end_); ("start", num start); ("test", test);
     ("type", VString "WhileStatement")].

Definition AssignmentPatternProperty (position : number) : M any :=
  let '(start, position) := next buffer position in
  let '(end_, position) := next buffer position in
  let '(valuePosition, position) := next buffer position in
  key <- convertNode position ;;
  value <- (if truthy valuePosition then convertNode valuePosition else ret key) ;;
  object_literal
    [("computed", VBool false); ("end", num end_); ("key", key);
     ("kind", VString "init"); ("method", VBool false);
     ("shorthand", VBool (negb (truthy valuePosition))); ("start", num start);
     ("type", VString "Property"); ("value", value)].

(** The table, in the order of the source; [None] is a [null] entry, the
    place of a node kind that has no converter yet. *)
Definition nodeConverters : list (option (number -> M any)) :=
  [ Some ArrayExpression;
    Some ArrayPattern;
    Some ArrowFunctionExpression;
    Some AssignmentExpression;
    Some AssignmentPattern;
    Some AwaitExpression;
    Some BinaryExpression;
    Some BlockStatement;
    Some BreakStatement;
    Some CallExpression;
    Some CatchClause;
    Some ChainExpression;
    Some ClassBody;
    Some ClassDeclaration;
    Some ClassExpression;
    Some ConditionalExpression;
    Some ContinueStatement;
    Some DebuggerStatement;
    Some DoWhileStatement;
    Some EmptyStatement;
    Some ExportAllDeclaration;
    Some ExportDefaultDeclaration;
    Some ExportNamedDeclaration;
    Some ExportSpecifier;
    Some ExpressionStatement;
    Some ForInStatement;
    Some ForOfStatement;
    Some ForStatement;
    Some FunctionDeclaration;
    Some FunctionExpression;
    Some Identifier;
    Some IfStatement;
    Some ImportAttribute;
    Some ImportDeclaration;
    Some ImportDefaultSpecifier;
    Some ImportExpression;
    Some ImportNamespaceSpecifier;
    Some ImportSpecifier;
    Some LabeledStatement;
    Some Literal_string;
    Some Literal_boolean;
    Some Literal_number;
    Some Literal_null;
    Some Literal_RegExp;
    Some Literal_bigint;
    Some LogicalExpression;
    Some MemberExpression;
    Some MetaProperty;
    Some MethodDefinition;
    Some NewExpression;
    Some ObjectExpression;
    Some ObjectPattern;
    Some PrivateIdentifier;
    Some Program;
    Some Property;
    Some PropertyDefinition;
    Some RestElement;
    Some ReturnStatement;
    Some SequenceExpression;
    Some SpreadElement;
    Some StaticBlock;
    Some Super;
    Some SwitchCase;
    Some SwitchStatement;
    None (* TaggedTemplateExpression *);
    None (* TemplateElement *);
    None (* TemplateLiteral *);
    Some ThisExpression;
    Some ThrowStatement;
    Some TryStatement;
    None (* UnaryExpression *);
    None (* UpdateExpression *);
    Some VariableDeclaration;
    Some VariableDeclarator;
    Some WhileStatement;
    None (* YieldExpression *);
    Some AssignmentPatternProperty ].

End Converters.

(** [nodeConverters[nodeType]]: [undefined] ([None]) for a [null] entry,
    for an index past the end of the table, and for [undefined]. *)
Definition table_entry {A : Type} (table : list (option A)) (nodeType : number) : option A :=
  match nodeType with
  | Some i =>
      match nth_error table (Z.to_nat i) with
      | Some (Some converter) => Some converter
      | _ => None
      end
  | None => None
  end.

(** [convertNode]: the dispatch on the tag word.  [console.trace()] writes
    the call stack to the console and is not part of the result.  [fuel]
    bounds the depth of the recursion. *)
Fixpoint convertNode (fuel : nat) (js : Host) (position : number)
    (buffer : Uint32Array) (readString : ReadString) {struct fuel} : M any :=
  match fuel with
  | O => out_of_fuel
  | S fuel =>
      let nodeType := buffer.[position] in
      let converter :=
        table_entry
          (nodeConverters js buffer readString
             (fun position => convertNode fuel js position buffer readString))
          nodeType in
      match converter with
      | None => throw (Error ("Unknown node type: " ++ toString nodeType)%string)
      | Some converter => converter (incr position)
      end
  end.

(** [convertProgram]: [new Uint32Array(buffer)] throws a [RangeError] when
    the byte length is not a multiple of 4. *)
Definition convertProgram (fuel : nat) (js : Host) (buffer : ArrayBuffer)
    (readString : ReadString) : M any :=
  if byteLength buffer mod 4 =? 0
  then convertNode fuel js (Some 0) buffer readString
  else throw RangeError.

(** ** What the theorems speak about *)

(** The tags whose place in the table is [null]: TaggedTemplateExpression,
    TemplateElement, TemplateLiteral, UnaryExpression, UpdateExpression and
    YieldExpression. *)
Definition reserved_tags : list Z := [64; 65; 66; 70; 71; 75].

(** A tag word for which the table has no converter, whatever the buffer
    and the resolver. *)
Definition no_converter (nodeType : number) : Prop :=
  forall js buffer readString node,
    table_entry (nodeConverters js buffer readString node) nodeType = None.

(** A property [P] of an entry of the table: it holds of the converter, if
    the entry has one. *)
Definition for_converter (P : (number -> M any) -> Prop)
    (entry : option (number -> M any)) : Prop :=
  match entry with
  | Some converter => P converter
  | None => True
  end.

(** The value that stands for an absent child. *)
Inductive absence : Type :=
| AbsentNull
| AbsentUndefined
| AbsentEmptyArray.

Definition is_absent (a : absence) (v : option any) : Prop :=
  match a with
  | AbsentNull => v = Some VNull
  | AbsentUndefined => v = Some VUndefined
  | AbsentEmptyArray => exists id, v = Some (VArray id [])
  end.

(** The optional children of the node kinds: the tag of the kind, the
    offset of the reference word from the tag word, the property the child
    fills, and the value of the property when there is no child.  These are
    the references that the source tests with [reference ? ... : null] (or
    [undefined], or [[]]). *)
Definition optional_references : list (Z * Z * string * absence) :=
  [ (8, 3, "label", AbsentNull)          (* BreakStatement *);
    (10, 3, "param", AbsentNull)         (* CatchClause *);
    (13, 3, "id", AbsentNull)            (* ClassDeclaration *);
    (13, 4, "superClass", AbsentNull);
    (14, 3, "id", AbsentNull)            (* ClassExpression *);
    (14, 4, "superClass", AbsentNull);
    (16, 3, "label", AbsentNull)         (* ContinueStatement *);
    (20, 4, "exported", AbsentNull)      (* ExportAllDeclaration *);
    (22, 3, "declaration", AbsentNull)   (* ExportNamedDeclaration *);
    (22, 4, "source", AbsentNull);
    (27, 3, "init", AbsentNull)          (* ForStatement *);
    (27, 4, "test", AbsentNull);
    (27, 5, "update", AbsentNull);
    (28, 5, "id", AbsentNull)            (* FunctionDeclaration *);
    (29, 5, "id", AbsentNull)            (* FunctionExpression *);
    (31, 4, "alternate", AbsentNull)     (* IfStatement *);
    (39, 3, "raw", AbsentUndefined)      (* Literal<string> *);
    (41, 3, "raw", AbsentUndefined)      (* Literal<number> *);
    (49, 3, "arguments", AbsentEmptyArray) (* NewExpression *);
    (55, 5, "value", AbsentNull)         (* PropertyDefinition *);
    (57, 3, "argument", AbsentNull)      (* ReturnStatement *);
    (62, 3, "test", AbsentNull)          (* SwitchCase *);
    (69, 3, "handler", AbsentNull)       (* TryStatement *);
    (69, 4, "finalizer", AbsentNull);
    (73, 3, "init", AbsentNull)          (* VariableDeclarator *) ].

(** The node references of a list header at word [position]: the [count]
    words after the length word, in order. *)
Definition references (buffer : Uint32Array) (position : Z) (count : nat) : list number :=
  map (fun index => buffer.[Some (position + 1 + Z.of_nat index)]) (seq 0 count).

(** Where the length word of a text span stands, for a node whose tag word
    is at [p]: at a fixed offset from the tag word, or at the position that
    the word at that offset holds; [WhenSet] is the latter for a reference
    that is only followed when it is not 0. *)
Inductive span_place : Type :=
| Here (offset : Z)
| There (offset : Z)
| WhenSet (offset : Z).

Definition span_position (buffer : Uint32Array) (p : Z) (place : span_place) : number :=
  match place with
  | Here offset => Some (p + offset)
  | There offset => buffer.[Some (p + offset)]
  | WhenSet offset =>
      if truthy buffer.[Some (p + offset)] then buffer.[Some (p + offset)] else None
  end.

(** The property at the end of a path of property names. *)
Fixpoint property_at (path : list string) (v : any) : option any :=
  match path with
  | [] => Some v
  | name :: rest =>
      match property name v with
      | Some child => property_at rest child
      | None => None
      end
  end.

(** The text spans of the node kinds: the tag, the place of the span and
    the property that receives the text. *)
Definition text_spans : list (Z * span_place * list string) :=
  [ (3, Here 5, ["operator"])            (* AssignmentExpression *);
    (6, Here 5, ["operator"])            (* BinaryExpression *);
    (30, Here 3, ["name"])               (* Identifier *);
    (39, WhenSet 3, ["raw"])             (* Literal<string> *);
    (39, Here 4, ["value"]);
    (41, WhenSet 3, ["raw"])             (* Literal<number> *);
    (43, There 3, ["regex"; "pattern"])  (* Literal<RegExp> *);
    (43, Here 4, ["regex"; "flags"]);
    (44, There 3, ["bigint"])            (* Literal<bigint> *);
    (44, Here 4, ["raw"]);
    (45, Here 5, ["operator"])           (* LogicalExpression *);
    (52, Here 3, ["name"])               (* PrivateIdentifier *) ].

(** *** The identities of a value

    The identities of all the objects that a value holds, itself first. *)
Fixpoint identities (v : any) : list nat :=
  match v with
  | VRegExp id _ _ => [id]
  | VArray id elements => id :: flat_map identities elements
  | VObject id properties =>
      id :: flat_map (fun entry => identities (snd entry)) properties
  | _ => []
  end.

(** Every object of [v] was allocated between the states [lo] and [hi]. *)
Definition allocated_within (lo hi : nat) (v : any) : Prop :=
  Forall (fun id => (lo <= id < hi)%nat) (identities v).

(** A computation whose objects are all new: allocated between the state it
    starts from and the state it ends in. *)
Definition allocates (m : M any) : Prop :=
  forall st v st', m st = Return (v, st') ->
    (st <= st')%nat /\ allocated_within st st' v.

(** The references whose default is a sibling property: the tag, the offset
    of the reference word, the property it fills and the sibling. *)
Definition sibling_defaults : list (Z * Z * string * string) :=
  [ (23, 3, "exported", "local")   (* ExportSpecifier *);
    (37, 3, "imported", "local")   (* ImportSpecifier *);
    (54, 6, "value", "key")        (* Property *);
    (76, 3, "value", "key")        (* AssignmentPatternProperty *) ].

(** *** The structure of a value

    [erase] forgets which allocation made each object: two values with the
    same erasure are structurally identical (deep-equal), whether or not
    they are the same objects. *)
Class Erase (A : Type) : Type := erase : A -> A.

Fixpoint erase_any (v : any) : any :=
  match v with
  | VRegExp _ pattern flags => VRegExp O pattern flags
  | VArray _ elements => VArray O (map erase_any elements)
  | VObject _ properties =>
      VObject O (map (fun entry => (fst entry, erase_any (snd entry))) properties)
  | _ => v
  end.

#[export] Instance Erase_any : Erase any := erase_any.
#[export] Instance Erase_list : Erase (list any) := map erase_any.
#[export] Instance Erase_nat : Erase nat := fun _ => O.
#[export] Instance Erase_float : Erase spec_float := fun f => f.

(** What a caller can observe of a call, up to the identity of the
    objects: the structure of the returned value, or the exception. *)
Definition observe {A : Type} `{Erase A} (o : outcome (A * nat)) : outcome A :=
  match o with
  | Return (a, _) => Return (erase a)
  | Throw e => Throw e
  | OutOfFuel => OutOfFuel
  end.

(** Two computations that a caller cannot tell apart by the structure of
    what they return or by what they throw, from whatever states they
    start. *)
Definition similar {A : Type} `{Erase A} (m m' : M A) : Prop :=
  forall st1 st2, observe (m st1) = observe (m' st2).

(** [m'] does what [m] does wherever [m] does not run out of fuel. *)
Definition refines {A : Type} (m m' : M A) : Prop :=
  forall st, m st <> OutOfFuel -> m' st = m st.

(** *** The fields of the node kinds *)

(** The value of the [type] property that the converter of each tag
    writes, in the order of the table ([None] where the table has no
    converter): the six kinds of literal share the type Literal, and the
    last converter writes Property. *)
Definition node_types : list (option string) :=
  [ Some "ArrayExpression"; Some "ArrayPattern";
    Some "ArrowFunctionExpression"; Some "AssignmentExpression";
    Some "AssignmentPattern"; Some "AwaitExpression"; Some "BinaryExpression";
    Some "BlockStatement"; Some "BreakStatement"; Some "CallExpression";
    Some "CatchClause"; Some "ChainExpression"; Some "ClassBody";
    Some "ClassDeclaration"; Some "ClassExpression";
    Some "ConditionalExpression"; Some "ContinueStatement";
    Some "DebuggerStatement"; Some "DoWhileStatement"; Some "EmptyStatement";
    Some "ExportAllDeclaration"; Some "ExportDefaultDeclaration";
    Some "ExportNamedDeclaration"; Some "ExportSpecifier";
    Some "ExpressionStatement"; Some "ForInStatement"; Some "ForOfStatement";
    Some "ForStatement"; Some "FunctionDeclaration"; Some "FunctionExpression";
    Some "Identifier"; Some "IfStatement"; Some "ImportAttribute";
    Some "ImportDeclaration"; Some "ImportDefaultSpecifier";
    Some "ImportExpression"; Some "ImportNamespaceSpecifier";
    Some "ImportSpecifier"; Some "LabeledStatement"; Some "Literal";
    Some "Literal"; Some "Literal"; Some "Literal"; Some "Literal";
    Some "Literal"; Some "LogicalExpression"; Some "MemberExpression";
    Some "MetaProperty"; Some "MethodDefinition"; Some "NewExpression";
    Some "ObjectExpression"; Some "ObjectPattern"; Some "PrivateIdentifier";
    Some "Program"; Some "Property"; Some "PropertyDefinition";
    Some "RestElement"; Some "ReturnStatement"; Some "SequenceExpression";
    Some "SpreadElement"; Some "StaticBlock"; Some "Super"; Some "SwitchCase";
    Some "SwitchStatement"; None; None; None; Some "ThisExpression";
    Some "ThrowStatement"; Some "TryStatement"; None; None;
    Some "VariableDeclaration"; Some "VariableDeclarator";
    Some "WhileStatement"; None; Some "Property" ].

(** Where the reference to a child stands, for a node whose tag word is at
    [p]: the child is decoded in place, at a fixed offset from the tag word
    ([convertNode(position, ...)]); or at the position that the word at that
    offset holds ([convertNode(buffer[position++], ...)]); [IfSet] is the
    latter for a reference that is only followed when it is not 0. *)
Inductive child_place : Type :=
| Inline (offset : Z)
| Referenced (offset : Z)
| IfSet (offset : Z).

(** The position that a child is decoded at, if it is decoded. *)
Definition child_reference (buffer : Uint32Array) (p : Z) (place : child_place)
    : option number :=
  match place with
  | Inline offset => Some (Some (p + offset))
  | Referenced offset => Some buffer.[Some (p + offset)]
  | IfSet offset =>
      if truthy buffer.[Some (p + offset)]
      then Some buffer.[Some (p + offset)]
      else None
  end.

(** The calls of [convertNode] in the converters: the tag, the place of
    the child and the property that receives the decoded node. *)
Definition child_nodes : list (Z * child_place * string) :=
  [ (2, Inline 7, "body")              (* ArrowFunctionExpression *);
    (3, Referenced 3, "left")          (* AssignmentExpression *);
    (3, Referenced 4, "right");
    (4, Referenced 3, "left")          (* AssignmentPattern *);
    (4, Inline 4, "right");
    (5, Inline 3, "argument")          (* AwaitExpression *);
    (6, Referenced 3, "left")          (* BinaryExpression *);
    (6, Referenced 4, "right");
    (8, IfSet 3, "label")              (* BreakStatement *);
    (9, Referenced 4, "callee")        (* CallExpression *);
    (10, IfSet 3, "param")             (* CatchClause *);
    (10, Inline 4, "body");
    (11, Inline 3, "expression")       (* ChainExpression *);
    (13, IfSet 3, "id")                (* ClassDeclaration *);
    (13, IfSet 4, "superClass");
    (13, Referenced 5, "body");
    (14, IfSet 3, "id")                (* ClassExpression *);
    (14, IfSet 4, "superClass");
    (14, Referenced 5, "body");
    (15, Referenced 3, "test")         (* ConditionalExpression *);
    (15, Referenced 4, "consequent");
    (15, Inline 5, "alternate");
    (16, IfSet 3, "label")             (* ContinueStatement *);
    (18, Referenced 3, "test")         (* DoWhileStatement *);
    (18, Inline 4, "body");
    (20, IfSet 4, "exported")          (* ExportAllDeclaration *);
    (20, Inline 5, "source");
    (21, Inline 3, "declaration")      (* ExportDefaultDeclaration *);
    (22, IfSet 3, "declaration")       (* ExportNamedDeclaration *);
    (22, IfSet 4, "source");
    (23, IfSet 3, "exported")          (* ExportSpecifier *);
    (23, Inline 4, "local");
    (24, Inline 3, "expression")       (* ExpressionStatement *);
    (25, Referenced 3, "left")         (* ForInStatement *);
    (25, Referenced 4, "right");
    (25, Inline 5, "body");
    (26, Referenced 4, "left")         (* ForOfStatement *);
    (26, Referenced 5, "right");
    (26, Inline 6, "body");
    (27, IfSet 3, "init")              (* ForStatement *);
    (27, IfSet 4, "test");
    (27, IfSet 5, "update");
    (27, Inline 6, "body");
    (28, IfSet 5, "id")                (* FunctionDeclaration *);
    (28, Inline 7, "body");
    (29, IfSet 5, "id")                (* FunctionExpression *);
    (29, Inline 7, "body");
    (31, Referenced 3, "consequent")   (* IfStatement *);
    (31, IfSet 4, "alternate");
    (31, Inline 5, "test");
    (32, Referenced 3, "key")          (* ImportAttribute *);
    (32, Inline 4, "value");
    (33, Referenced 3, "source")       (* ImportDeclaration *);
    (34, Inline 3, "local")            (* ImportDefaultSpecifier *);
    (35, Inline 4, "source")           (* ImportExpression *);
    (36, Inline 3, "local")            (* ImportNamespaceSpecifier *);
    (37, IfSet 3, "imported")          (* ImportSpecifier *);
    (37, Inline 4, "local");
    (38, Referenced 3, "body")         (* LabeledStatement *);
    (38, Inline 4, "label");
    (45, Referenced 3, "left")         (* LogicalExpression *);
    (45, Referenced 4, "right");
    (46, Referenced 4, "object")       (* MemberExpression *);
    (46, Inline 6, "property");
    (47, Referenced 3, "meta")         (* MetaProperty *);
    (47, Inline 4, "property");
    (48, Referenced 6, "value")        (* MethodDefinition *);
    (48, Inline 7, "key");
    (49, Inline 4, "callee")           (* NewExpression *);
    (54, IfSet 6, "value")             (* Property *);
    (54, Inline 7, "key");
    (55, IfSet 5, "value")             (* PropertyDefinition *);
    (55, Inline 6, "key");
    (56, Inline 3, "argument")         (* RestElement *);
    (57, IfSet 3, "argument")          (* ReturnStatement *);
    (59, Referenced 3, "argument")     (* SpreadElement *);
    (62, IfSet 3, "test")              (* SwitchCase *);
    (63, Referenced 3, "discriminant") (* SwitchStatement *);
    (68, Inline 3, "argument")         (* ThrowStatement *);
    (69, IfSet 3, "handler")           (* TryStatement *);
    (69, IfSet 4, "finalizer");
    (69, Inline 5, "block");
    (73, IfSet 3, "init")              (* VariableDeclarator *);
    (73, Inline 4, "id");
    (74, Referenced 3, "test")         (* WhileStatement *);
    (74, Inline 4, "body");
    (76, IfSet 3, "value")             (* AssignmentPatternProperty *);
    (76, Inline 4, "key") ].

(** The calls of [convertNodeList] in the converters: the tag, the place
    of the list header and the property that receives the array. *)
Definition child_lists : list (Z * child_place * string) :=
  [ (0, Inline 3, "elements")        (* ArrayExpression *);
    (1, Inline 3, "elements")        (* ArrayPattern *);
    (2, Referenced 5, "params")      (* ArrowFunctionExpression *);
    (7, Inline 3, "body")            (* BlockStatement *);
    (9, Inline 5, "arguments")       (* CallExpression *);
    (12, Inline 3, "body")           (* ClassBody *);
    (20, Referenced 3, "assertions") (* ExportAllDeclaration *);
    (22, Referenced 5, "assertions") (* ExportNamedDeclaration *);
    (22, Inline 6, "specifiers");
    (28, Referenced 6, "params")     (* FunctionDeclaration *);
    (29, Referenced 6, "params")     (* FunctionExpression *);
    (33, Referenced 4, "assertions") (* ImportDeclaration *);
    (33, Inline 5, "specifiers");
    (35, Referenced 3, "arguments")  (* ImportExpression *);
    (49, IfSet 3, "arguments")       (* NewExpression *);
    (50, Inline 3, "properties")     (* ObjectExpression *);
    (51, Inline 3, "properties")     (* ObjectPattern *);
    (53, Inline 3, "body")           (* Program *);
    (58, Inline 3, "expressions")    (* SequenceExpression *);
    (60, Inline 3, "body")           (* StaticBlock *);
    (62, Inline 4, "consequent")     (* SwitchCase *);
    (63, Inline 4, "cases")          (* SwitchStatement *);
    (72, Inline 4, "declarations")   (* VariableDeclaration *) ].

(** The words that the converters read as [!!buffer[position++]]: the tag,
    the offset of the word and the property that receives the boolean. *)
Definition flag_words : list (Z * Z * string) :=
  [ (2, 3, "async")      (* ArrowFunctionExpression *);
    (2, 4, "generator");
    (2, 6, "expression");
    (9, 3, "optional")   (* CallExpression *);
    (26, 3, "await")     (* ForOfStatement *);
    (28, 3, "async")     (* FunctionDeclaration *);
    (28, 4, "generator");
    (29, 3, "async")     (* FunctionExpression *);
    (29, 4, "generator");
    (40, 3, "value")     (* Literal<boolean> *);
    (46, 3, "optional")  (* MemberExpression *);
    (46, 5, "computed");
    (48, 4, "computed")  (* MethodDefinition *);
    (48, 5, "static");
    (54, 4, "method")    (* Property *);
    (54, 5, "computed");
    (55, 3, "computed")  (* PropertyDefinition *);
    (55, 4, "static") ].

(** The words that index a table of kind names: the tag, the offset of the
    word and the table; the property is [kind]. *)
Definition kind_words : list (Z * Z * list string) :=
  [ (48, 3, METHOD_DEFINITION_KINDS)   (* MethodDefinition *);
    (54, 3, PROPERTY_KINDS)            (* Property *);
    (72, 3, DECLARATION_KINDS)         (* VariableDeclaration *) ].

(** The kinds whose converter starts by decoding a child node, before it
    decodes a list or allocates: the tag and the place of that child. *)
Definition first_children : list (Z * child_place) :=
  [ (3, Referenced 3)  (* AssignmentExpression *);
    (4, Referenced 3)  (* AssignmentPattern *);
    (5, Inline 3)      (* AwaitExpression *);
    (6, Referenced 3)  (* BinaryExpression *);
    (9, Referenced 4)  (* CallExpression *);
    (10, Inline 4)     (* CatchClause *);
    (11, Inline 3)     (* ChainExpression *);
    (13, Referenced 5) (* ClassDeclaration *);
    (14, Referenced 5) (* ClassExpression *);
    (15, Referenced 3) (* ConditionalExpression *);
    (18, Referenced 3) (* DoWhileStatement *);
    (21, Inline 3)     (* ExportDefaultDeclaration *);
    (23, Inline 4)     (* ExportSpecifier *);
    (24, Inline 3)     (* ExpressionStatement *);
    (25, Referenced 3) (* ForInStatement *);
    (26, Referenced 4) (* ForOfStatement *);
    (27, Inline 6)     (* ForStatement *);
    (31, Referenced 3) (* IfStatement *);
    (32, Referenced 3) (* ImportAttribute *);
    (33, Referenced 3) (* ImportDeclaration *);
    (34, Inline 3)     (* ImportDefaultSpecifier *);
    (36, Inline 3)     (* ImportNamespaceSpecifier *);
    (37, Inline 4)     (* ImportSpecifier *);
    (38, Referenced 3) (* LabeledStatement *);
    (45, Referenced 3) (* LogicalExpression *);
    (46, Referenced 4) (* MemberExpression *);
    (47, Referenced 3) (* MetaProperty *);
    (48, Referenced 6) (* MethodDefinition *);
    (49, Inline 4)     (* NewExpression *);
    (54, Inline 7)     (* Property *);
    (55, Inline 6)     (* PropertyDefinition *);
    (56, Inline 3)     (* RestElement *);
    (59, Referenced 3) (* SpreadElement *);
    (63, Referenced 3) (* SwitchStatement *);
    (68, Inline 3)     (* ThrowStatement *);
    (69, Inline 5)     (* TryStatement *);
    (73, Inline 4)     (* VariableDeclarator *);
    (74, Referenced 3) (* WhileStatement *);
    (76, Inline 4)     (* AssignmentPatternProperty *) ].

(** The tags of the kinds without children whose converter only reads
    words and text: DebuggerStatement, EmptyStatement, Identifier,
    Literal<string>, Literal<boolean>, Literal<null>, PrivateIdentifier,
    Super and ThisExpression. *)
Definition leaf_tags : list Z := [17; 19; 30; 39; 40; 42; 52; 61; 67].

(** A computation that ends, by returning or by throwing, within its
    fuel. *)
Definition ends {A : Type} (m : M A) : Prop :=
  forall st, m st <> OutOfFuel.

(** The positions at which the list with its header at [position] has its
    nodes decoded: its references that are set. *)
Definition list_callees (buffer : Uint32Array) (position : number) : list number :=
  match position with
  | Some q => filter truthy (references buffer q (iterations_of buffer.[Some q]))
  | None => []
  end.

(** The positions at which the converter of [tag] calls [convertNode],
    itself and through [convertNodeList], for a node whose tag word is at
    [p]: the child nodes of [child_nodes] and the nodes of the lists of
    [child_lists]. *)
Definition callees_of (buffer : Uint32Array) (p : Z) (tag : Z) : list number :=
  flat_map
    (fun '(tag', place, _) =>
       if tag' =? tag
       then match child_reference buffer p place with
            | Some reference => [reference]
            | None => []
            end
       else [])
    child_nodes ++
  flat_map
    (fun '(tag', place, _) =>
       if tag' =? tag
       then match child_reference buffer p place with
            | Some reference => list_callees buffer reference
            | None => []
            end
       else [])
    child_lists.

Definition callees (buffer : Uint32Array) (p : Z) : list number :=
  match buffer.[Some p] with
  | Some tag => callees_of buffer p tag
  | None => []
  end.

(** All the references that are followed from the positions of [nodes]
    point forward, to positions of [nodes]. *)
Definition forward (buffer : Uint32Array) (nodes : Z -> Prop) : Prop :=
  forall p, nodes p ->
    Forall
      (fun reference =>
         match reference with
         | Some q => p < q /\ nodes q
         | None => True
         end)
      (callees buffer p).

(** A computation that returns, from whatever state. *)
Definition returns {A : Type} (m : M A) : Prop :=
  forall st, exists a st', m st = Return (a, st').

(** What the host has to accept of a literal of [tag] at [p]: the two
    value words of a number are in the buffer, the text of a bigint is one
    that [BigInt] takes, the pattern and flags of a regular expression are
    ones that [new RegExp] takes. *)
Definition literal_accepted (js : Host) (buffer : Uint32Array)
    (readString : ReadString) (p : Z) (tag : Z) : Prop :=
  match tag with
  | 41 => getFloat64 buffer (shiftLeft (Some (p + 4)) 2) <> None
  | 43 =>
      RegExp js (convertString buffer readString buffer.[Some (p + 3)])
        (convertString buffer readString (Some (p + 4))) = true
  | 44 => BigInt js (convertString buffer readString buffer.[Some (p + 3)]) <> None
  | _ => True
  end.

(** A buffer that is well formed at the positions of [nodes]: each holds a
    tag with a converter and, for a literal, a value that the host accepts;
    and every position at which the converter of that tag decodes a child
    or a list entry is a later position of [nodes]. *)
Definition well_formed (js : Host) (buffer : Uint32Array)
    (readString : ReadString) (nodes : Z -> Prop) : Prop :=
  forall p, nodes p ->
    exists tag,
      buffer.[Some p] = Some tag /\
      ~ no_converter (Some tag) /\
      literal_accepted js buffer readString p tag /\
      Forall (fun reference => exists q, reference = Some q /\ p < q /\ nodes q)
        (callees_of buffer p tag).

(** What the converter of [tag] throws by itself for a node whose tag word
    is at [p]: the RangeError of [getFloat64] when the value of a numeric
    literal is read outside the buffer, the SyntaxError of [new RegExp]
    refusing the pattern and flags of a regular expression literal, the
    SyntaxError of [BigInt] refusing the text of a bigint literal.  It
    throws no Error. *)
Definition refused (js : Host) (buffer : Uint32Array) (readString : ReadString)
    (p : Z) (tag : Z) (e : exception) : Prop :=
  match e with
  | Error _ => False
  | RangeError =>
      tag = 41 /\ getFloat64 buffer (shiftLeft (Some (p + 4)) 2) = None
  | SyntaxError =>
      (tag = 43 /\
       RegExp js (convertString buffer readString buffer.[Some (p + 3)])
         (convertString buffer readString (Some (p + 4))) = false) \/
      (tag = 44 /\
       BigInt js (convertString buffer readString buffer.[Some (p + 3)]) = None)
  end.

(** What the decoding of the node at [position] throws before it decodes
    any child: the Error of [convertNode] for a tag word without converter,
    with the tag in its message, or what the converter of its tag throws by
    itself. *)
Definition throws_at (js : Host) (buffer : Uint32Array) (readString : ReadString)
    (position : number) (e : exception) : Prop :=
  match e with
  | Error message =>
      no_converter buffer.[position] /\
      message = ("Unknown node type: " ++ toString buffer.[position])%string
  | _ =>
      exists p tag,
        position = Some p /\ buffer.[Some p] = Some tag /\
        refused js buffer readString p tag e
  end.

(** The positions that the decoding of the node at a position gets to: the
    position itself, and what is reached from the positions at which its
    converter has a child or a list entry decoded. *)
Inductive reaches (buffer : Uint32Array) : number -> number -> Prop :=
| reaches_itself position : reaches buffer position position
| reaches_callee p reference position :
    In reference (callees buffer p) ->
    reaches buffer reference position ->
    reaches buffer (Some p) position.

(** What can make the decoding that starts at [start] throw [e]: a node
    that it reaches throws [e]. *)
Definition cause (js : Host) (buffer : Uint32Array) (readString : ReadString)
    (start : number) (e : exception) : Prop :=
  exists position,
    reaches buffer start position /\
    throws_at js buffer readString position e.

(** The properties that a converter fills with a constant, besides [type]
    and the [sourceType] of a Program: the tag, the property and its
    value. *)
Definition constant_properties : list (Z * string * any) :=
  [ (2, "id", VNull)                 (* ArrowFunctionExpression *);
    (28, "expression", VBool false)  (* FunctionDeclaration *);
    (29, "expression", VBool false)  (* FunctionExpression *);
    (42, "raw", VString "null")      (* Literal<null> *);
    (42, "value", VNull);
    (76, "computed", VBool false)    (* AssignmentPatternProperty *);
    (76, "kind", VString "init");
    (76, "method", VBool false) ].

(** ** Buffers for the examples *)

Definition byte_of (z : Z) : byte :=
  match Byte.of_N (Z.to_N (z mod 256)) with
  | Some b => b
  | None => x00
  end.

(** The four bytes of a word, least significant first. *)
Definition word_bytes (w : Z) : list byte :=
  [byte_of w; byte_of (w / 256); byte_of (w / 65536); byte_of (w / 16777216)].

Definition words (ws : list Z) : ArrayBuffer := flat_map word_bytes ws.

(** A resolver that reads the text from the buffer itself, one character
    per byte. *)
Definition text_in (buffer : ArrayBuffer) : ReadString :=
  fun start length =>
    match length with
    | Some n => string_of_list_byte (slice buffer start (Z.to_nat n))
    | None => EmptyString
    end.

(** A resolver that answers with the decimal text of the offset it was
    asked for. *)
Definition offset_text : ReadString :=
  fun start _ => NilZero.string_of_int (Z.to_int start).

(** A host whose [BigInt] and [RegExp] accept every text. *)
Definition lenient_host : Host :=
  {| BigInt := fun _ => Some 0; RegExp := fun _ _ => true |}.

(** [return 1 + 2;]: a Program (word 0) whose body is one ReturnStatement
    (word 5), whose argument is a BinaryExpression (word 9) of two numeric
    literals (words 16 and 22); the operator text is the byte [+] of
    word 15. *)
Definition return_1_plus_2 : ArrayBuffer :=
  words [53; 0; 13; 1; 5;
         57; 0; 13; 9;
         6; 7; 12; 16; 22; 1; 43;
         41; 7; 8; 0; 0; 1072693248;
         41; 11; 12; 0; 0; 1073741824].

(** An EmptyStatement with start 5 and end 9. *)
Definition empty_statement : ArrayBuffer := words [19; 5; 9].

(** An EmptyStatement whose start word is larger than its end word. *)
Definition backwards_statement : ArrayBuffer := words [19; 5; 3].

(** Two reserved tags next to each other. *)
Definition two_reserved : ArrayBuffer := words [64; 64].

(** [if (this) ;] without an [else]: an IfStatement (word 0) whose
    alternate reference is 0, with its test, a ThisExpression, in place
    (word 5) and its consequent, an EmptyStatement, at word 8. *)
Definition if_without_else : ArrayBuffer :=
  words [31; 0; 9; 8; 0; 67; 3; 7; 19; 8; 9].

(** [export { a }]: an ExportSpecifier (word 0) whose exported reference is
    0, with its local Identifier in place (word 4); the name is the byte
    [a] of word 8. *)
Definition export_a : ArrayBuffer :=
  words [23; 9; 10; 0; 30; 9; 10; 1; 97].

(** The same specifier with an exported reference to the very node that is
    its local Identifier. *)
Definition export_a_as_a : ArrayBuffer :=
  words [23; 9; 10; 4; 30; 9; 10; 1; 97].


(** [{ a: b }]: the same Property with a value reference to the Identifier
    at word 12. *)
Definition full_property : ArrayBuffer :=
  words [54; 2; 6; 0; 0; 0; 12; 30; 2; 3; 1; 97; 30; 5; 6; 1; 98].


Definition full_property_node : any :=
  Eval vm_compute in
    match convertNode 2 lenient_host (Some 0) full_property
            (text_in full_property) O with
    | Return (v, _) => v
    | _ => VUndefined
    end.

(** What an entry of a decoded list is, for its reference: [null] for a
    reference that is 0 (or is not in the buffer), and otherwise a node
    that [node] returns at the reference. *)
Definition decodes_to (node : number -> M any) (reference : number) (entry : any) : Prop :=
  if truthy reference
  then exists st st', node reference st = Return (entry, st')
  else entry = VNull.

(** [[a, , b]]: a list header (word 0) of length 3 whose second reference
    is a hole; the entries are the Identifiers at words 4 and 9. *)
Definition sparse_list : ArrayBuffer :=
  words [3; 4; 0; 9; 30; 1; 2; 1; 97; 30; 4; 5; 1; 98].

Definition sparse_list_value : any :=
  Eval vm_compute in
    match convertNodeList sparse_list
            (fun q => convertNode 1 lenient_host q sparse_list (text_in sparse_list))
            (Some 0) O with
    | Return (v, _) => v
    | _ => VUndefined
    end.

(** The number that two consecutive words encode: the first word is the
    low half of the 64 bits, the second the high half. *)
Definition double_of_words (lo hi : Z) : spec_float :=
  float64_of_bits (lo + 2 ^ 32 * hi).

(** Bit patterns, as two words, and the numbers they are to decode to: 3.5,
    the two zeros, the two infinities, the smallest positive number and
    the largest finite one. *)
Definition sample_doubles : list (Z * Z * float) :=
  [ (0, 1074528256, 3.5%float);
    (0, 0, 0%float);
    (0, 2147483648, (-0)%float);
    (0, 2146435072, infinity);
    (0, 4293918720, neg_infinity);
    (1, 0, 0x1p-1074%float);
    (4294967295, 2146435071, 0x1.fffffffffffffp+1023%float) ].

(** The first literal of [return 1 + 2;] as it is decoded. *)
Definition literal_one_node : any :=
  Eval vm_compute in
    match convertNode 1 lenient_host (Some 16) return_1_plus_2
            (text_in return_1_plus_2) O with
    | Return (v, _) => v
    | _ => VUndefined
    end.

(** The Identifier of [export_a] as it is decoded. *)
Definition identifier_a_node : any :=
  Eval vm_compute in
    match convertNode 1 lenient_host (Some 4) export_a (text_in export_a) O with
    | Return (v, _) => v
    | _ => VUndefined
    end.

(** A numeric literal behind [8 + m] zero bytes: tag, start 0, end 0, no
    raw text, and the two words of 3.5. *)
Definition far_literal (m : nat) : ArrayBuffer :=
  repeat x00 (8 + m) ++ words [41; 0; 0; 0; 0; 1074528256].

(** The literal at word 2^30 - 4 of a buffer of 4 GiB and 8 bytes: its
    value words are words 2^30 and 2^30 + 1. *)
Definition wrapped_literal : ArrayBuffer := far_literal (Z.to_nat 4294967272).

(** The literal at word 2^29 - 4 of a buffer of 2 GiB and 8 bytes: its
    value words are words 2^29 and 2^29 + 1. *)
Definition literal_at_2_GiB : ArrayBuffer := far_literal (Z.to_nat 2147483624).

(** An Identifier behind [m] zero bytes: tag, start 1, end 2, and the text
    span of length 1 with the byte [a]. *)
Definition far_identifier (m : nat) : ArrayBuffer :=
  repeat x00 m ++ words [30; 1; 2; 1; 97].

(** The Identifier at word 2^29 - 4 of a buffer of 2 GiB and 4 bytes: the
    length word of its name is word 2^29 - 1, the text starts at word
    2^29. *)
Definition wrapped_identifier : ArrayBuffer := far_identifier (Z.to_nat 2147483632).

(** A host whose [BigInt] and [RegExp] refuse every text. *)
Definition strict_host : Host :=
  {| BigInt := fun _ => None; RegExp := fun _ _ => false |}.

(** A SpreadElement (word 3) whose argument reference is 0, after an
    EmptyStatement at word 0. *)
Definition spread_of_first : ArrayBuffer := words [19; 0; 1; 59; 1; 2; 0].

Definition spread_of_first_node : any :=
  Eval vm_compute in
    match convertNode 2 lenient_host (Some 3) spread_of_first offset_text O with
    | Return (v, _) => v
    | _ => VUndefined
    end.

(** A SpreadElement whose argument reference is its own position. *)
Definition spread_of_itself : ArrayBuffer := words [59; 0; 1; 0].

(** The Program of [return 1 + 2;] as it is decoded. *)
Definition return_1_plus_2_node : any :=
  Eval vm_compute in
    match convertNode 4 lenient_host (Some 0) return_1_plus_2
            (text_in return_1_plus_2) O with
    | Return (v, _) => v
    | _ => VUndefined
    end.

(** The positions of the five nodes of [return 1 + 2;]. *)
Definition return_1_plus_2_nodes (p : Z) : Prop := In p [0; 5; 9; 16; 22].

(** The literal [true]. *)
Definition literal_true : ArrayBuffer := words [40; 0; 4; 1].

Definition literal_true_node : any :=
  VObject 0 [("end", VNumber 4); ("raw", VString "true"); ("start", VNumber 0);
             ("type", VString "Literal"); ("value", VBool true)].

(** The literal [null]. *)
Definition literal_null : ArrayBuffer := words [42; 0; 4].

Definition literal_null_node : any :=
  VObject 0 [("end", VNumber 4); ("raw", VString "null"); ("start", VNumber 0);
             ("type", VString "Literal"); ("value", VNull)].

(** A VariableDeclaration without declarations whose kind word is 7, an
    index that [DECLARATION_KINDS] does not have. *)
Definition declaration_of_kind_7 : ArrayBuffer := words [72; 0; 5; 7; 0].

(** A numeric literal cut after the first of its two value words. *)
Definition cut_number : ArrayBuffer := words [41; 0; 1; 0; 0].

(** The bigint literal [1n]: the raw text [1n] in place (word 4), the text
    [1] of the bigint at word 6. *)
Definition bigint_literal : ArrayBuffer := words [44; 0; 2; 6; 2; 28209; 1; 49].

(** The regular expression literal [/a/g]: the flags [g] in place (word 4),
    the pattern [a] at word 6. *)
Definition regexp_literal : ArrayBuffer := words [43; 0; 4; 6; 1; 103; 1; 97].

(** An ExpressionStatement whose expression, in place at word 3, has a
    reserved tag. *)
Definition statement_of_reserved : ArrayBuffer := words [24; 0; 1; 64].

(** The ExportSpecifier of [export_a_as_a] as it is decoded. *)
Definition export_a_as_a_node : any :=
  Eval vm_compute in
    match convertNode 2 lenient_host (Some 0) export_a_as_a
            (text_in export_a_as_a) O with
    | Return (v, _) => v
    | _ => VUndefined
    end.

(** A Property (kind word 5, an index that [PROPERTY_KINDS] does not have)
    with its key, an Identifier, in place at word 7, and no value
    reference. *)
Definition property_of_kind_5 : ArrayBuffer :=
  words [54; 2; 3; 5; 0; 0; 0; 30; 2; 3; 1; 97].

(** ** Reasoning about computations *)

Lemma bind_Return {A B : Type} (m : M A) (k : A -> M B) st b st' :
  bind m k st = Return (b, st') ->
  exists a s, m st = Return (a, s) /\ k a s = Return (b, st').
Proof.
  unfold bind. destruct (m st) as [[a s] | e | ]; try discriminate.
  intros H. exists a, s. split; [reflexivity | exact H].
Qed.

Lemma object_literal_Return properties st v st' :
  object_literal properties st = Return (v, st') ->
  v = VObject st properties /\ st' = S st.
Proof.
  unfold object_literal, bind, allocate, ret. intros H.
  injection H as <- <-. split; reflexivity.
Qed.

Lemma table_entry_In {A : Type} (table : list (option A)) nodeType c :
  table_entry table nodeType = Some c -> In (Some c) table.
Proof.
  unfold table_entry. destruct nodeType as [i | ]; [ | discriminate].
  destruct (nth_error table (Z.to_nat i)) as [[c' | ] | ] eqn:E; try discriminate.
  intros H. injection H as <-. eapply nth_error_In. exact E.
Qed.

Lemma for_converter_entry P table nodeType c :
  Forall (for_converter P) table ->
  table_entry table nodeType = Some c -> P c.
Proof.
  intros Hall Hc. apply table_entry_In in Hc.
  rewrite Forall_forall in Hall. exact (Hall _ Hc).
Qed.

Ltac head_of t :=
  lazymatch t with
  | ?f _ => head_of f
  | _ => t
  end.

(** Unfolds the converter that [H] runs and performs its buffer reads. *)
Ltac unfold_converter H :=
  lazymatch type of H with
  | ?c _ _ = _ => let h := head_of c in unfold h in H
  end;
  cbv beta iota zeta delta [next flag fst snd] in H.

(** Splits a run that returned into the runs of its steps, down to the
    object literal that it ends with. *)
Ltac invert_binds H :=
  repeat lazymatch type of H with
  | bind _ _ _ = Return _ =>
      let a := fresh "a" in
      let s := fresh "s" in
      let Ha := fresh "Ha" in
      apply bind_Return in H; destruct H as (a & s & Ha & H)
  end;
  lazymatch type of H with
  | object_literal _ _ = Return _ =>
      apply object_literal_Return in H; destruct H as [-> ->]
  end.

(** Goes through the table, leaving one goal per converter. *)
Ltac each_converter :=
  unfold nodeConverters;
  repeat (apply Forall_cons; [ | ]); try apply Forall_nil; try exact I;
  unfold for_converter.

(** Replaces the entry of the table at a known tag by its converter. *)
Ltac select_converter H :=
  lazymatch type of H with
  | context [table_entry ?t (Some ?n)] =>
      let c := eval cbv beta iota delta
        [table_entry nodeConverters nth_error Z.to_nat Pos.to_nat
         Pos.iter_op Nat.add] in (table_entry t (Some n)) in
      change (table_entry t (Some n)) with c in H
  end.

(** One step of [convertNode] at a position whose tag word is known. *)
Ltac dispatch H Htag :=
  cbn [convertNode] in H; rewrite Htag in H; select_converter H;
  cbv beta iota zeta delta [incr] in H.

Lemma convertNode_unfold fuel js position buffer readString :
  convertNode (S fuel) js position buffer readString =
  match
    table_entry
      (nodeConverters js buffer readString
         (fun position => convertNode fuel js position buffer readString))
      buffer.[position]
  with
  | None => throw (Error ("Unknown node type: " ++ toString buffer.[position])%string)
  | Some converter => converter (incr position)
  end.
Proof. reflexivity. Qed.

Lemma convertNode_no_fuel js position buffer readString st :
  convertNode O js position buffer readString st = OutOfFuel.
Proof. reflexivity. Qed.

(** A returning [convertNode] ran the converter of its tag word. *)
Lemma convertNode_Return fuel js position buffer readString st v st' :
  convertNode fuel js position buffer readString st = Return (v, st') ->
  exists fuel' converter,
    fuel = S fuel' /\
    table_entry
      (nodeConverters js buffer readString
         (fun position => convertNode fuel' js position buffer readString))
      buffer.[position] = Some converter /\
    converter (incr position) st = Return (v, st').
Proof.
  destruct fuel as [ | fuel']; [discriminate | ].
  rewrite convertNode_unfold.
  destruct (table_entry _ _) as [converter | ] eqn:E; [ | discriminate].
  intros H. exists fuel', converter. auto.
Qed.

Lemma incr_Some p : incr (Some p) = Some (p + 1).
Proof. reflexivity. Qed.

(** *** Properties of every converter *)

Section Table.

Variables (js : Host) (buffer : Uint32Array) (readString : ReadString).
Variable node : number -> M any.

Lemma converters_copy_positions :
  Forall
    (for_converter (fun c =>
       forall position st v st', c position st = Return (v, st') ->
         property "start" v = Some (num buffer.[position]) /\
         property "end" v = Some (num buffer.[incr position])))
    (nodeConverters js buffer readString node).
Proof.
  each_converter.
  all: intros position st v st' H; unfold_converter H; invert_binds H.
  all: split; reflexivity.
Qed.


Lemma converters_program_is_module :
  Forall
    (for_converter (fun c =>
       forall position st v st', c position st = Return (v, st') ->
         property "type" v = Some (VString "Program") ->
         property "sourceType" v = Some (VString "module")))
    (nodeConverters js buffer readString node).
Proof.
  each_converter.
  all: intros position st v st' H; unfold_converter H; invert_binds H.
  all: first [ reflexivity | intros Htype; discriminate Htype ].
Qed.

End Table.


(** ** Unknown tags *)

Lemma nodeConverters_length js buffer readString node :
  List.length (nodeConverters js buffer readString node) = 77%nat.
Proof. reflexivity. Qed.

(** C1, as the code has it: a tag word without a converter (each of the six
    reserved tags, every tag from 77 on, and the [undefined] of a position
    outside the buffer) makes [convertNode] throw an [Error] whose message
    is ["Unknown node type: "] followed by the tag value, for every
    positive fuel; it never returns a value.  The error names the tag value
    only: the word position is not part of it. *)
Theorem unknown_node_type_is_fatal :
  (forall tag, In tag reserved_tags -> no_converter (Some tag)) /\
  (forall tag, 77 <= tag -> no_converter (Some tag)) /\
  no_converter None /\
  (forall fuel js position buffer readString,
     no_converter buffer.[position] ->
     (forall st,
        convertNode (S fuel) js position buffer readString st =
        Throw (Error ("Unknown node type: " ++ toString buffer.[position])%string)) /\
     (forall fuel' st r,
        convertNode fuel' js position buffer readString st <> Return r)).
Proof.
  assert (Hthrow : forall fuel js position buffer readString,
    no_converter buffer.[position] ->
    forall st,
      convertNode (S fuel) js position buffer readString st =
      Throw (Error ("Unknown node type: " ++ toString buffer.[position])%string)).
  { intros fuel js position buffer readString Hnone st.
    rewrite convertNode_unfold, Hnone. reflexivity. }
  split; [ | split; [ | split]].
  - intros tag Hin js buffer readString node.
    unfold reserved_tags in Hin. simpl in Hin.
    repeat (destruct Hin as [<- | Hin]; [reflexivity | ]).
    contradiction.
  - intros tag Htag js buffer readString node.
    unfold table_entry.
    assert (Hlen : (List.length (nodeConverters js buffer readString node)
                    <= Z.to_nat tag)%nat).
    { rewrite nodeConverters_length. lia. }
    apply nth_error_None in Hlen. rewrite Hlen. reflexivity.
  - intros js buffer readString node. reflexivity.
  - intros fuel js position buffer readString Hnone. split.
    + apply Hthrow. exact Hnone.
    + intros [ | fuel'] st r.
      * rewrite convertNode_no_fuel. discriminate.
      * rewrite (Hthrow fuel' js position buffer readString Hnone st).
        discriminate.
Qed.

(** At the first of two reserved tags. *)
Lemma unknown_node_type_is_fatal_witness :
  convertNode 1 lenient_host (Some 0) two_reserved offset_text O =
  Throw (Error "Unknown node type: 64").
Proof.
  destruct unknown_node_type_is_fatal as (Hreserved & _ & _ & Hfatal).
  refine (proj1 (Hfatal O lenient_host (Some 0) two_reserved offset_text _) O).
  apply (Hreserved 64). simpl. auto.
Defined.

(** The claim that the error identifies the word position fails: the same
    tag at two positions throws the same error. *)
Lemma unknown_tag_error_omits_position :
  exists e,
    convertNode 1 lenient_host (Some 0) two_reserved offset_text O = Throw e /\
    convertNode 1 lenient_host (Some 1) two_reserved offset_text O = Throw e.
Proof.
  exists (Error "Unknown node type: 64"). split; reflexivity.
Qed.

(** ** Positions *)

(** C4, as the code has it: the [start] and [end] of every decoded node, of
    every kind, are the two words after the tag word, copied unchanged
    ([undefined] where the buffer ends before them).  The decoder does not
    compare them: [start <= end] holds in the node exactly when it holds
    between the two words. *)
Theorem start_end_copied fuel js p buffer readString st v st' :
  convertNode fuel js (Some p) buffer readString st = Return (v, st') ->
  property "start" v = Some (num buffer.[Some (p + 1)]) /\
  property "end" v = Some (num buffer.[Some (p + 2)]).
Proof.
  intros H. apply convertNode_Return in H.
  destruct H as (fuel' & c & -> & Hc & H).
  pose proof (for_converter_entry _ _ _ _
                (converters_copy_positions _ _ _ _) Hc _ _ _ _ H) as [Hs He].
  rewrite !incr_Some in *.
  replace (p + 2) with (p + 1 + 1) by lia.
  split; assumption.
Qed.

(** At the EmptyStatement with start 5 and end 9. *)
Lemma start_end_copied_witness :
  property "start"
    (VObject 0 [("end", VNumber 9); ("start", VNumber 5);
                ("type", VString "EmptyStatement")]) =
    Some (num empty_statement.[Some (0 + 1)]) /\
  property "end"
    (VObject 0 [("end", VNumber 9); ("start", VNumber 5);
                ("type", VString "EmptyStatement")]) =
    Some (num empty_statement.[Some (0 + 2)]).
Proof.
  apply (start_end_copied 1 lenient_host 0 empty_statement offset_text O _ 1%nat).
  reflexivity.
Defined.

(** The claim that [start <= end] in every decoded node fails: a buffer
    whose start word is 5 and end word is 3 decodes to a node with those
    very values. *)
Lemma start_may_exceed_end :
  exists v st',
    convertNode 1 lenient_host (Some 0) backwards_statement offset_text O =
      Return (v, st') /\
    property "start" v = Some (VNumber 5) /\
    property "end" v = Some (VNumber 3) /\
    3 < 5.
Proof.
  eexists. eexists. split; [reflexivity | ].
  split; [reflexivity | ]. split; [reflexivity | lia].
Qed.

(** ** The Program node *)

(** C10: the node decoded at a Program tag has type ["Program"], and every
    decoded node of type ["Program"] has [sourceType] ["module"], whatever
    the buffer holds. *)
Theorem program_sourceType_module fuel js position buffer readString st v st' :
  convertNode fuel js position buffer readString st = Return (v, st') ->
  (buffer.[position] = Some 53 -> property "type" v = Some (VString "Program")) /\
  (property "type" v = Some (VString "Program") ->
   property "sourceType" v = Some (VString "module")).
Proof.
  intros H. split.
  - intros Htag. destruct fuel as [ | fuel]; [discriminate H | ].
    dispatch H Htag. unfold_converter H. invert_binds H. reflexivity.
  - apply convertNode_Return in H.
    destruct H as (fuel' & c & -> & Hc & H).
    exact (for_converter_entry _ _ _ _
             (converters_program_is_module _ _ _ _) Hc _ _ _ _ H).
Qed.

(** At the Program of [return 1 + 2;]. *)
Lemma program_sourceType_module_witness :
  exists v st',
    convertProgram 4 lenient_host return_1_plus_2 (text_in return_1_plus_2) O =
      Return (v, st') /\
    property "type" v = Some (VString "Program") /\
    property "sourceType" v = Some (VString "module").
Proof.
  eexists. eexists. split; [vm_compute; reflexivity | ].
  split; [reflexivity | ].
  refine (proj2 (program_sourceType_module 4 lenient_host (Some 0)
                   return_1_plus_2 (text_in return_1_plus_2) O _ _ _) _).
  - vm_compute. reflexivity.
  - reflexivity.
Defined.

(** The whole of [return 1 + 2;]: a Program whose body is one
    ReturnStatement, whose argument is a BinaryExpression with operator [+]
    between the literals 1 and 2. *)
Example return_1_plus_2_decodes :
  exists program statement expression left right st',
    convertProgram 4 lenient_host return_1_plus_2 (text_in return_1_plus_2) O =
      Return (program, st') /\
    property "type" program = Some (VString "Program") /\
    property "body" program = Some (VArray 0 [statement]) /\
    property "type" statement = Some (VString "ReturnStatement") /\
    property "argument" statement = Some expression /\
    property "type" expression = Some (VString "BinaryExpression") /\
    property "operator" expression = Some (VString "+") /\
    property "left" expression = Some left /\
    property "right" expression = Some right /\
    property "type" left = Some (VString "Literal") /\
    property "value" left = Some (VDouble (Prim2SF 1)) /\
    property "type" right = Some (VString "Literal") /\
    property "value" right = Some (VDouble (Prim2SF 2)).
Proof.
  do 6 eexists. split; [vm_compute; reflexivity | ].
  repeat split; reflexivity.
Qed.

(** ** Optional children *)

(** Writes the offsets that the reads of a converter add up, [p + 1 + 1],
    as [p + 2] and so on. *)
Ltac fold_offsets H :=
  rewrite <- ?Z.add_assoc in H; cbn [Z.add Pos.add Pos.succ] in H.

(** Runs the converter of a known tag on a run [H] that returned. *)
Ltac run_converter H Htag :=
  dispatch H Htag; unfold_converter H;
  cbv beta iota delta [incr] in H; fold_offsets H.

(** Reads off what the steps that return a constant returned. *)
Ltac read_constants :=
  repeat match goal with
  | Hr : ret _ _ = Return _ |- _ =>
      unfold ret in Hr; injection Hr as <- <-
  | Hr : bind allocate _ _ = Return _ |- _ =>
      unfold bind, allocate, ret in Hr; injection Hr as <- <-
  end.

(** C2: for every optional child (the label of break and continue, the
    alternate of if, the param of catch, the declaration and source of an
    export, the init, test and update of for, and the others of
    [optional_references]), a 0 in the reference word decodes to the absent
    value of that property: [null] for a child node, [undefined] for the
    raw text of a literal, the empty array for the arguments of [new]. *)
Theorem absent_child_is_null fuel js p buffer readString tag offset name absent
    st v st' :
  In (tag, offset, name, absent) optional_references ->
  buffer.[Some p] = Some tag ->
  buffer.[Some (p + offset)] = Some 0 ->
  convertNode fuel js (Some p) buffer readString st = Return (v, st') ->
  is_absent absent (property name v).
Proof.
  intros Hin Htag Hw H.
  destruct fuel as [ | fuel]; [discriminate H | ].
  unfold optional_references in Hin. simpl in Hin.
  repeat (destruct Hin as [Heq | Hin];
    [ injection Heq as <- <- <- <-;
      run_converter H Htag; rewrite Hw in H;
      change (truthy (Some 0)) with false in H; cbv iota in H;
      invert_binds H; read_constants; simpl; eauto
    | ]).
  contradiction.
Qed.

(** At the [if] without [else]: the alternate is [null]. *)
Lemma absent_child_is_null_witness :
  is_absent AbsentNull
    (property "alternate"
       (VObject 2
          [("alternate", VNull);
           ("consequent",
            VObject 0 [("end", VNumber 9); ("start", VNumber 8);
                       ("type", VString "EmptyStatement")]);
           ("end", VNumber 9); ("start", VNumber 0);
           ("test",
            VObject 1 [("end", VNumber 7); ("start", VNumber 3);
                       ("type", VString "ThisExpression")]);
           ("type", VString "IfStatement")])).
Proof.
  apply (absent_child_is_null 2 lenient_host 0 if_without_else offset_text
           31 4 "alternate" AbsentNull O _ 3%nat).
  - simpl. auto 20.
  - reflexivity.
  - reflexivity.
  - reflexivity.
Defined.

(** ** Allocation

    Every object that a converter returns is new: its identity lies between
    the allocator states before and after the call.  This is what makes the
    identity tell one object from another. *)

Lemma allocated_within_weaken lo hi lo' hi' v :
  allocated_within lo hi v -> (lo' <= lo)%nat -> (hi <= hi')%nat ->
  allocated_within lo' hi' v.
Proof.
  unfold allocated_within. intros H Hlo Hhi.
  eapply Forall_impl; [ | exact H]. simpl. intros id Hid. lia.
Qed.

Lemma identities_num x : identities (num x) = [].
Proof. destruct x; reflexivity. Qed.

Lemma identities_kind_name table index : identities (kind_name table index) = [].
Proof.
  unfold kind_name. destruct index as [i | ]; [ | reflexivity].
  destruct (nth_error table (Z.to_nat i)); reflexivity.
Qed.

Ltac step_facts Hnode Hlist :=
  repeat match goal with
  | Hr : (if ?b then _ else _) _ = Return _ |- _ => destruct b
  | Hr : match ?x with Some _ => _ | None => _ end _ = Return _ |- _ => destruct x
  | Hr : ret _ _ = Return _ |- _ => unfold ret in Hr; injection Hr as <- <-
  | Hr : throw _ _ = Return _ |- _ => discriminate Hr
  | Hr : bind allocate _ _ = Return _ |- _ =>
      unfold bind, allocate, ret in Hr; injection Hr as <- <-
  | Hr : object_literal _ _ = Return _ |- _ =>
      apply object_literal_Return in Hr; destruct Hr as [-> ->]
  | Hr : convertNodeList _ _ _ _ = Return _ |- _ =>
      apply Hlist in Hr; destruct Hr as [? ?]
  | Hr : _ = Return _ |- _ =>
      apply Hnode in Hr; destruct Hr as [? ?]
  end.

Ltac close_allocated :=
  unfold allocated_within in *; simpl;
  repeat match goal with
  | |- context [identities (if ?b then _ else _)] => destruct b
  end;
  rewrite ?identities_num, ?identities_kind_name; simpl;
  repeat first
    [ apply Forall_nil
    | apply Forall_cons; [lia | ]
    | apply Forall_app; split
    | eapply Forall_impl; [ | eassumption]; simpl; intros; lia ].

Section Allocation.

Variables (js : Host) (buffer : Uint32Array) (readString : ReadString).
Variable node : number -> M any.
Hypothesis node_allocates : forall position, allocates (node position).

Lemma convertNodeList_loop_allocates iterations :
  forall position list_ st l st' lo,
    convertNodeList_loop buffer node iterations position list_ st = Return (l, st') ->
    (lo <= st)%nat ->
    Forall (fun id => (lo <= id < st)%nat) (flat_map identities list_) ->
    (st <= st')%nat /\
    Forall (fun id => (lo <= id < st')%nat) (flat_map identities l).
Proof.
  induction iterations as [ | iterations IH]; intros position list_ st l st' lo H Hlo Hl.
  - simpl in H. unfold ret in H. injection H as <- <-. split; [lia | exact Hl].
  - cbn [convertNodeList_loop] in H. cbv beta iota zeta delta [next] in H.
    apply bind_Return in H. destruct H as (a & s & Ha & H).
    assert (Hstep : (st <= s)%nat /\ allocated_within st s a).
    { destruct (truthy buffer.[position]).
      - apply node_allocates in Ha. exact Ha.
      - unfold ret in Ha. injection Ha as <- <-. split; [lia | constructor]. }
    destruct Hstep as [Hle Ha'].
    apply (IH _ _ _ _ _ lo) in H; [ | lia | ].
    + split; [lia | apply H].
    + rewrite flat_map_app. apply Forall_app. split.
      * eapply Forall_impl; [ | exact Hl]. simpl. intros; lia.
      * simpl. rewrite app_nil_r. 
        eapply Forall_impl; [ | exact Ha']. simpl. intros; lia.
Qed.

Lemma convertNodeList_allocates position : allocates (convertNodeList buffer node position).
Proof.
  intros st v st' H. unfold convertNodeList in H.
  cbv beta iota zeta delta [next] in H.
  apply bind_Return in H. destruct H as (id & s & Hid & H).
  apply bind_Return in H. destruct H as (l & s' & Hl & H).
  unfold allocate in Hid. injection Hid as <- <-.
  unfold ret in H. injection H as <- <-.
  apply (convertNodeList_loop_allocates _ _ _ _ _ _ st) in Hl; [ | lia | constructor].
  destruct Hl as [Hle Hl]. split; [lia | ].
  unfold allocated_within. simpl. constructor; [lia | exact Hl].
Qed.

Lemma converters_allocate :
  Forall
    (for_converter (fun c =>
       forall position st v st', c position st = Return (v, st') ->
         (st <= st')%nat /\ allocated_within st st' v /\
         exists properties, st' = S (Nat.pred st') /\ v = VObject (Nat.pred st') properties))
    (nodeConverters js buffer readString node).
Proof.
  each_converter.
  all: intros position st v st' H; unfold_converter H; invert_binds H.
  all: step_facts node_allocates convertNodeList_allocates.
  all: split; [lia | split; [ | eexists; split; reflexivity]].
  all: close_allocated.
Qed.

End Allocation.

Lemma convertNode_allocates fuel js buffer readString :
  forall position st v st',
    convertNode fuel js position buffer readString st = Return (v, st') ->
    (st <= st')%nat /\ allocated_within st st' v /\
    exists properties, st' = S (Nat.pred st') /\ v = VObject (Nat.pred st') properties.
Proof.
  induction fuel as [ | fuel IH]; intros position st v st' H.
  - discriminate H.
  - apply convertNode_Return in H.
    destruct H as (fuel' & c & Hfuel & Hc & H).
    injection Hfuel as <-.
    refine (for_converter_entry _ _ _ _
              (converters_allocate js buffer readString _ _) Hc _ _ _ _ H).
    intros q s a s' Ha. apply IH in Ha. tauto.
Qed.

(** ** Defaults that are another property *)



(** The local node of [export { a }] is the decoded Identifier [a]. *)
Example default_specifier_local_node :
  convertNode 1 lenient_host (Some 4) export_a (text_in export_a) O =
  Return (identifier_a_node, 1%nat).
Proof. reflexivity. Qed.

(** An exported reference that is set is decoded on its own: even when it
    points at the local node, the result is a second object, equal in
    structure and not the same. *)
Example explicit_exported_is_another_object :
  exists v st' exported local,
    convertNode 2 lenient_host (Some 0) export_a_as_a (text_in export_a_as_a) O =
      Return (v, st') /\
    property "exported" v = Some exported /\
    property "local" v = Some local /\
    erase exported = erase local /\
    identity exported = Some 1%nat /\
    identity local = Some 0%nat.
Proof.
  do 4 eexists. split; [vm_compute; reflexivity | ].
  repeat split; reflexivity.
Qed.



(** The other case on a concrete buffer: a value reference that is set. *)
Example full_property_is_not_shorthand :
  property "shorthand" full_property_node = Some (VBool false) /\
  property "key" full_property_node =
    Some (VObject 0 [("end", VNumber 3); ("name", VString "a");
                     ("start", VNumber 2); ("type", VString "Identifier")]) /\
  property "value" full_property_node =
    Some (VObject 1 [("end", VNumber 6); ("name", VString "b");
                     ("start", VNumber 5); ("type", VString "Identifier")]).
Proof. repeat split; reflexivity. Qed.

(** X17, the other direction: a reference that is set is decoded into a
    new object, which is not the sibling, whatever it points at. *)
Lemma set_reference_is_another_object fuel js p buffer readString
    tag offset name sibling w st v st' :
  In (tag, offset, name, sibling) sibling_defaults ->
  buffer.[Some p] = Some tag ->
  buffer.[Some (p + offset)] = Some w ->
  w <> 0 ->
  convertNode fuel js (Some p) buffer readString st = Return (v, st') ->
  exists other default,
    property name v = Some other /\
    property sibling v = Some default /\
    ~ same_object other default.
Proof.
  intros Hin Htag Hw Hset H.
  destruct fuel as [ | fuel]; [discriminate H | ].
  unfold sibling_defaults in Hin. simpl in Hin.
  repeat (destruct Hin as [Heq | Hin]; [injection Heq as <- <- <- <- | ]);
    try contradiction.
  all: run_converter H Htag; rewrite Hw in H;
    cbv beta iota delta [truthy] in H;
    replace (w =? 0) with false in H by (symmetry; apply Z.eqb_neq; exact Hset);
    cbv beta iota delta [negb] in H;
    invert_binds H.
  all: apply convertNode_allocates in Ha; destruct Ha as (Hle & Hdefault & _).
  all: apply convertNode_allocates in Ha0;
    destruct Ha0 as (Hle0 & Hother & properties & Hs0 & ->).
  all: do 2 eexists; split; [reflexivity | split; [reflexivity | ]].
  all: intros (id & Hid_other & Hid); simpl in Hid_other;
    injection Hid_other as <-.
  all: destruct a as [ | | | | | | | id' pattern flags | id' elements | id' properties'];
    try discriminate Hid; simpl in Hid; injection Hid as ->.
  all: unfold allocated_within in Hdefault, Hother;
    simpl in Hdefault, Hother;
    apply Forall_inv in Hdefault; apply Forall_inv in Hother; lia.
Qed.

(** ** More fuel changes nothing *)

Lemma refines_refl {A : Type} (m : M A) : refines m m.
Proof. intros st _. reflexivity. Qed.

Lemma bind_refines {A B : Type} (m m' : M A) (k k' : A -> M B) :
  refines m m' ->
  (forall a, refines (k a) (k' a)) ->
  refines (bind m k) (bind m' k').
Proof.
  intros Hm Hk st. unfold bind. specialize (Hm st).
  destruct (m st) as [[a s] | e | ] eqn:E.
  - rewrite Hm by discriminate. apply Hk.
  - rewrite Hm by discriminate. reflexivity.
  - intros Hfuel. contradiction.
Qed.

Ltac solve_refines Hnode Hlist :=
  lazymatch goal with
  | |- refines (bind _ _) (bind _ _) =>
      apply bind_refines;
      [ solve_refines Hnode Hlist
      | let a := fresh "a" in intros a; solve_refines Hnode Hlist ]
  | |- refines (if ?b then _ else _) (if ?b then _ else _) =>
      destruct b; solve_refines Hnode Hlist
  | |- refines (match ?x with Some _ => _ | None => _ end)
               (match ?x with Some _ => _ | None => _ end) =>
      destruct x; solve_refines Hnode Hlist
  | |- _ => first [ apply refines_refl | apply Hnode | apply Hlist ]
  end.

Section Refines.

Variables (js : Host) (buffer : Uint32Array) (readString : ReadString).
Variables node node' : number -> M any.
Hypothesis node_refines : forall position, refines (node position) (node' position).

Lemma convertNodeList_loop_refines iterations :
  forall position list_,
    refines (convertNodeList_loop buffer node iterations position list_)
            (convertNodeList_loop buffer node' iterations position list_).
Proof.
  induction iterations as [ | iterations IH]; intros position list_.
  - apply refines_refl.
  - simpl. apply bind_refines.
    + destruct (truthy buffer.[position]).
      * apply node_refines.
      * apply refines_refl.
    + intros a. apply IH.
Qed.

Lemma convertNodeList_refines position :
  refines (convertNodeList buffer node position) (convertNodeList buffer node' position).
Proof.
  unfold convertNodeList. cbv beta iota zeta delta [next].
  apply bind_refines; [apply refines_refl | intros id].
  apply bind_refines; [apply convertNodeList_loop_refines | intros l].
  apply refines_refl.
Qed.

Lemma converters_refine :
  Forall2
    (fun entry entry' =>
       match entry, entry' with
       | Some c, Some c' => forall position, refines (c position) (c' position)
       | None, None => True
       | _, _ => False
       end)
    (nodeConverters js buffer readString node)
    (nodeConverters js buffer readString node').
Proof.
  unfold nodeConverters.
  repeat (apply Forall2_cons; [ | ]); try apply Forall2_nil; try exact I.
  all: intros position;
    lazymatch goal with
    | |- refines (?c _) _ => let h := head_of c in unfold h
    end;
    cbv beta iota zeta delta [next flag fst snd].
  all: solve_refines node_refines convertNodeList_refines.
Qed.

End Refines.

Lemma table_entry_Forall2 {A B : Type} (R : option A -> option B -> Prop)
    (table : list (option A)) (table' : list (option B)) nodeType :
  Forall2 R table table' ->
  R None None ->
  (forall a, ~ R (Some a) None) -> (forall b, ~ R None (Some b)) ->
  match table_entry table nodeType, table_entry table' nodeType with
  | Some a, Some b => R (Some a) (Some b)
  | None, None => True
  | _, _ => False
  end.
Proof.
  intros Hall Hnone Hleft Hright. unfold table_entry.
  destruct nodeType as [i | ]; [ | exact I].
  generalize (Z.to_nat i). clear i.
  induction Hall as [ | x y l l' Hxy Hall IH]; intros [ | n]; simpl; try exact I.
  - destruct x as [a | ], y as [b | ]; try exact I; try assumption.
    + exact (Hleft _ Hxy).
    + exact (Hright _ Hxy).
  - apply IH.
Qed.

Lemma convertNode_more_fuel fuel js buffer readString :
  forall position,
    refines (convertNode fuel js position buffer readString)
            (convertNode (S fuel) js position buffer readString).
Proof.
  induction fuel as [ | fuel IH]; intros position.
  - intros st Hfuel. rewrite convertNode_no_fuel in Hfuel. contradiction.
  - rewrite (convertNode_unfold (S fuel)), (convertNode_unfold fuel).
    pose proof (table_entry_Forall2 _ _ _ buffer.[position]
                  (converters_refine js buffer readString _ _ IH)) as Hentry.
    simpl in Hentry.
    destruct (table_entry _ _) as [c | ], (table_entry _ _) as [c' | ].
    + apply Hentry; auto.
    + exfalso. apply Hentry; auto.
    + exfalso. apply Hentry; auto.
    + apply refines_refl.
Qed.

Lemma convertNode_fuel_le fuel fuel' js position buffer readString :
  (fuel <= fuel')%nat ->
  refines (convertNode fuel js position buffer readString)
          (convertNode fuel' js position buffer readString).
Proof.
  induction 1 as [ | fuel' Hle IH].
  - apply refines_refl.
  - intros st Hfuel. rewrite <- (IH st Hfuel).
    apply convertNode_more_fuel. rewrite (IH st Hfuel). exact Hfuel.
Qed.

(** ** Determinism *)

Lemma bind_similar {A B : Type} `{Erase A} `{Erase B}
    (m m' : M A) (k k' : A -> M B) :
  similar m m' ->
  (forall a a', erase a = erase a' -> similar (k a) (k' a')) ->
  similar (bind m k) (bind m' k').
Proof.
  intros Hm Hk st1 st2. unfold bind.
  specialize (Hm st1 st2).
  destruct (m st1) as [[a s1] | e1 | ], (m' st2) as [[a' s2] | e2 | ];
    simpl in Hm; try discriminate Hm.
  - apply Hk. congruence.
  - injection Hm as ->. reflexivity.
  - reflexivity.
Qed.

Lemma ret_similar {A : Type} `{Erase A} (a a' : A) :
  erase a = erase a' -> similar (ret a) (ret a').
Proof. intros Ha st1 st2. simpl. congruence. Qed.

Lemma throw_similar {A : Type} `{Erase A} (e : exception) :
  similar (throw (A := A) e) (throw e).
Proof. intros st1 st2. reflexivity. Qed.

Lemma allocate_similar : similar allocate allocate.
Proof. intros st1 st2. reflexivity. Qed.

Lemma object_literal_similar properties properties' :
  map (fun entry => (fst entry, erase_any (snd entry))) properties =
  map (fun entry => (fst entry, erase_any (snd entry))) properties' ->
  similar (object_literal properties) (object_literal properties').
Proof.
  intros Hp st1 st2. unfold object_literal, bind, allocate, ret. simpl.
  unfold erase, Erase_any. simpl. congruence.
Qed.

Lemma erase_num x : erase_any (num x) = num x.
Proof. destruct x; reflexivity. Qed.

Lemma erase_kind_name table index : erase_any (kind_name table index) = kind_name table index.
Proof.
  unfold kind_name. destruct index as [i | ]; [ | reflexivity].
  destruct (nth_error table (Z.to_nat i)); reflexivity.
Qed.

Ltac unfold_erase :=
  unfold erase, Erase_any, Erase_list, Erase_nat, Erase_float in *.

(** Proves two runs of one program similar, given that the recursive calls
    are ([Hnode]) and that the list decoder is ([Hlist]). *)
Ltac solve_similar Hnode Hlist :=
  lazymatch goal with
  | |- similar (bind _ _) (bind _ _) =>
      apply bind_similar;
      [ solve_similar Hnode Hlist
      | let a := fresh "a" in
        let a' := fresh "a'" in
        let Ha := fresh "Ha" in
        intros a a' Ha; solve_similar Hnode Hlist ]
  | |- similar (ret _) (ret _) =>
      apply ret_similar; unfold_erase; simpl; congruence
  | |- similar (throw _) (throw _) => apply throw_similar
  | |- similar allocate allocate => apply allocate_similar
  | |- similar (object_literal _) (object_literal _) =>
      apply object_literal_similar; unfold_erase; simpl; congruence
  | |- similar (if ?b then _ else _) (if ?b then _ else _) =>
      destruct b; solve_similar Hnode Hlist
  | |- similar (match ?x with Some _ => _ | None => _ end)
               (match ?x with Some _ => _ | None => _ end) =>
      destruct x; solve_similar Hnode Hlist
  | |- _ => first [ apply Hnode | apply Hlist ]
  end.

Section Similar.

Variables (js : Host) (buffer : Uint32Array) (readString : ReadString).
Variable node : number -> M any.
Hypothesis node_similar : forall position, similar (node position) (node position).

Lemma convertNodeList_loop_similar iterations :
  forall position list_ list_',
    erase list_ = erase list_' ->
    similar (convertNodeList_loop buffer node iterations position list_)
            (convertNodeList_loop buffer node iterations position list_').
Proof.
  induction iterations as [ | iterations IH]; intros position list_ list_' Hl.
  - simpl. apply ret_similar. exact Hl.
  - simpl. apply bind_similar.
    + destruct (truthy buffer.[position]).
      * apply node_similar.
      * apply ret_similar. reflexivity.
    + intros a a' Ha. apply IH.
      unfold_erase. rewrite !map_app. simpl. congruence.
Qed.

Lemma convertNodeList_similar position :
  similar (convertNodeList buffer node position) (convertNodeList buffer node position).
Proof.
  unfold convertNodeList. cbv beta iota zeta delta [next].
  apply bind_similar; [apply allocate_similar | intros id id' _].
  apply bind_similar.
  - apply convertNodeList_loop_similar. reflexivity.
  - intros l l' Hl. apply ret_similar. unfold_erase. simpl. congruence.
Qed.

Lemma converters_similar :
  Forall (for_converter (fun c => forall position, similar (c position) (c position)))
    (nodeConverters js buffer readString node).
Proof.
  each_converter.
  all: intros position;
    lazymatch goal with
    | |- similar (?c _) _ => let h := head_of c in unfold h
    end;
    cbv beta iota zeta delta [next flag fst snd].
  all: solve_similar node_similar convertNodeList_similar.
Qed.

End Similar.

Lemma convertNode_similar fuel js buffer readString :
  forall position,
    similar (convertNode fuel js position buffer readString)
            (convertNode fuel js position buffer readString).
Proof.
  induction fuel as [ | fuel IH]; intros position.
  - intros st1 st2. reflexivity.
  - rewrite convertNode_unfold.
    destruct (table_entry _ _) as [c | ] eqn:Hc.
    + exact (for_converter_entry _ _ _ _
               (converters_similar js buffer readString _ IH) Hc (incr position)).
    + apply throw_similar.
Qed.

Lemma convertProgram_similar fuel js buffer readString :
  similar (convertProgram fuel js buffer readString)
          (convertProgram fuel js buffer readString).
Proof.
  unfold convertProgram.
  destruct (byteLength buffer mod 4 =? 0).
  - apply convertNode_similar.
  - apply throw_similar.
Qed.

Lemma convertProgram_fuel_le fuel fuel' js buffer readString :
  (fuel <= fuel')%nat ->
  refines (convertProgram fuel js buffer readString)
          (convertProgram fuel' js buffer readString).
Proof.
  intros Hle. unfold convertProgram.
  destruct (byteLength buffer mod 4 =? 0).
  - apply convertNode_fuel_le. exact Hle.
  - apply refines_refl.
Qed.

(** C8: two calls of [convertProgram] on the same buffer with the same
    resolver, started from any two states of the allocator, either both
    return trees of the same structure or both throw the same exception.
    The allocator is all the state there is besides the read-only inputs,
    and it only names the new objects.  The depth that the recursion is
    allowed does not show either: any two amounts of fuel that suffice give
    the same. *)
Theorem decoding_is_deterministic js buffer readString :
  (forall fuel st1 st2,
     observe (convertProgram fuel js buffer readString st1) =
     observe (convertProgram fuel js buffer readString st2)) /\
  (forall fuel1 fuel2 st1 st2,
     convertProgram fuel1 js buffer readString st1 <> OutOfFuel ->
     convertProgram fuel2 js buffer readString st2 <> OutOfFuel ->
     observe (convertProgram fuel1 js buffer readString st1) =
     observe (convertProgram fuel2 js buffer readString st2)).
Proof.
  split.
  - intros fuel. apply convertProgram_similar.
  - intros fuel1 fuel2 st1 st2 H1 H2.
    rewrite <- (convertProgram_fuel_le fuel1 (Nat.max fuel1 fuel2) js buffer
                  readString (Nat.le_max_l _ _) st1 H1).
    rewrite <- (convertProgram_fuel_le fuel2 (Nat.max fuel1 fuel2) js buffer
                  readString (Nat.le_max_r _ _) st2 H2).
    apply convertProgram_similar.
Qed.

(** Two calls on [return 1 + 2;], the second from a later allocator state
    and with more fuel. *)
Lemma decoding_is_deterministic_witness :
  observe (convertProgram 4 lenient_host return_1_plus_2
             (text_in return_1_plus_2) 0%nat) =
  observe (convertProgram 9 lenient_host return_1_plus_2
             (text_in return_1_plus_2) 6%nat).
Proof.
  apply (proj2 (decoding_is_deterministic lenient_host return_1_plus_2
                  (text_in return_1_plus_2))).
  - vm_compute. discriminate.
  - vm_compute. discriminate.
Defined.

(** The second of two calls returns new objects: the same structure under
    other identities. *)
Example second_call_returns_new_objects :
  exists v1 st v2 st',
    convertProgram 4 lenient_host return_1_plus_2 (text_in return_1_plus_2) O =
      Return (v1, st) /\
    convertProgram 4 lenient_host return_1_plus_2 (text_in return_1_plus_2) st =
      Return (v2, st') /\
    erase v1 = erase v2 /\
    identity v1 = Some 5%nat /\
    identity v2 = Some 11%nat.
Proof.
  do 4 eexists. split; [vm_compute; reflexivity | ].
  split; [vm_compute; reflexivity | ].
  repeat split; reflexivity.
Qed.

Lemma similar_Return {A : Type} `{Erase A} (m : M A) st a st' :
  similar m m -> m st = Return (a, st') ->
  forall st2, exists a2 st2', m st2 = Return (a2, st2') /\ erase a2 = erase a.
Proof.
  intros Hm Hr st2. specialize (Hm st st2). rewrite Hr in Hm.
  destruct (m st2) as [[a2 s2] | e | ]; simpl in Hm; try discriminate Hm.
  exists a2, s2. split; [reflexivity | congruence].
Qed.

(** ** Lists *)

Section Lists.

Variable buffer : Uint32Array.
Variable node : number -> M any.

Lemma references_step (q : Z) (iterations : nat) :
  map (fun index => buffer.[Some (q + Z.of_nat index)]) (seq 0 (S iterations)) =
  buffer.[Some q] ::
  map (fun index => buffer.[Some (q + 1 + Z.of_nat index)]) (seq 0 iterations).
Proof.
  cbn [seq map]. change (Z.of_nat 0) with 0. rewrite Z.add_0_r. f_equal.
  rewrite <- seq_shift, map_map. apply map_ext.
  intros index.
  replace (q + Z.of_nat (S index)) with (q + 1 + Z.of_nat index) by lia.
  reflexivity.
Qed.

Lemma convertNodeList_loop_entries iterations :
  forall q list_ st l st',
    convertNodeList_loop buffer node iterations (Some q) list_ st = Return (l, st') ->
    exists entries,
      l = (list_ ++ entries) /\
      List.length entries = iterations /\
      Forall2 (decodes_to node)
        (map (fun index => buffer.[Some (q + Z.of_nat index)]) (seq 0 iterations))
        entries.
Proof.
  induction iterations as [ | iterations IH]; intros q list_ st l st' H.
  - simpl in H. unfold ret in H. injection H as <- <-.
    exists []. rewrite app_nil_r. repeat split. constructor.
  - cbn [convertNodeList_loop] in H.
    cbv beta iota zeta delta [next incr] in H.
    apply bind_Return in H. destruct H as (a & s & Ha & H).
    apply IH in H. destruct H as (entries & -> & Hlen & Hall).
    exists (a :: entries). split; [ | split].
    + rewrite <- app_assoc. reflexivity.
    + simpl. congruence.
    + rewrite references_step. constructor; [ | exact Hall].
      unfold decodes_to. destruct (truthy buffer.[Some q]).
      * eauto.
      * unfold ret in Ha. injection Ha as <- <-. reflexivity.
Qed.

Hypothesis node_similar : forall position, similar (node position) (node position).

Lemma convertNodeList_loop_returns iterations :
  forall q list_ st,
    (forall reference,
       In reference
         (map (fun index => buffer.[Some (q + Z.of_nat index)]) (seq 0 iterations)) ->
       truthy reference = true ->
       exists s entry s', node reference s = Return (entry, s')) ->
    exists l st',
      convertNodeList_loop buffer node iterations (Some q) list_ st = Return (l, st').
Proof.
  induction iterations as [ | iterations IH]; intros q list_ st Hrefs.
  - simpl. unfold ret. eauto.
  - rewrite references_step in Hrefs.
    cbn [convertNodeList_loop]. cbv beta iota zeta delta [next incr].
    assert (Hfirst : exists a s,
      (if truthy buffer.[Some q] then node buffer.[Some q] else ret VNull) st =
      Return (a, s)).
    { destruct (truthy buffer.[Some q]) eqn:Ht.
      - destruct (Hrefs buffer.[Some q] (or_introl eq_refl) Ht) as (s & e & s' & He).
        destruct (similar_Return _ _ _ _ (node_similar _) He st) as (a2 & s2 & Ha2 & _).
        eauto.
      - unfold ret. eauto. }
    destruct Hfirst as (a & s & Ha).
    destruct (IH (q + 1) (list_ ++ [a]) s) as (l & st' & Hl).
    { intros reference Hin. apply Hrefs. right. exact Hin. }
    exists l, st'. unfold bind. rewrite Ha. exact Hl.
Qed.

End Lists.

(** C3: a list header with length word [N] decodes, when it returns, to an
    array of exactly [N] entries in the order of the [N] references after
    the length word: [null] for a reference that is 0, and for any other
    reference a node that [convertNode] returns at it.  And it does return
    whenever [convertNode] returns at each of the nonzero references. *)
Theorem list_fidelity fuel js p buffer readString N :
  buffer.[Some p] = Some N ->
  (forall st v st',
     convertNodeList buffer
       (fun q => convertNode fuel js q buffer readString) (Some p) st =
       Return (v, st') ->
     exists id entries,
       v = VArray id entries /\
       List.length entries = Z.to_nat N /\
       Forall2 (decodes_to (fun q => convertNode fuel js q buffer readString))
         (references buffer p (Z.to_nat N)) entries) /\
  ((forall reference,
      In reference (references buffer p (Z.to_nat N)) ->
      truthy reference = true ->
      exists st entry st',
        convertNode fuel js reference buffer readString st = Return (entry, st')) ->
   forall st, exists v st',
     convertNodeList buffer
       (fun q => convertNode fuel js q buffer readString) (Some p) st =
     Return (v, st')).
Proof.
  intros HN. unfold convertNodeList, references.
  cbv beta iota zeta delta [next incr]. rewrite HN. simpl iterations_of.
  split.
  - intros st v st' H.
    apply bind_Return in H. destruct H as (id & s & Hid & H).
    apply bind_Return in H. destruct H as (l & s' & Hl & H).
    unfold ret in H. injection H as <- <-.
    apply convertNodeList_loop_entries in Hl.
    destruct Hl as (entries & -> & Hlen & Hall).
    exists id, entries. repeat split; assumption.
  - intros Hrefs st.
    destruct (convertNodeList_loop_returns buffer _
                (convertNode_similar fuel js buffer readString)
                (Z.to_nat N) (p + 1) [] (S st) Hrefs) as (l & st' & Hl).
    exists (VArray st l), st'.
    unfold bind, allocate, ret. rewrite Hl. reflexivity.
Qed.

(** At the sparse list [[a, , b]]. *)
Lemma list_fidelity_witness :
  exists id entries,
    sparse_list_value = VArray id entries /\
    List.length entries = Z.to_nat 3 /\
    Forall2
      (decodes_to
         (fun q => convertNode 1 lenient_host q sparse_list (text_in sparse_list)))
      (references sparse_list 0 (Z.to_nat 3)) entries.
Proof.
  apply (proj1 (list_fidelity 1 lenient_host 0 sparse_list (text_in sparse_list)
                  3 eq_refl) O sparse_list_value 3%nat).
  vm_compute. reflexivity.
Defined.

(** The entries of the sparse list, in order: the first Identifier, the
    hole, the second Identifier. *)
Example sparse_list_entries :
  sparse_list_value =
  VArray 0
    [VObject 1 [("end", VNumber 2); ("name", VString "a");
                ("start", VNumber 1); ("type", VString "Identifier")];
     VNull;
     VObject 2 [("end", VNumber 5); ("name", VString "b");
                ("start", VNumber 4); ("type", VString "Identifier")]].
Proof. reflexivity. Qed.

(** ** Bytes, words and offsets *)

Lemma ToInt32_small z : - 2 ^ 31 <= z < 2 ^ 31 -> ToInt32 z = z.
Proof.
  intros Hz. unfold ToInt32. cbv zeta.
  destruct (Z_lt_le_dec z 0) as [Hneg | Hpos].
  - assert (Hmod : z mod 2 ^ 32 = z + 2 ^ 32).
    { symmetry. apply Z.mod_unique with (q := -1); lia. }
    rewrite Hmod.
    destruct (z + 2 ^ 32 <? 2 ^ 31) eqn:E; [apply Z.ltb_lt in E | ]; lia.
  - rewrite Z.mod_small by lia.
    destruct (z <? 2 ^ 31) eqn:E; [reflexivity | apply Z.ltb_ge in E; lia].
Qed.

Lemma shiftLeft_2 q : - 2 ^ 29 <= q < 2 ^ 29 -> shiftLeft (Some q) 2 = 4 * q.
Proof.
  intros Hq. unfold shiftLeft.
  rewrite (ToInt32_small q) by lia.
  change (2 mod 32) with 2. rewrite Z.shiftl_mul_pow2 by lia.
  rewrite ToInt32_small by lia. lia.
Qed.

Lemma little_endian_bounds bytes :
  0 <= little_endian bytes < 256 ^ Z.of_nat (List.length bytes).
Proof.
  induction bytes as [ | b rest IH].
  - simpl. lia.
  - cbn [little_endian List.length]. rewrite Nat2Z.inj_succ, Z.pow_succ_r by lia.
    assert (Hb : 0 <= Z.of_N (Byte.to_N b) < 256).
    { pose proof (Byte.to_N_bounded b). lia. }
    lia.
Qed.

Lemma element_nonneg (buffer : Uint32Array) index w :
  buffer.[index] = Some w -> 0 <= w.
Proof.
  unfold element. destruct index as [i | ]; [ | discriminate].
  destruct (_ && _); [ | discriminate].
  intros H. injection H as <-. apply little_endian_bounds.
Qed.

Lemma element_Some_position (buffer : Uint32Array) i w :
  buffer.[Some i] = Some w -> 0 <= i /\ 4 * i + 4 <= byteLength buffer.
Proof.
  unfold element. destruct (_ && _) eqn:E; [ | discriminate].
  intros _. apply andb_prop in E. destruct E as [E1 E2].
  apply Z.leb_le in E1. apply Z.leb_le in E2. lia.
Qed.

Lemma slice_8 (buffer : ArrayBuffer) (q : Z) :
  0 <= q -> 4 * q + 8 <= byteLength buffer ->
  little_endian (slice buffer (4 * q) 8) =
  little_endian (slice buffer (4 * q) 4) +
  2 ^ 32 * little_endian (slice buffer (4 * (q + 1)) 4).
Proof.
  intros Hq Hlen. unfold slice.
  replace (Z.to_nat (4 * (q + 1))) with (4 + Z.to_nat (4 * q))%nat by lia.
  rewrite <- skipn_skipn.
  assert (Hl : (8 <= List.length (skipn (Z.to_nat (4 * q)) buffer))%nat).
  { rewrite length_skipn. unfold byteLength in Hlen. lia. }
  destruct (skipn (Z.to_nat (4 * q)) buffer)
    as [ | b0 [ | b1 [ | b2 [ | b3 [ | b4 [ | b5 [ | b6 [ | b7 rest]]]]]]]];
    simpl in Hl; try lia.
  cbn [firstn skipn little_endian]. lia.
Qed.

Lemma getFloat64_aligned (buffer : ArrayBuffer) (q : Z) f :
  0 <= q ->
  getFloat64 buffer (4 * q) = Some f ->
  exists lo hi,
    buffer.[Some q] = Some lo /\ buffer.[Some (q + 1)] = Some hi /\
    f = double_of_words lo hi.
Proof.
  intros Hq. unfold getFloat64.
  destruct (_ || _) eqn:E; [discriminate | ].
  apply orb_false_elim in E. destruct E as [E1 E2].
  apply Z.ltb_ge in E1. apply Z.ltb_ge in E2.
  intros H.
  assert (Hf : f = float64_of_bits (little_endian (slice buffer (4 * q) 8)))
    by congruence.
  subst f. clear H.
  exists (little_endian (slice buffer (4 * q) 4)),
         (little_endian (slice buffer (4 * (q + 1)) 4)).
  unfold element.
  replace ((0 <=? q) && (4 * q + 4 <=? byteLength buffer)) with true
    by (symmetry; apply andb_true_intro; split; apply Z.leb_le; lia).
  replace ((0 <=? q + 1) && (4 * (q + 1) + 4 <=? byteLength buffer)) with true
    by (symmetry; apply andb_true_intro; split; apply Z.leb_le; lia).
  split; [reflexivity | split; [reflexivity | ]]. unfold double_of_words. rewrite slice_8 by lia. reflexivity.
Qed.

Lemma convertString_spec (buffer : Uint32Array) (readString : ReadString) q :
  - 2 ^ 29 <= q + 1 < 2 ^ 29 ->
  convertString buffer readString (Some q) =
  readString (4 * (q + 1)) buffer.[Some q].
Proof.
  intros Hq. unfold convertString. cbv beta iota zeta delta [next incr].
  rewrite shiftLeft_2 by lia. reflexivity.
Qed.

Lemma element_bounds (buffer : Uint32Array) index w :
  buffer.[index] = Some w -> 0 <= w < 2 ^ 32.
Proof.
  unfold element. destruct index as [i | ]; [ | discriminate].
  destruct (_ && _); [ | discriminate].
  set (bytes := slice buffer (4 * i) 4).
  assert (Hlen : (List.length bytes <= 4)%nat)
    by (unfold bytes, slice; apply firstn_le_length).
  clearbody bytes. intros H. injection H as <-.
  pose proof (little_endian_bounds bytes) as Hb.
  assert (256 ^ Z.of_nat (List.length bytes) <= 256 ^ 4)
    by (apply Z.pow_le_mono_r; lia).
  change (256 ^ 4) with (2 ^ 32) in *. lia.
Qed.

Lemma bits_fields bits :
  0 <= bits < 2 ^ 64 ->
  let sign := Z.testbit bits 63 in
  let exponent := Z.land (Z.shiftr bits 52) 2047 in
  let fraction := Z.land bits (2 ^ 52 - 1) in
  0 <= exponent < 2048 /\ 0 <= fraction < 2 ^ 52 /\
  bits = sign_bit sign + exponent * 2 ^ 52 + fraction.
Proof.
  intros Hb. cbv zeta.
  change (2 ^ 52 - 1) with (Z.ones 52). change 2047 with (Z.ones 11).
  rewrite !Z.land_ones by lia. rewrite Z.shiftr_div_pow2 by lia.
  assert (Hs : sign_bit (Z.testbit bits 63) = 2 ^ 63 * (bits / 2 ^ 63)).
  { destruct (Z.testbit bits 63) eqn:E.
    - apply Z.testbit_true in E; [ | lia].
      assert (bits / 2 ^ 63 < 2) by (apply Z.div_lt_upper_bound; lia).
      assert (0 <= bits / 2 ^ 63) by (apply Z.div_pos; lia).
      assert (bits / 2 ^ 63 = 1).
      { destruct (Z.eq_dec (bits / 2 ^ 63) 0) as [Hz | Hz]; [ | lia].
        rewrite Hz in E. discriminate E. }
      unfold sign_bit. lia.
    - assert (bits / 2 ^ 63 = 0).
      { assert (bits / 2 ^ 63 < 2) by (apply Z.div_lt_upper_bound; lia).
        assert (0 <= bits / 2 ^ 63) by (apply Z.div_pos; lia).
        destruct (Z.eq_dec (bits / 2 ^ 63) 1) as [H1 | H1]; [ | lia].
        assert (Z.testbit bits 63 = true)
          by (apply Z.testbit_true; [lia | rewrite H1; reflexivity]).
        congruence. }
      unfold sign_bit. lia. }
  rewrite Hs.
  pose proof (Z.mod_pos_bound (bits / 2 ^ 52) (2 ^ 11) ltac:(lia)).
  pose proof (Z.mod_pos_bound bits (2 ^ 52) ltac:(lia)).
  split; [lia | split; [lia | ]].
  pose proof (Z.div_mod bits (2 ^ 52) ltac:(lia)).
  pose proof (Z.div_mod (bits / 2 ^ 52) (2 ^ 11) ltac:(lia)).
  replace (bits / 2 ^ 63) with (bits / 2 ^ 52 / 2 ^ 11)
    by (rewrite Z.div_div by lia; reflexivity).
  lia.
Qed.

Lemma float64_bits_round_trip bits :
  0 <= bits < 2 ^ 64 ->
  float64_of_bits bits <> S754_nan ->
  bits_of_float64 (float64_of_bits bits) = bits.
Proof.
  intros Hb. pose proof (bits_fields bits Hb) as Hf. cbv zeta in Hf.
  unfold float64_of_bits. cbv zeta.
  set (sign := Z.testbit bits 63) in *.
  set (exponent := Z.land (Z.shiftr bits 52) 2047) in *.
  set (fraction := Z.land bits (2 ^ 52 - 1)) in *.
  destruct Hf as (Hex & Hfr & Heq).
  destruct (exponent =? 0) eqn:E0.
  - apply Z.eqb_eq in E0.
    destruct fraction as [ | m | m] eqn:Efr; intros _; cbn [bits_of_float64].
    + lia.
    + replace (Z.pos m <? 2 ^ 52) with true by (symmetry; apply Z.ltb_lt; lia).
      lia.
    + lia.
  - apply Z.eqb_neq in E0.
    destruct (exponent =? 2047) eqn:E1.
    + apply Z.eqb_eq in E1.
      destruct (fraction =? 0) eqn:E2; intros Hnan; [ | contradiction].
      apply Z.eqb_eq in E2. cbn [bits_of_float64]. lia.
    + apply Z.eqb_neq in E1.
      destruct (fraction + 2 ^ 52) as [ | m | m] eqn:Em; intros Hnan;
        try contradiction.
      cbn [bits_of_float64].
      replace (Z.pos m <? 2 ^ 52) with false by (symmetry; apply Z.ltb_ge; lia).
      lia.
Qed.

(** ** Numeric literals *)

(** Where the code does what C6 says: for a numeric literal node whose
    value words lie below word 2^29 (so that [position << 2] is the byte
    offset of the words), the value is the IEEE-754 binary64 number whose
    64 bits are the two words after the raw reference, the first word the
    low half: the little-endian bytes of the two words, bit for bit (unless
    it is NaN, the 64 bits of the value are those of the words).  The
    sample patterns decode to 3.5, to the two zeros, to the two infinities
    and to the smallest and the largest magnitudes. *)
Theorem numeric_literal_value fuel js p buffer readString st v st' :
  buffer.[Some p] = Some 41 ->
  p + 4 < 2 ^ 29 ->
  convertNode fuel js (Some p) buffer readString st = Return (v, st') ->
  (exists lo hi,
     buffer.[Some (p + 4)] = Some lo /\
     buffer.[Some (p + 5)] = Some hi /\
     property "value" v = Some (VDouble (double_of_words lo hi)) /\
     (double_of_words lo hi <> S754_nan ->
      bits_of_float64 (double_of_words lo hi) = lo + 2 ^ 32 * hi)) /\
  Forall (fun sample =>
            double_of_words (fst (fst sample)) (snd (fst sample)) =
            Prim2SF (snd sample))
    sample_doubles.
Proof.
  intros Htag Hp H. split.
  - destruct fuel as [ | fuel]; [discriminate H | ].
    pose proof (element_Some_position _ _ _ Htag) as [Hp0 _].
    run_converter H Htag.
    rewrite shiftLeft_2 in H by lia.
    invert_binds H.
    destruct (getFloat64 buffer (4 * (p + 4))) as [f | ] eqn:Hf;
      [ | discriminate Ha].
    unfold ret in Ha. injection Ha as <- <-.
    apply getFloat64_aligned in Hf; [ | lia].
    destruct Hf as (lo & hi & Hlo & Hhi & ->).
    exists lo, hi. replace (p + 5) with (p + 4 + 1) by lia.
    split; [assumption | split; [assumption | split; [reflexivity | ]]].
    pose proof (element_bounds _ _ _ Hlo). pose proof (element_bounds _ _ _ Hhi).
    apply float64_bits_round_trip. lia.
  - unfold sample_doubles. repeat constructor.
Qed.

(** At the first literal of [return 1 + 2;]. *)
Lemma numeric_literal_value_witness :
  (exists lo hi,
     return_1_plus_2.[Some (16 + 4)] = Some lo /\
     return_1_plus_2.[Some (16 + 5)] = Some hi /\
     property "value" literal_one_node = Some (VDouble (double_of_words lo hi)) /\
     (double_of_words lo hi <> S754_nan ->
      bits_of_float64 (double_of_words lo hi) = lo + 2 ^ 32 * hi)) /\
  Forall (fun sample =>
            double_of_words (fst (fst sample)) (snd (fst sample)) =
            Prim2SF (snd sample))
    sample_doubles.
Proof.
  apply (numeric_literal_value 1 lenient_host 16 return_1_plus_2
           (text_in return_1_plus_2) O literal_one_node 1%nat).
  - reflexivity.
  - lia.
  - vm_compute. reflexivity.
Defined.

(** That literal is the number 1. *)
Example literal_one_value :
  property "value" literal_one_node = Some (VDouble (Prim2SF 1)).
Proof. reflexivity. Qed.

Lemma element_app (prefix rest : list byte) k j :
  byteLength prefix = 4 * k -> 0 <= j ->
  (prefix ++ rest).[Some (k + j)] = rest.[Some j].
Proof.
  intros Hk Hj. unfold element, byteLength, slice in *.
  rewrite length_app, Nat2Z.inj_add.
  replace (0 <=? k + j) with true by (symmetry; apply Z.leb_le; lia).
  replace (0 <=? j) with true by (symmetry; apply Z.leb_le; lia).
  replace (4 * (k + j) + 4 <=? Z.of_nat (List.length prefix) + Z.of_nat (List.length rest))
    with (4 * j + 4 <=? Z.of_nat (List.length rest)).
  2:{ apply eq_true_iff_eq. rewrite !Z.leb_le. lia. }
  replace (Z.to_nat (4 * (k + j))) with (List.length prefix + Z.to_nat (4 * j))%nat by lia.
  rewrite skipn_app.
  rewrite skipn_all2 by lia.
  replace (List.length prefix + Z.to_nat (4 * j) - List.length prefix)%nat
    with (Z.to_nat (4 * j)) by lia.
  reflexivity.
Qed.

Lemma getFloat64_zero_prefix (m : nat) (rest : list byte) :
  getFloat64 (repeat x00 (8 + m) ++ rest) 0 = Some (S754_zero false).
Proof.
  unfold getFloat64, byteLength, slice.
  rewrite length_app, repeat_length.
  replace (Z.of_nat (8 + m + List.length rest) <? 0 + 8) with false
    by (symmetry; apply Z.ltb_ge; lia).
  reflexivity.
Qed.

Lemma far_literal_decodes (m : nat) js readString st :
  Z.of_nat m = 4294967272 ->
  convertNode 1 js (Some 1073741820) (far_literal m) readString st =
    Return
      (VObject st
         [("end", VNumber 0); ("raw", VUndefined); ("start", VNumber 0);
          ("type", VString "Literal"); ("value", VDouble (S754_zero false))],
       S st) /\
  (far_literal m).[Some 1073741824] = Some 0 /\
  (far_literal m).[Some 1073741825] = Some 1074528256.
Proof.
  intros Hm.
  assert (Hread : forall j, 0 <= j ->
    (far_literal m).[Some (1073741820 + j)] =
    (words [41; 0; 0; 0; 0; 1074528256]).[Some j]).
  { intros j Hj. unfold far_literal. apply element_app; [ | exact Hj].
    unfold byteLength. rewrite repeat_length. lia. }
  assert (H0 : (far_literal m).[Some 1073741820] = Some 41)
    by exact (Hread 0 ltac:(lia)).
  assert (H1 : (far_literal m).[Some 1073741821] = Some 0)
    by exact (Hread 1 ltac:(lia)).
  assert (H2 : (far_literal m).[Some 1073741822] = Some 0)
    by exact (Hread 2 ltac:(lia)).
  assert (H3 : (far_literal m).[Some 1073741823] = Some 0)
    by exact (Hread 3 ltac:(lia)).
  assert (H4 : (far_literal m).[Some 1073741824] = Some 0)
    by exact (Hread 4 ltac:(lia)).
  assert (H5 : (far_literal m).[Some 1073741825] = Some 1074528256)
    by exact (Hread 5 ltac:(lia)).
  split; [ | split; assumption].
  rewrite convertNode_unfold, H0.
  match goal with
  | |- context [table_entry ?t (Some ?n)] =>
    let c := eval cbv beta iota delta
      [table_entry nodeConverters nth_error Z.to_nat Pos.to_nat
       Pos.iter_op Nat.add] in (table_entry t (Some n)) in
    change (table_entry t (Some n)) with c
  end.
  cbv beta iota. unfold Literal_number.
  cbv beta iota zeta delta [next flag fst snd incr].
  change (1073741820 + 1) with 1073741821.
  change (1073741821 + 1) with 1073741822.
  change (1073741822 + 1) with 1073741823.
  change (1073741823 + 1) with 1073741824.
  rewrite H1, H2, H3.
  change (shiftLeft (Some 1073741824) 2) with 0.
  unfold far_literal at 1. rewrite getFloat64_zero_prefix.
  reflexivity.
Qed.

(** C6, where the code misses it: [position << 2] is a signed 32-bit
    integer, while the words of the same node are read at [position]
    itself.  In a buffer of 4 GiB and 8 bytes, the literal at word 2^30 - 4
    has its value words at words 2^30 and 2^30 + 1, which hold the pattern
    of 3.5, and its value is read at byte offset [2^30 << 2 = 0], where the
    buffer holds the pattern of 0: the value is 0, not 3.5. *)
Lemma wrapped_numeric_literal :
  exists v st',
    convertNode 1 lenient_host (Some 1073741820) wrapped_literal offset_text O =
      Return (v, st') /\
    wrapped_literal.[Some (1073741820 + 4)] = Some 0 /\
    wrapped_literal.[Some (1073741820 + 5)] = Some 1074528256 /\
    property "value" v = Some (VDouble (Prim2SF 0)) /\
    double_of_words 0 1074528256 = Prim2SF 3.5 /\
    property "value" v <> Some (VDouble (double_of_words 0 1074528256)).
Proof.
  destruct (far_literal_decodes (Z.to_nat 4294967272) lenient_host offset_text O)
    as (Hnode & Hlo & Hhi).
  { apply Z2Nat.id. lia. }
  eexists. eexists. split; [exact Hnode | ].
  split; [exact Hlo | ]. split; [exact Hhi | ].
  split; [reflexivity | ]. split; [reflexivity | ].
  intros Hsame. vm_compute in Hsame. discriminate Hsame.
Qed.

Lemma far_literal_throws (m : nat) js readString st :
  Z.of_nat m = 2147483624 ->
  convertNode 1 js (Some 536870908) (far_literal m) readString st =
    Throw RangeError /\
  (far_literal m).[Some 536870912] = Some 0 /\
  (far_literal m).[Some 536870913] = Some 1074528256.
Proof.
  intros Hm.
  assert (Hread : forall j, 0 <= j ->
    (far_literal m).[Some (536870908 + j)] =
    (words [41; 0; 0; 0; 0; 1074528256]).[Some j]).
  { intros j Hj. unfold far_literal. apply element_app; [ | exact Hj].
    unfold byteLength. rewrite repeat_length. lia. }
  assert (H0 : (far_literal m).[Some 536870908] = Some 41)
    by exact (Hread 0 ltac:(lia)).
  assert (H3 : (far_literal m).[Some 536870911] = Some 0)
    by exact (Hread 3 ltac:(lia)).
  assert (H4 : (far_literal m).[Some 536870912] = Some 0)
    by exact (Hread 4 ltac:(lia)).
  assert (H5 : (far_literal m).[Some 536870913] = Some 1074528256)
    by exact (Hread 5 ltac:(lia)).
  split; [ | split; assumption].
  rewrite convertNode_unfold, H0.
  match goal with
  | |- context [table_entry ?t (Some ?n)] =>
    let c := eval cbv beta iota delta
      [table_entry nodeConverters nth_error Z.to_nat Pos.to_nat
       Pos.iter_op Nat.add] in (table_entry t (Some n)) in
    change (table_entry t (Some n)) with c
  end.
  cbv beta iota. unfold Literal_number.
  cbv beta iota zeta delta [next flag fst snd incr].
  change (536870908 + 1) with 536870909.
  change (536870909 + 1) with 536870910.
  change (536870910 + 1) with 536870911.
  change (536870911 + 1) with 536870912.
  rewrite H3.
  change (shiftLeft (Some 536870912) 2) with (-2147483648).
  unfold getFloat64.
  change (-2147483648 <? 0) with true. cbv beta iota delta [orb].
  reflexivity.
Qed.

(** The same defect at the smallest position that shows it: in a buffer of
    2 GiB and 8 bytes, the literal at word 2^29 - 4 has its value words at
    words 2^29 and 2^29 + 1, inside the buffer, and its value is read at
    byte offset [2^29 << 2 = -2147483648]: [getFloat64] throws a
    RangeError and no node is returned. *)
Example numeric_literal_at_2_GiB :
  convertNode 1 lenient_host (Some 536870908) literal_at_2_GiB offset_text O =
    Throw RangeError /\
  literal_at_2_GiB.[Some (536870908 + 4)] = Some 0 /\
  literal_at_2_GiB.[Some (536870908 + 5)] = Some 1074528256 /\
  double_of_words 0 1074528256 = Prim2SF 3.5.
Proof.
  destruct (far_literal_throws (Z.to_nat 2147483624) lenient_host offset_text O)
    as (Hnode & Hlo & Hhi).
  { apply Z2Nat.id. lia. }
  split; [exact Hnode | ]. split; [exact Hlo | ]. split; [exact Hhi | reflexivity].
Qed.

(** ** Text spans *)

Ltac read_literals :=
  repeat match goal with
  | Hr : object_literal _ _ = Return _ |- _ =>
      apply object_literal_Return in Hr; destruct Hr as [-> ->]
  end.

(** Where the code does what C7 says: for every text span of every node
    kind (the spans of [text_spans]), the decoder reads the length word at
    the span's position [q] and asks the resolver for that length at the
    byte offset of the word after it, [4 * (q + 1)], as long as that word
    lies below word 2^29; the text the resolver returns is the value of the
    property (name, operator, raw, value, pattern, flags, bigint). *)
Theorem text_span_resolved fuel js p buffer readString tag place path q st v st' :
  In (tag, place, path) text_spans ->
  buffer.[Some p] = Some tag ->
  span_position buffer p place = Some q ->
  q + 1 < 2 ^ 29 ->
  convertNode fuel js (Some p) buffer readString st = Return (v, st') ->
  property_at path v = Some (VString (readString (4 * (q + 1)) buffer.[Some q])).
Proof.
  intros Hin Htag Hq Hsmall H.
  destruct fuel as [ | fuel]; [discriminate H | ].
  pose proof (element_Some_position _ _ _ Htag) as [Hp0 _].
  unfold text_spans in Hin. simpl in Hin.
  repeat (destruct Hin as [Heq | Hin];
    [ injection Heq as <- <- <-;
      run_converter H Htag; invert_binds H; read_literals;
      cbn [span_position] in Hq;
      try lazymatch type of Hq with
          | context [truthy ?x] =>
              let b := fresh "b" in
              let Ht := fresh "Ht" in
              remember (truthy x) as b eqn:Ht;
              destruct b; [ | discriminate Hq]
          end;
      first [ injection Hq as <-
            | pose proof (element_nonneg _ _ _ Hq); rewrite Hq in * ];
      simpl; rewrite convertString_spec by lia; reflexivity
    | ]).
  contradiction.
Qed.

(** At the name of the Identifier of [export { a }]. *)
Lemma text_span_resolved_witness :
  property_at ["name"] identifier_a_node =
  Some (VString (text_in export_a (4 * (7 + 1)) export_a.[Some 7])).
Proof.
  apply (text_span_resolved 1 lenient_host 4 export_a (text_in export_a)
           30 (Here 3) ["name"] 7 O identifier_a_node 1%nat).
  - simpl. auto 20.
  - reflexivity.
  - reflexivity.
  - lia.
  - vm_compute. reflexivity.
Defined.

(** That name is the text [a], one byte at byte offset 32. *)
Example identifier_a_name :
  property_at ["name"] identifier_a_node = Some (VString "a").
Proof. reflexivity. Qed.

Lemma far_identifier_decodes (m : nat) js st :
  Z.of_nat m = 2147483632 ->
  convertNode 1 js (Some 536870908) (far_identifier m) offset_text st =
    Return
      (VObject st
         [("end", VNumber 2); ("name", VString "-2147483648");
          ("start", VNumber 1); ("type", VString "Identifier")],
       S st) /\
  (far_identifier m).[Some 536870911] = Some 1.
Proof.
  intros Hm.
  assert (Hread : forall j, 0 <= j ->
    (far_identifier m).[Some (536870908 + j)] =
    (words [30; 1; 2; 1; 97]).[Some j]).
  { intros j Hj. unfold far_identifier. apply element_app; [ | exact Hj].
    unfold byteLength. rewrite repeat_length. lia. }
  assert (H0 : (far_identifier m).[Some 536870908] = Some 30)
    by exact (Hread 0 ltac:(lia)).
  assert (H1 : (far_identifier m).[Some 536870909] = Some 1)
    by exact (Hread 1 ltac:(lia)).
  assert (H2 : (far_identifier m).[Some 536870910] = Some 2)
    by exact (Hread 2 ltac:(lia)).
  assert (H3 : (far_identifier m).[Some 536870911] = Some 1)
    by exact (Hread 3 ltac:(lia)).
  split; [ | assumption].
  rewrite convertNode_unfold, H0.
  match goal with
  | |- context [table_entry ?t (Some ?n)] =>
      let c := eval cbv beta iota delta
        [table_entry nodeConverters nth_error Z.to_nat Pos.to_nat
         Pos.iter_op Nat.add] in (table_entry t (Some n)) in
      change (table_entry t (Some n)) with c
  end.
  cbv beta iota. unfold Identifier, convertString, offset_text.
  cbv beta iota zeta delta [next flag fst snd incr].
  change (536870908 + 1) with 536870909.
  change (536870909 + 1) with 536870910.
  change (536870910 + 1 + 1) with 536870912.
  rewrite H1, H2.
  reflexivity.
Qed.

(** C7, where the code misses it: [bytePosition = position << 2] is a
    signed 32-bit integer, while the length word of the same span is read
    at [position] itself.  In a buffer of 2 GiB and 4 bytes, the name of
    the Identifier at word 2^29 - 4 has its length word at word 2^29 - 1 and
    its text at word 2^29, byte offset 2147483648; the resolver is asked
    for byte offset [2^29 << 2 = -2147483648], not for the position times
    the word size ([offset_text] answers with the offset it is asked
    for). *)
Lemma wrapped_text_offset :
  exists v st',
    convertNode 1 lenient_host (Some 536870908) wrapped_identifier offset_text O =
      Return (v, st') /\
    wrapped_identifier.[Some (536870908 + 3)] = Some 1 /\
    property "name" v = Some (VString "-2147483648") /\
    offset_text (4 * (536870908 + 3 + 1)) (Some 1) = "2147483648" /\
    property "name" v <>
      Some (VString (offset_text (4 * (536870908 + 3 + 1)) (Some 1))).
Proof.
  destruct (far_identifier_decodes (Z.to_nat 2147483632) lenient_host O)
    as (Hnode & Hlength).
  { apply Z2Nat.id. lia. }
  eexists. eexists. split; [exact Hnode | ].
  split; [exact Hlength | ].
  split; [reflexivity | ]. split; [reflexivity | ].
  intros Hsame. vm_compute in Hsame. discriminate Hsame.
Qed.

(** ** The type of a node *)

Lemma converters_write_types js buffer readString node :
  Forall2
    (fun entry name =>
       match entry, name with
       | Some c, Some name =>
           forall position st v st', c position st = Return (v, st') ->
             property "type" v = Some (VString name)
       | None, None => True
       | _, _ => False
       end)
    (nodeConverters js buffer readString node) node_types.
Proof.
  unfold nodeConverters, node_types.
  repeat (apply Forall2_cons; [ | ]); try apply Forall2_nil; try exact I.
  all: intros position st v st' H; unfold_converter H; invert_binds H.
  all: reflexivity.
Qed.

(** X1: the [type] of a decoded node is the entry of [node_types] at its
    tag word: the name of its kind, Literal for the six kinds of literal,
    Property for both kinds of property. *)
Theorem node_type_of_tag fuel js position buffer readString st v st' :
  convertNode fuel js position buffer readString st = Return (v, st') ->
  exists name,
    table_entry node_types buffer.[position] = Some name /\
    property "type" v = Some (VString name).
Proof.
  intros H. apply convertNode_Return in H.
  destruct H as (fuel' & c & -> & Hc & H).
  pose proof (table_entry_Forall2 (A := number -> M any) _ _ _ buffer.[position]
                (converters_write_types js buffer readString
                   (fun q => convertNode fuel' js q buffer readString))
                I (fun _ F => F) (fun _ F => F)) as Hentry.
  cbv beta in Hentry. rewrite Hc in Hentry.
  destruct (table_entry node_types buffer.[position]) as [name | ].
  - exists name. split; [reflexivity | ].
    exact (Hentry _ _ _ _ H).
  - contradiction.
Qed.

(** At the first literal of [return 1 + 2;]. *)
Lemma node_type_of_tag_witness :
  exists name,
    table_entry node_types return_1_plus_2.[Some 16] = Some name /\
    property "type" literal_one_node = Some (VString name).
Proof.
  apply (node_type_of_tag 1 lenient_host (Some 16) return_1_plus_2
           (text_in return_1_plus_2) O literal_one_node 1%nat).
  vm_compute. reflexivity.
Defined.

(** The kinds that share a type. *)
Example literals_share_a_type :
  table_entry node_types (Some 39) = Some "Literal" /\
  table_entry node_types (Some 44) = Some "Literal" /\
  table_entry node_types (Some 76) = table_entry node_types (Some 54).
Proof. repeat split; reflexivity. Qed.

(** ** Children *)

(** Decides a reference that is only followed when it is set. *)
Ltac decide_reference Href :=
  cbn [child_reference] in Href;
  try lazymatch type of Href with
      | context [truthy ?x] =>
          let b := fresh "b" in
          let Ht := fresh "Ht" in
          remember (truthy x) as b eqn:Ht;
          destruct b; [ | discriminate Href]
      end;
  injection Href as <-.

(** X2: every child node of every kind is the node decoded at its
    reference: in place for the children that follow their parent in the
    buffer, at the position in the reference word for the others; an
    optional child, when its reference word is not 0, likewise. *)
Theorem child_is_decoded_at_reference fuel js p buffer readString
    tag place name reference st v st' :
  In (tag, place, name) child_nodes ->
  buffer.[Some p] = Some tag ->
  child_reference buffer p place = Some reference ->
  convertNode (S fuel) js (Some p) buffer readString st = Return (v, st') ->
  exists child s s',
    property name v = Some child /\
    convertNode fuel js reference buffer readString s = Return (child, s').
Proof.
  intros Hin Htag Href H.
  unfold child_nodes in Hin. simpl in Hin.
  repeat (destruct Hin as [Heq | Hin];
    [ injection Heq as <- <- <-;
      run_converter H Htag; decide_reference Href;
      cbv iota in H; invert_binds H;
      do 3 eexists; split; [reflexivity | eassumption]
    | ]).
  contradiction.
Qed.

(** At the argument of a SpreadElement whose reference word is 0. *)
Lemma child_is_decoded_at_reference_witness :
  exists child s s',
    property "argument" spread_of_first_node = Some child /\
    convertNode 1 lenient_host (Some 0) spread_of_first offset_text s =
      Return (child, s').
Proof.
  apply (child_is_decoded_at_reference 1 lenient_host 3 spread_of_first offset_text
           59 (Referenced 3) "argument" (Some 0) O spread_of_first_node 2%nat).
  - repeat (first [left; reflexivity | right]).
  - reflexivity.
  - reflexivity.
  - vm_compute. reflexivity.
Defined.

(** A reference of 0 to a child that is not optional is followed: the
    child is the node at word 0, not [null]. *)
Example zero_reference_of_required_child :
  property "argument" spread_of_first_node =
  Some (VObject 0 [("end", VNumber 1); ("start", VNumber 0);
                   ("type", VString "EmptyStatement")]).
Proof. reflexivity. Qed.

(** X3: every list of every kind is the array that [convertNodeList]
    returns at the place of its header. *)
Theorem list_is_decoded_at_reference fuel js p buffer readString
    tag place name reference st v st' :
  In (tag, place, name) child_lists ->
  buffer.[Some p] = Some tag ->
  child_reference buffer p place = Some reference ->
  convertNode (S fuel) js (Some p) buffer readString st = Return (v, st') ->
  exists list_ s s',
    property name v = Some list_ /\
    convertNodeList buffer (fun q => convertNode fuel js q buffer readString)
      reference s = Return (list_, s').
Proof.
  intros Hin Htag Href H.
  unfold child_lists in Hin. simpl in Hin.
  repeat (destruct Hin as [Heq | Hin];
    [ injection Heq as <- <- <-;
      run_converter H Htag; decide_reference Href;
      cbv iota in H; invert_binds H;
      do 3 eexists; split; [reflexivity | eassumption]
    | ]).
  contradiction.
Qed.

(** At the body of the Program of [return 1 + 2;]. *)
Lemma list_is_decoded_at_reference_witness :
  exists list_ s s',
    property "body" return_1_plus_2_node = Some list_ /\
    convertNodeList return_1_plus_2
      (fun q => convertNode 3 lenient_host q return_1_plus_2 (text_in return_1_plus_2))
      (Some (0 + 3)) s = Return (list_, s').
Proof.
  apply (list_is_decoded_at_reference 3 lenient_host 0 return_1_plus_2
           (text_in return_1_plus_2) 53 (Inline 3) "body" (Some (0 + 3)) O
           return_1_plus_2_node 6%nat).
  - repeat (first [left; reflexivity | right]).
  - reflexivity.
  - reflexivity.
  - vm_compute. reflexivity.
Defined.

(** ** Flags and constants *)

(** X4: every boolean that is read from a word ([async], [generator],
    [computed], [static], [optional], ...) is true exactly when the word is
    not 0; a word that the buffer does not have reads as false. *)
Theorem flag_is_word_not_zero fuel js p buffer readString tag offset name st v st' :
  In (tag, offset, name) flag_words ->
  buffer.[Some p] = Some tag ->
  convertNode fuel js (Some p) buffer readString st = Return (v, st') ->
  property name v = Some (VBool (truthy buffer.[Some (p + offset)])).
Proof.
  intros Hin Htag H.
  destruct fuel as [ | fuel]; [discriminate H | ].
  unfold flag_words in Hin. simpl in Hin.
  repeat (destruct Hin as [Heq | Hin];
    [ injection Heq as <- <- <-;
      run_converter H Htag; invert_binds H; reflexivity
    | ]).
  contradiction.
Qed.

(** At the value of the literal [true]. *)
Lemma flag_is_word_not_zero_witness :
  property "value" literal_true_node =
  Some (VBool (truthy literal_true.[Some (0 + 3)])).
Proof.
  apply (flag_is_word_not_zero 1 lenient_host 0 literal_true offset_text
           40 3 "value" O literal_true_node 1%nat).
  - repeat (first [left; reflexivity | right]).
  - reflexivity.
  - reflexivity.
Defined.

(** X6: the properties that do not depend on the buffer: the [id] of an
    arrow function is [null], [expression] is false for the other
    functions, a [null] literal has the raw text [null] and the value
    [null], and the property of an assignment pattern is an [init] property
    that is neither computed nor a method. *)
Theorem constant_property fuel js p buffer readString tag name value st v st' :
  In (tag, name, value) constant_properties ->
  buffer.[Some p] = Some tag ->
  convertNode fuel js (Some p) buffer readString st = Return (v, st') ->
  property name v = Some value.
Proof.
  intros Hin Htag H.
  destruct fuel as [ | fuel]; [discriminate H | ].
  unfold constant_properties in Hin. simpl in Hin.
  repeat (destruct Hin as [Heq | Hin];
    [ injection Heq as <- <- <-;
      run_converter H Htag; invert_binds H; reflexivity
    | ]).
  contradiction.
Qed.

(** At the raw text of the literal [null]. *)
Lemma constant_property_witness :
  property "raw" literal_null_node = Some (VString "null").
Proof.
  apply (constant_property 1 lenient_host 0 literal_null offset_text
           42 "raw" (VString "null") O literal_null_node 1%nat).
  - simpl. auto 20.
  - reflexivity.
  - reflexivity.
Defined.

(** ** Literals that the host refuses *)

(** Names the outcome of a run, to run its converter in a hypothesis. *)
Ltac name_outcome H :=
  lazymatch goal with
  | |- context [convertNode (S ?fuel) ?js ?position ?buffer ?readString ?st] =>
      let o := fresh "o" in
      remember (convertNode (S fuel) js position buffer readString st) as o eqn:H;
      symmetry in H
  end.

(** X7: a numeric literal whose two value words are not both in the buffer
    is not decoded with an undefined value, as every other missing word
    is: [getFloat64] throws a RangeError. *)
Theorem truncated_number_is_RangeError fuel js p buffer readString st :
  buffer.[Some p] = Some 41 ->
  p + 4 < 2 ^ 29 ->
  byteLength buffer < 4 * (p + 4) + 8 ->
  convertNode (S fuel) js (Some p) buffer readString st = Throw RangeError.
Proof.
  intros Htag Hsmall Hshort.
  pose proof (element_Some_position _ _ _ Htag) as [Hp0 _].
  name_outcome H. run_converter H Htag.
  rewrite shiftLeft_2 in H by lia.
  unfold getFloat64 in H.
  replace (byteLength buffer <? 4 * (p + 4) + 8) with true in H
    by (symmetry; apply Z.ltb_lt; exact Hshort).
  rewrite orb_true_r in H. unfold bind, throw in H. congruence.
Qed.

(** At a numeric literal cut after its first value word. *)
Lemma truncated_number_is_RangeError_witness :
  convertNode 1 lenient_host (Some 0) cut_number offset_text O = Throw RangeError.
Proof.
  apply (truncated_number_is_RangeError 0 lenient_host 0 cut_number offset_text O).
  - reflexivity.
  - lia.
  - vm_compute. reflexivity.
Defined.

(** X8: the value of a bigint literal is what [BigInt] makes of the text of
    its first span, and a text that [BigInt] refuses makes the whole
    decoding throw its SyntaxError. *)
Theorem bigint_literal_value fuel js p buffer readString st :
  buffer.[Some p] = Some 44 ->
  match BigInt js (convertString buffer readString buffer.[Some (p + 3)]) with
  | Some n =>
      exists v,
        convertNode (S fuel) js (Some p) buffer readString st = Return (v, S st) /\
        property "value" v = Some (VBigInt n)
  | None =>
      convertNode (S fuel) js (Some p) buffer readString st = Throw SyntaxError
  end.
Proof.
  intros Htag. name_outcome H. run_converter H Htag.
  cbv beta iota delta [bind object_literal allocate ret throw] in H.
  destruct (BigInt js _) as [n | ].
  - subst o. eexists. split; reflexivity.
  - congruence.
Qed.

(** At the literal [1n], with a host that refuses it. *)
Lemma bigint_literal_value_witness :
  convertNode 1 strict_host (Some 0) bigint_literal (text_in bigint_literal) O =
  Throw SyntaxError.
Proof.
  exact (bigint_literal_value 0 strict_host 0 bigint_literal
           (text_in bigint_literal) O eq_refl).
Defined.

(** X9: a regular expression literal is decoded by [new RegExp] from the
    texts of its two spans, its raw text is put together from them as
    [/pattern/flags], and a pattern or flags that [new RegExp] refuses make
    the whole decoding throw its SyntaxError. *)
Theorem regexp_literal_value fuel js p buffer readString st :
  buffer.[Some p] = Some 43 ->
  let pattern := convertString buffer readString buffer.[Some (p + 3)] in
  let flags := convertString buffer readString (Some (p + 4)) in
  if RegExp js pattern flags
  then
    exists v,
      convertNode (S fuel) js (Some p) buffer readString st = Return (v, (3 + st)%nat) /\
      property "value" v = Some (VRegExp (S st) pattern flags) /\
      property "raw" v = Some (VString ("/" ++ pattern ++ "/" ++ flags)%string) /\
      property_at ["regex"; "pattern"] v = Some (VString pattern) /\
      property_at ["regex"; "flags"] v = Some (VString flags)
  else
    convertNode (S fuel) js (Some p) buffer readString st = Throw SyntaxError.
Proof.
  intros Htag. cbv zeta. name_outcome H. run_converter H Htag.
  cbv beta iota delta [bind object_literal allocate ret throw] in H.
  destruct (RegExp js _ _).
  - subst o. eexists. repeat split; reflexivity.
  - congruence.
Qed.

(** At the literal [/a/g]. *)
Lemma regexp_literal_value_witness :
  exists v,
    convertNode 1 lenient_host (Some 0) regexp_literal (text_in regexp_literal) O =
      Return (v, 3%nat) /\
    property "value" v = Some (VRegExp 1 "a" "g") /\
    property "raw" v = Some (VString "/a/g") /\
    property_at ["regex"; "pattern"] v = Some (VString "a") /\
    property_at ["regex"; "flags"] v = Some (VString "g").
Proof.
  exact (regexp_literal_value 0 lenient_host 0 regexp_literal
           (text_in regexp_literal) O eq_refl).
Defined.

(** ** Leaves *)

(** X10: a node of a kind without children (the kinds of [leaf_tags]) is
    decoded whatever the rest of the buffer holds, also when the buffer
    ends right after the tag word: no word of it is checked, a word that
    is missing is copied as undefined, and the text is whatever the
    resolver answers.  It takes one allocation. *)
Theorem leaf_always_decodes fuel js position buffer readString tag st :
  In tag leaf_tags ->
  buffer.[position] = Some tag ->
  exists properties,
    convertNode (S fuel) js position buffer readString st =
    Return (VObject st properties, S st).
Proof.
  intros Hin Htag.
  unfold leaf_tags in Hin. simpl in Hin.
  repeat (destruct Hin as [<- | Hin];
    [ name_outcome H; dispatch H Htag; unfold_converter H;
      cbv beta iota delta [bind object_literal allocate ret] in H;
      subst o; eexists; reflexivity
    | ]).
  contradiction.
Qed.

(** At an EmptyStatement, from the state in which five objects exist. *)
Lemma leaf_always_decodes_witness :
  exists properties,
    convertNode 1 lenient_host (Some 0) empty_statement offset_text 5%nat =
    Return (VObject 5%nat properties, 6%nat).
Proof.
  apply (leaf_always_decodes 0 lenient_host (Some 0) empty_statement offset_text 19 5%nat).
  - simpl. auto 20.
  - reflexivity.
Defined.

(** ** The first child *)

(** The converter of a kind of [first_children] starts with its first
    child: whatever that call does, other than return, the converter
    does. *)
Lemma first_child_runs_first fuel js p buffer readString tag place reference st :
  In (tag, place) first_children ->
  buffer.[Some p] = Some tag ->
  child_reference buffer p place = Some reference ->
  (forall a s, convertNode fuel js reference buffer readString st <> Return (a, s)) ->
  convertNode (S fuel) js (Some p) buffer readString st =
  convertNode fuel js reference buffer readString st.
Proof.
  intros Hin Htag Href Hchild.
  unfold first_children in Hin. simpl in Hin.
  repeat (destruct Hin as [Heq | Hin];
    [ injection Heq as <- <-;
      name_outcome H; run_converter H Htag; decide_reference Href;
      unfold bind in H;
      destruct (convertNode fuel js _ buffer readString st) as [[a s] | e | ];
      [ exfalso; exact (Hchild a s eq_refl) | congruence | congruence ]
    | ]).
  contradiction.
Qed.

(** X11: an exception of the first child that a converter decodes is the
    exception of the parent, as it is: nothing catches it, wraps it or adds
    the position of the parent. *)
Theorem child_error_is_parent_error fuel js p buffer readString tag place
    reference e st :
  In (tag, place) first_children ->
  buffer.[Some p] = Some tag ->
  child_reference buffer p place = Some reference ->
  convertNode fuel js reference buffer readString st = Throw e ->
  convertNode (S fuel) js (Some p) buffer readString st = Throw e.
Proof.
  intros Hin Htag Href He.
  rewrite (first_child_runs_first _ _ _ _ _ _ _ _ _ Hin Htag Href).
  - exact He.
  - intros a s Hr. rewrite He in Hr. discriminate Hr.
Qed.

(** At an ExpressionStatement whose expression has a reserved tag. *)
Lemma child_error_is_parent_error_witness :
  convertNode 2 lenient_host (Some 0) statement_of_reserved offset_text O =
  Throw (Error "Unknown node type: 64").
Proof.
  apply (child_error_is_parent_error 1 lenient_host 0 statement_of_reserved
           offset_text 24 (Inline 3) (Some (0 + 3))).
  - repeat (first [left; reflexivity | right]).
  - reflexivity.
  - reflexivity.
  - reflexivity.
Defined.

(** X12: nothing guards against a reference that leads back to the node it
    belongs to: when the reference word of the first child of a node holds
    the position of the node itself, the recursion goes on at every depth
    (in JavaScript, until the call stack is exhausted): no depth is enough
    for the call to return or to throw one of the decoder's errors. *)
Theorem self_reference_never_returns fuel js p buffer readString tag offset st :
  In (tag, Referenced offset) first_children ->
  buffer.[Some p] = Some tag ->
  buffer.[Some (p + offset)] = Some p ->
  convertNode fuel js (Some p) buffer readString st = OutOfFuel.
Proof.
  intros Hin Htag Hself.
  induction fuel as [ | fuel IH]; [reflexivity | ].
  rewrite (first_child_runs_first _ _ _ _ _ _ _ (Some p) _ Hin Htag).
  - exact IH.
  - cbn [child_reference]. rewrite Hself. reflexivity.
  - intros a s Hr. rewrite IH in Hr. discriminate Hr.
Qed.

(** At a SpreadElement whose argument is itself. *)
Lemma self_reference_never_returns_witness :
  convertNode 1000 lenient_host (Some 0) spread_of_itself offset_text O = OutOfFuel.
Proof.
  apply (self_reference_never_returns 1000 lenient_host 0 spread_of_itself
           offset_text 59 3 O).
  - repeat (first [left; reflexivity | right]).
  - reflexivity.
  - reflexivity.
Defined.

(** ** Tags without a converter *)

(** The table has a converter for the same tags, whatever its
    parameters. *)
Lemma no_converter_entry js buffer readString node nodeType :
  table_entry (nodeConverters js buffer readString node) nodeType = None ->
  no_converter nodeType.
Proof.
  intros Hnone js' buffer' readString' node'.
  pose proof (table_entry_Forall2 (A := number -> M any) _ _ _ nodeType
                (converters_write_types js buffer readString node)
                I (fun _ F => F) (fun _ F => F)) as Hentry.
  pose proof (table_entry_Forall2 (A := number -> M any) _ _ _ nodeType
                (converters_write_types js' buffer' readString' node')
                I (fun _ F => F) (fun _ F => F)) as Hentry'.
  cbv beta in Hentry, Hentry'. rewrite Hnone in Hentry.
  destruct (table_entry node_types nodeType); [contradiction | ].
  destruct (table_entry (nodeConverters js' buffer' readString' node') nodeType);
    [contradiction | reflexivity].
Qed.

(** ** Buffers whose references point forward *)

Lemma bind_OutOfFuel {A B : Type} (m : M A) (k : A -> M B) st :
  bind m k st = OutOfFuel ->
  m st = OutOfFuel \/ exists a s, m st = Return (a, s) /\ k a s = OutOfFuel.
Proof.
  unfold bind. destruct (m st) as [[a s] | e | ]; try discriminate.
  - intros H. right. eauto.
  - intros _. left. reflexivity.
Qed.

(** Splits a run that ran out of fuel into the step that did. *)
Ltac invert_out_of_fuel H :=
  repeat lazymatch type of H with
  | bind _ _ _ = OutOfFuel =>
      let a := fresh "a" in
      let s := fresh "s" in
      apply bind_OutOfFuel in H; destruct H as [H | (a & s & _ & H)]
  end.

(** Finds [Hr], or an equation, in a list put together by [::] and [++]. *)
Ltac find_in Hr :=
  solve
    [ exact Hr
    | left; reflexivity
    | right; find_in Hr
    | apply in_or_app; left; exact Hr
    | apply in_or_app; right; find_in Hr ].

Lemma table_entry_seq {A : Type} (R : option A -> nat -> Prop)
    (table : list (option A)) :
  Forall2 R table (seq 0 (List.length table)) ->
  forall i c, table_entry table (Some i) = Some c -> R (Some c) (Z.to_nat i).
Proof.
  intros Hall i c. unfold table_entry.
  change (Z.to_nat i) with (0 + Z.to_nat i)%nat at 2.
  generalize (Z.to_nat i) as n. revert Hall. generalize 0%nat as first.
  induction table as [ | entry table IH]; intros first Hall n.
  - destruct n; discriminate.
  - simpl in Hall. inversion Hall as [ | ? ? ? ? Hentry Hrest]; subst.
    destruct n as [ | n]; simpl.
    + destruct entry as [c' | ]; [ | discriminate].
      intros H. injection H as <-. rewrite Nat.add_0_r. exact Hentry.
    + intros H. rewrite Nat.add_succ_r. apply (IH (S first) Hrest n). exact H.
Qed.

Section Ends.

Variables (js : Host) (buffer : Uint32Array) (readString : ReadString).
Variable node : number -> M any.

Lemma convertNodeList_loop_ends iterations :
  forall q list_,
    (forall reference,
       In reference
         (filter truthy
            (map (fun index => buffer.[Some (q + Z.of_nat index)])
               (seq 0 iterations))) ->
       ends (node reference)) ->
    ends (convertNodeList_loop buffer node iterations (Some q) list_).
Proof.
  induction iterations as [ | iterations IH]; intros q list_ Hnode st H.
  - discriminate H.
  - rewrite references_step in Hnode.
    cbn [convertNodeList_loop] in H. cbv beta iota zeta delta [next incr] in H.
    cbn [filter] in Hnode.
    apply bind_OutOfFuel in H. destruct H as [H | (a & s & _ & H)].
    + destruct (truthy buffer.[Some q]); [ | discriminate H].
      exact (Hnode _ (or_introl eq_refl) _ H).
    + revert H. apply IH. intros reference Hin. apply Hnode.
      destruct (truthy buffer.[Some q]); [right | ]; exact Hin.
Qed.

Lemma convertNodeList_ends position :
  (forall reference, In reference (list_callees buffer position) ->
     ends (node reference)) ->
  ends (convertNodeList buffer node position).
Proof.
  intros Hnode st H. unfold convertNodeList in H.
  cbv beta iota zeta delta [next] in H.
  apply bind_OutOfFuel in H. destruct H as [H | (id & s & _ & H)]; [discriminate H | ].
  apply bind_OutOfFuel in H. destruct H as [H | (l & s' & _ & H)]; [ | discriminate H].
  destruct position as [q | ].
  - revert H. cbn [incr]. apply convertNodeList_loop_ends. exact Hnode.
  - discriminate H.
Qed.

(** Closes a step that ran out of fuel by the callee that did. *)
Ltac callee_ends Hnode H :=
  first
    [ discriminate H
    | refine (Hnode _ _ _ H); find_in I
    | refine (convertNodeList_ends _ _ _ H);
      let reference := fresh "reference" in
      let Hr := fresh "Hr" in
      intros reference Hr; apply Hnode; find_in Hr ].

Lemma converters_end :
  Forall2
    (fun entry tag =>
       match entry with
       | Some c =>
           forall p,
             (forall reference,
                In reference (callees_of buffer p (Z.of_nat tag)) ->
                ends (node reference)) ->
             ends (c (Some (p + 1)))
       | None => True
       end)
    (nodeConverters js buffer readString node) (seq 0 77).
Proof.
  unfold nodeConverters. cbn [seq].
  repeat (apply Forall2_cons; [ | ]); try apply Forall2_nil; try exact I.
  all: intros p Hnode st H; unfold_converter H;
    cbv beta iota delta [incr] in H; fold_offsets H.
  all: cbv beta iota zeta delta
         [callees_of flat_map child_nodes child_lists Z.eqb Pos.eqb app
          child_reference Z.of_nat Pos.of_succ_nat Pos.succ] in Hnode;
       fold_offsets Hnode.
  all: repeat match type of Hnode with
       | context [truthy ?x] =>
           let b := fresh "b" in
           let Ht := fresh "Ht" in
           remember (truthy x) as b eqn:Ht; destruct b;
           cbv beta iota delta [app] in Hnode
       end.
  all: cbv iota in H; invert_out_of_fuel H.
  all: try callee_ends Hnode H.
  all: try (destruct (getFloat64 _ _); discriminate H).
  all: try (destruct (RegExp js _ _); discriminate H).
  all: try (destruct (BigInt js _); discriminate H).
Qed.

End Ends.

Lemma convertNode_outside fuel js buffer readString st :
  convertNode (S fuel) js None buffer readString st <> OutOfFuel.
Proof. discriminate. Qed.

(** X14: a buffer whose references all point forward is decoded within as
    many nested calls as it has words.  When every position at which a
    node of [nodes] has a child or a list entry decoded is a later position
    of [nodes], the decoding of a node of [nodes] returns or throws; it
    does not recurse without end. *)
Theorem forward_references_end js buffer readString (nodes : Z -> Prop) :
  forward buffer nodes ->
  forall fuel p,
    nodes p ->
    byteLength buffer / 4 - p <= Z.of_nat fuel ->
    ends (convertNode (S fuel) js (Some p) buffer readString).
Proof.
  intros Hforward fuel p Hp Hfuel st H.
  rewrite convertNode_unfold in H.
  destruct (buffer.[Some p]) as [tag | ] eqn:Htag; [ | discriminate H].
  destruct (table_entry _ (Some tag)) as [c | ] eqn:Hc; [ | discriminate H].
  pose proof (element_nonneg _ _ _ Htag) as Htag0.
  assert (Hp4 : p + 1 <= byteLength buffer / 4).
  { apply Z.div_le_lower_bound; [lia | ].
    pose proof (element_Some_position _ _ _ Htag). lia. }
  revert p Hp Hfuel st tag Htag c Hc Htag0 Hp4 H.
  induction fuel as [ | fuel IH]; intros p Hp Hfuel st tag Htag c Hc Htag0 Hp4 H.
  - lia.
  - pose proof (table_entry_seq _ _
                  (converters_end js buffer readString
                     (fun q => convertNode (S fuel) js q buffer readString))
                  _ _ Hc) as Hentry.
    cbv beta in Hentry. rewrite Z2Nat.id in Hentry by exact Htag0.
    revert H. cbn [incr]. apply Hentry.
    intros reference Hin.
    specialize (Hforward p Hp). unfold callees in Hforward.
    rewrite Htag in Hforward. rewrite Forall_forall in Hforward.
    specialize (Hforward _ Hin).
    destruct reference as [q | ]; [ | intros s; apply convertNode_outside].
    destruct Hforward as [Hpq Hq].
    intros s H. rewrite convertNode_unfold in H.
    destruct (buffer.[Some q]) as [tag' | ] eqn:Htag'; [ | discriminate H].
    destruct (table_entry _ (Some tag')) as [c' | ] eqn:Hc'; [ | discriminate H].
    pose proof (element_nonneg _ _ _ Htag') as Htag0'.
    assert (Hq4 : q + 1 <= byteLength buffer / 4).
    { apply Z.div_le_lower_bound; [lia | ].
      pose proof (element_Some_position _ _ _ Htag'). lia. }
    exact (IH q Hq ltac:(lia) s tag' Htag' c' Hc' Htag0' Hq4 H).
Qed.

(** The references of [return 1 + 2;] point forward. *)
Lemma return_1_plus_2_forward : forward return_1_plus_2 return_1_plus_2_nodes.
Proof.
  intros p Hp. unfold return_1_plus_2_nodes in *. simpl in Hp.
  repeat (destruct Hp as [<- | Hp];
    [ vm_compute;
      repeat (apply Forall_cons; [split; [reflexivity | auto 10] | ]);
      apply Forall_nil
    | ]).
  contradiction.
Defined.

(** At [return 1 + 2;], 28 words. *)
Lemma forward_references_end_witness :
  forward return_1_plus_2 return_1_plus_2_nodes /\
  ends (convertNode 29 lenient_host (Some 0) return_1_plus_2 (text_in return_1_plus_2)).
Proof.
  split; [exact return_1_plus_2_forward | ].
  apply (forward_references_end lenient_host return_1_plus_2
           (text_in return_1_plus_2) return_1_plus_2_nodes return_1_plus_2_forward
           28%nat 0).
  - left. reflexivity.
  - vm_compute. discriminate.
Defined.

(** ** Well-formed buffers *)

Lemma bind_returns {A B : Type} (m : M A) (k : A -> M B) :
  returns m -> (forall a, returns (k a)) -> returns (bind m k).
Proof.
  intros Hm Hk st. unfold bind.
  destruct (Hm st) as (a & s & ->). apply Hk.
Qed.

Lemma ret_returns {A : Type} (a : A) : returns (ret a).
Proof. intros st. unfold ret. eauto. Qed.

Lemma allocate_returns : returns allocate.
Proof. intros st. unfold allocate. eauto. Qed.

Lemma object_literal_returns properties : returns (object_literal properties).
Proof.
  unfold object_literal. apply bind_returns; [apply allocate_returns | ].
  intros id. apply ret_returns.
Qed.

Section Returns.

Variables (js : Host) (buffer : Uint32Array) (readString : ReadString).
Variable node : number -> M any.

Lemma convertNodeList_loop_returns_all iterations :
  forall q list_,
    (forall reference,
       In reference
         (filter truthy
            (map (fun index => buffer.[Some (q + Z.of_nat index)])
               (seq 0 iterations))) ->
       returns (node reference)) ->
    returns (convertNodeList_loop buffer node iterations (Some q) list_).
Proof.
  induction iterations as [ | iterations IH]; intros q list_ Hnode.
  - apply ret_returns.
  - rewrite references_step in Hnode. cbn [filter] in Hnode.
    cbn [convertNodeList_loop]. cbv beta iota zeta delta [next incr].
    apply bind_returns.
    + destruct (truthy buffer.[Some q]); [ | apply ret_returns].
      apply Hnode. left. reflexivity.
    + intros a. apply IH. intros reference Hin. apply Hnode.
      destruct (truthy buffer.[Some q]); [right | ]; exact Hin.
Qed.

Lemma convertNodeList_returns_all position :
  (forall reference, In reference (list_callees buffer position) ->
     returns (node reference)) ->
  returns (convertNodeList buffer node position).
Proof.
  intros Hnode. unfold convertNodeList. cbv beta iota zeta delta [next].
  apply bind_returns; [apply allocate_returns | ]. intros id.
  apply bind_returns; [ | intros l; apply ret_returns].
  destruct position as [q | ].
  - cbn [incr]. apply convertNodeList_loop_returns_all. exact Hnode.
  - apply ret_returns.
Qed.

(** Runs a converter step by step, each step by the callee that returns. *)
Ltac steps_return Hnode :=
  repeat first
    [ apply object_literal_returns
    | apply ret_returns
    | apply allocate_returns
    | apply Hnode; find_in I
    | apply convertNodeList_returns_all;
      let reference := fresh "reference" in
      let Hr := fresh "Hr" in
      intros reference Hr; apply Hnode; find_in Hr
    | apply bind_returns; [ | intros ? ] ].

Lemma converters_return :
  Forall2
    (fun entry tag =>
       match entry with
       | Some c =>
           forall p,
             literal_accepted js buffer readString p (Z.of_nat tag) ->
             (forall reference,
                In reference (callees_of buffer p (Z.of_nat tag)) ->
                returns (node reference)) ->
             returns (c (Some (p + 1)))
       | None => True
       end)
    (nodeConverters js buffer readString node) (seq 0 77).
Proof.
  unfold nodeConverters. cbn [seq].
  repeat (apply Forall2_cons; [ | ]); try apply Forall2_nil; try exact I.
  all: intros p Hliteral Hnode;
    lazymatch goal with
    | |- returns (?c _) => let h := head_of c in unfold h
    end;
    cbv beta iota zeta delta [next flag fst snd incr];
    rewrite <- ?Z.add_assoc; cbn [Z.add Pos.add Pos.succ].
  all: cbv beta iota zeta delta
         [callees_of flat_map child_nodes child_lists Z.eqb Pos.eqb app
          child_reference Z.of_nat Pos.of_succ_nat Pos.succ] in Hnode;
       fold_offsets Hnode.
  all: cbv beta iota delta
         [literal_accepted Z.of_nat Pos.of_succ_nat Pos.succ] in Hliteral.
  all: repeat match type of Hnode with
       | context [truthy ?x] =>
           let b := fresh "b" in
           let Ht := fresh "Ht" in
           remember (truthy x) as b eqn:Ht; destruct b;
           cbv beta iota delta [app] in Hnode
       end.
  all: cbv iota.
  all: try (destruct (getFloat64 _ _); [ | contradiction]).
  all: try (destruct (BigInt js _); [ | contradiction]).
  all: try rewrite Hliteral.
  all: steps_return Hnode.
Qed.

End Returns.

(** X15: a well-formed buffer is decoded.  When the positions of [nodes]
    hold tags with a converter, literals that the host accepts, and
    references to later positions of [nodes] only, then the decoding of a
    node of [nodes] returns, within as many nested calls as the buffer has
    words. *)
Theorem well_formed_is_decoded js buffer readString (nodes : Z -> Prop) :
  well_formed js buffer readString nodes ->
  forall fuel p,
    nodes p ->
    byteLength buffer / 4 - p <= Z.of_nat fuel ->
    returns (convertNode (S fuel) js (Some p) buffer readString).
Proof.
  intros Hformed.
  induction fuel as [ | fuel IH]; intros p Hp Hfuel;
    destruct (Hformed p Hp) as (tag & Htag & Hknown & Hliteral & Hcallees);
    assert (Hp4 : p + 1 <= byteLength buffer / 4)
      by (apply Z.div_le_lower_bound;
          [lia | pose proof (element_Some_position _ _ _ Htag); lia]).
  - lia.
  - pose proof (element_nonneg _ _ _ Htag) as Htag0.
    intros st. rewrite convertNode_unfold, Htag.
    destruct (table_entry _ (Some tag)) as [c | ] eqn:Hc.
    + pose proof (table_entry_seq _ _
                    (converters_return js buffer readString
                       (fun q => convertNode (S fuel) js q buffer readString))
                    _ _ Hc) as Hentry.
      cbv beta in Hentry. rewrite Z2Nat.id in Hentry by exact Htag0.
      cbn [incr]. apply Hentry; [exact Hliteral | ].
      intros reference Hin. rewrite Forall_forall in Hcallees.
      destruct (Hcallees _ Hin) as (q & -> & Hpq & Hq).
      apply IH; [exact Hq | lia].
    + exfalso. apply Hknown. exact (no_converter_entry _ _ _ _ _ Hc).
Qed.

(** [return 1 + 2;] is well formed for a host that accepts every text. *)
Lemma return_1_plus_2_well_formed :
  well_formed lenient_host return_1_plus_2 (text_in return_1_plus_2)
    return_1_plus_2_nodes.
Proof.
  intros p Hp. unfold return_1_plus_2_nodes in *. simpl in Hp.
  repeat (destruct Hp as [<- | Hp];
    [ eexists; split; [reflexivity | ]; split; [ | split ];
      [ intros Hnone;
        specialize (Hnone lenient_host [] offset_text (fun _ => ret VNull));
        discriminate Hnone
      | vm_compute; first [exact I | discriminate]
      | vm_compute;
        repeat (apply Forall_cons;
                [eexists; split; [reflexivity | split; [reflexivity | auto 10]] | ]);
        apply Forall_nil ]
    | ]).
  contradiction.
Defined.

(** At [return 1 + 2;], 28 words. *)
Lemma well_formed_is_decoded_witness :
  well_formed lenient_host return_1_plus_2 (text_in return_1_plus_2)
    return_1_plus_2_nodes /\
  returns (convertNode 29 lenient_host (Some 0) return_1_plus_2
             (text_in return_1_plus_2)).
Proof.
  split; [exact return_1_plus_2_well_formed | ].
  apply (well_formed_is_decoded lenient_host return_1_plus_2
           (text_in return_1_plus_2) return_1_plus_2_nodes
           return_1_plus_2_well_formed 28%nat 0).
  - left. reflexivity.
  - vm_compute. discriminate.
Defined.

(** ** Kinds *)

(** X5: the [kind] of a VariableDeclaration, a Property and a
    MethodDefinition is the entry of its table of names at the index in
    the kind word, and an index past the end of the table is no error.
    Whatever the kind word holds, the node is returned as soon as its
    children and list entries are (first part); and the node that is
    returned has the name at the index as its [kind], or [undefined] when
    the index is past the end of the table (second part). *)
Theorem kind_is_table_entry fuel js p buffer readString tag offset table w :
  In (tag, offset, table) kind_words ->
  buffer.[Some p] = Some tag ->
  buffer.[Some (p + offset)] = Some w ->
  ((forall reference,
      In reference (callees_of buffer p tag) ->
      returns (convertNode fuel js reference buffer readString)) ->
   returns (convertNode (S fuel) js (Some p) buffer readString)) /\
  (forall st v st',
     convertNode (S fuel) js (Some p) buffer readString st = Return (v, st') ->
     (forall name, nth_error table (Z.to_nat w) = Some name ->
        property "kind" v = Some (VString name)) /\
     (Z.of_nat (List.length table) <= w -> property "kind" v = Some VUndefined)).
Proof.
  intros Hin Htag Hw. split.
  - intros Hchildren st. rewrite convertNode_unfold, Htag.
    pose proof (element_nonneg _ _ _ Htag) as Htag0.
    destruct (table_entry _ (Some tag)) as [c | ] eqn:Hc.
    + pose proof (table_entry_seq _ _
                    (converters_return js buffer readString
                       (fun q => convertNode fuel js q buffer readString))
                    _ _ Hc) as Hentry.
      cbv beta in Hentry. rewrite Z2Nat.id in Hentry by exact Htag0.
      cbn [incr]. apply Hentry; [ | exact Hchildren].
      unfold kind_words in Hin. simpl in Hin.
      destruct Hin as [Heq | [Heq | [Heq | []]]];
        injection Heq as <- _ _; exact I.
    + exfalso. unfold kind_words in Hin. simpl in Hin.
      destruct Hin as [Heq | [Heq | [Heq | []]]];
        injection Heq as <- _ _; discriminate Hc.
  - intros st v st' H.
    pose proof (element_nonneg _ _ _ Hw) as Hw0.
    assert (Hkind : property "kind" v = Some (kind_name table (Some w))).
    { unfold kind_words in Hin. simpl in Hin.
      repeat (destruct Hin as [Heq | Hin];
        [ injection Heq as <- <- <-;
          run_converter H Htag; rewrite Hw in H; invert_binds H; reflexivity
        | ]).
      contradiction. }
    rewrite Hkind. unfold kind_name. split.
    + intros name ->. reflexivity.
    + intros Hpast.
      assert (Hnone : nth_error table (Z.to_nat w) = None)
        by (apply nth_error_None; lia).
      rewrite Hnone. reflexivity.
Qed.

(** At a VariableDeclaration whose kind word is 7: it is decoded, with
    [kind] undefined. *)
Lemma kind_is_table_entry_witness :
  exists v st',
    convertNode 1 lenient_host (Some 0) declaration_of_kind_7 offset_text O =
      Return (v, st') /\
    property "kind" v = Some VUndefined.
Proof.
  destruct (kind_is_table_entry 0 lenient_host 0 declaration_of_kind_7 offset_text
              72 3 DECLARATION_KINDS 7
              (or_intror (or_intror (or_introl eq_refl))) eq_refl eq_refl)
    as [Hreturns Hkind].
  destruct (Hreturns (fun reference (Hin : In reference []) => False_ind _ Hin) O)
    as (v & st' & Hv).
  exists v, st'. split; [exact Hv | ].
  apply (proj2 (Hkind _ _ _ Hv)). vm_compute. discriminate.
Defined.

(** The same for a Property whose kind word is 5. *)
Example property_of_kind_5_is_decoded :
  exists v st',
    convertNode 2 lenient_host (Some 0) property_of_kind_5
      (text_in property_of_kind_5) O = Return (v, st') /\
    property "kind" v = Some VUndefined /\
    property "type" v = Some (VString "Property").
Proof. do 2 eexists. split; [vm_compute; reflexivity | ]. split; reflexivity. Qed.

(** ** What is thrown *)

Lemma bind_Throw {A B : Type} (m : M A) (k : A -> M B) st e :
  bind m k st = Throw e ->
  m st = Throw e \/ exists a s, m st = Return (a, s) /\ k a s = Throw e.
Proof.
  unfold bind. destruct (m st) as [[a s] | e' | ]; try discriminate.
  - intros H. right. eauto.
  - intros H. left. injection H as ->. reflexivity.
Qed.

(** Splits a run that threw into the step that threw. *)
Ltac invert_throw H :=
  repeat lazymatch type of H with
  | bind _ _ _ = Throw _ =>
      let a := fresh "a" in
      let s := fresh "s" in
      apply bind_Throw in H; destruct H as [H | (a & s & _ & H)]
  end.

Section Thrown.

Variables (js : Host) (buffer : Uint32Array) (readString : ReadString).
Variable node : number -> M any.

Lemma convertNodeList_loop_thrown iterations :
  forall q list_ st e,
    convertNodeList_loop buffer node iterations (Some q) list_ st = Throw e ->
    exists reference s,
      In reference
        (filter truthy
           (map (fun index => buffer.[Some (q + Z.of_nat index)])
              (seq 0 iterations))) /\
      node reference s = Throw e.
Proof.
  induction iterations as [ | iterations IH]; intros q list_ st e H.
  - discriminate H.
  - rewrite references_step. cbn [filter].
    cbn [convertNodeList_loop] in H. cbv beta iota zeta delta [next incr] in H.
    apply bind_Throw in H. destruct H as [H | (a & s & _ & H)].
    + destruct (truthy buffer.[Some q]); [ | discriminate H].
      exists buffer.[Some q], st. split; [left; reflexivity | exact H].
    + apply IH in H. destruct H as (reference & s' & Hin & H).
      exists reference, s'. split; [ | exact H].
      destruct (truthy buffer.[Some q]); [right | ]; exact Hin.
Qed.

Lemma convertNodeList_thrown position st e :
  convertNodeList buffer node position st = Throw e ->
  exists reference s,
    In reference (list_callees buffer position) /\ node reference s = Throw e.
Proof.
  unfold convertNodeList. cbv beta iota zeta delta [next]. intros H.
  apply bind_Throw in H. destruct H as [H | (id & s & _ & H)]; [discriminate H | ].
  apply bind_Throw in H. destruct H as [H | (l & s' & _ & H)]; [ | discriminate H].
  destruct position as [q | ]; [ | discriminate H].
  cbn [incr] in H. exact (convertNodeList_loop_thrown _ _ _ _ _ H).
Qed.

(** Closes a step that threw by the callee that did. *)
Ltac callee_threw H :=
  first
    [ discriminate H
    | left; refine (ex_intro _ _ (ex_intro _ _ (conj _ H))); find_in I
    | let reference := fresh "reference" in
      let s := fresh "s" in
      let Hr := fresh "Hr" in
      apply convertNodeList_thrown in H;
      destruct H as (reference & s & Hr & H);
      left; exists reference, s; split; [find_in Hr | exact H] ].

Lemma converters_thrown :
  Forall2
    (fun entry tag =>
       match entry with
       | Some c =>
           forall p st e,
             c (Some (p + 1)) st = Throw e ->
             (exists reference s,
                In reference (callees_of buffer p (Z.of_nat tag)) /\
                node reference s = Throw e) \/
             refused js buffer readString p (Z.of_nat tag) e
       | None => True
       end)
    (nodeConverters js buffer readString node) (seq 0 77).
Proof.
  unfold nodeConverters. cbn [seq].
  repeat (apply Forall2_cons; [ | ]); try apply Forall2_nil; try exact I.
  all: intros p st e H; unfold_converter H;
    cbv beta iota delta [incr] in H; fold_offsets H.
  all: cbv beta iota zeta delta
         [callees_of flat_map child_nodes child_lists Z.eqb Pos.eqb app
          child_reference Z.of_nat Pos.of_succ_nat Pos.succ];
       rewrite <- ?Z.add_assoc; cbn [Z.add Pos.add Pos.succ].
  all: repeat match goal with
       | |- context [truthy ?x] =>
           let b := fresh "b" in
           let Ht := fresh "Ht" in
           remember (truthy x) as b eqn:Ht; destruct b;
           cbv beta iota delta [app]
       end.
  all: cbv iota in H; invert_throw H.
  all: try callee_threw H.
  - destruct (getFloat64 _ _) eqn:Hread; [discriminate H | ].
    injection H as <-. right. split; [reflexivity | exact Hread].
  - destruct (RegExp js _ _) eqn:Hhost; [discriminate H | ].
    injection H as <-. right. left. split; [reflexivity | exact Hhost].
  - destruct (BigInt js _) eqn:Hhost; [discriminate H | ].
    injection H as <-. right. right. split; [reflexivity | exact Hhost].
Qed.

End Thrown.

Lemma reaches_from_callee buffer p tag reference position :
  buffer.[Some p] = Some tag ->
  In reference (callees_of buffer p tag) ->
  reaches buffer reference position ->
  reaches buffer (Some p) position.
Proof.
  intros Htag Hin Hreach. apply (reaches_callee _ _ reference); [ | exact Hreach].
  unfold callees. rewrite Htag. exact Hin.
Qed.

(** X13: whatever a decoding throws is thrown at a node that it reaches
    from its start through the references to children and list entries,
    and is one of three things there: the Error of [convertNode] for a tag
    word without converter, with the tag in its message; the RangeError of
    [getFloat64] for a numeric literal whose value is read outside the
    buffer; the SyntaxError of the host refusing the text of a bigint
    literal or the pattern and flags of a regular expression literal.  No
    other word of the buffer makes the decoding throw.  And each of the
    three does throw: the decoding of such a node throws that exception. *)
Theorem thrown_has_cause js buffer readString :
  (forall fuel position st e,
     convertNode fuel js position buffer readString st = Throw e ->
     cause js buffer readString position e) /\
  (forall fuel position st e,
     throws_at js buffer readString position e ->
     convertNode (S fuel) js position buffer readString st = Throw e).
Proof.
  split.
  - induction fuel as [ | fuel IH]; intros position st e H; [discriminate H | ].
    rewrite convertNode_unfold in H.
    destruct (table_entry _ _) as [c | ] eqn:Hc.
    + destruct position as [p | ]; [ | discriminate Hc].
      destruct (buffer.[Some p]) as [tag | ] eqn:Htag; [ | discriminate Hc].
      pose proof (element_nonneg _ _ _ Htag) as Htag0.
      pose proof (table_entry_seq _ _
                    (converters_thrown js buffer readString
                       (fun q => convertNode fuel js q buffer readString))
                    _ _ Hc) as Hentry.
      cbv beta in Hentry. rewrite Z2Nat.id in Hentry by exact Htag0.
      cbn [incr] in H. apply Hentry in H.
      destruct H as [(reference & s & Hin & H) | Hrefused].
      * apply IH in H. destruct H as (position & Hreach & Hthrows).
        exists position. split; [ | exact Hthrows].
        exact (reaches_from_callee _ _ _ _ _ Htag Hin Hreach).
      * exists (Some p). split; [apply reaches_itself | ].
        destruct e as [message | | ]; [contradiction | | ];
          exists p, tag; auto.
    + unfold throw in H. injection H as <-.
      exists position. split; [apply reaches_itself | ].
      split; [ | reflexivity].
      exact (no_converter_entry _ _ _ _ _ Hc).
  - intros fuel position st e Hthrows.
    destruct e as [message | | ].
    + destruct Hthrows as [Hnone ->].
      rewrite convertNode_unfold, Hnone. reflexivity.
    + destruct Hthrows as (p & tag & -> & Htag & -> & Hread).
      name_outcome H. run_converter H Htag.
      rewrite Hread in H. cbv beta iota delta [bind throw] in H. congruence.
    + destruct Hthrows as (p & tag & -> & Htag & [[-> Hhost] | [-> Hhost]]).
      * name_outcome H. run_converter H Htag.
        cbv beta iota delta [bind object_literal allocate ret throw] in H.
        rewrite Hhost in H. congruence.
      * name_outcome H. run_converter H Htag.
        rewrite Hhost in H. cbv beta iota delta [bind throw] in H. congruence.
Qed.

(** At the error of [statement_of_reserved]: it is the one of the reserved
    tag at word 3, reached from word 0. *)
Lemma thrown_has_cause_witness :
  cause lenient_host statement_of_reserved offset_text (Some 0)
    (Error "Unknown node type: 64").
Proof.
  apply (proj1 (thrown_has_cause lenient_host statement_of_reserved offset_text)
           2%nat (Some 0) O).
  reflexivity.
Defined.

(** In a buffer without a numeric literal, nothing reached can throw a
    RangeError, and with a host that accepts every text, no SyntaxError. *)
Example nothing_refused_in_statement_of_reserved :
  forall position e,
    throws_at lenient_host statement_of_reserved offset_text position e ->
    e = Error ("Unknown node type: " ++ toString statement_of_reserved.[position]).
Proof.
  intros position [message | | ] H.
  - destruct H as [_ ->]. reflexivity.
  - exfalso. destruct H as (p & tag & -> & Htag & -> & _).
    pose proof (element_Some_position _ _ _ Htag) as [Hp0 Hp4].
    change (byteLength statement_of_reserved) with 16 in Hp4.
    assert (Hp : p = 0 \/ p = 1 \/ p = 2 \/ p = 3) by lia.
    destruct Hp as [-> | [-> | [-> | ->]]]; discriminate Htag.
  - exfalso. destruct H as (p & tag & _ & _ & [[_ Hhost] | [_ Hhost]]);
      discriminate Hhost.
Qed.

(** ** New objects *)

(** X16: every object of a decoded tree (nodes, arrays, regular
    expressions) is made by the call that returns the tree: it is none of
    the objects that existed before the call. *)
Theorem decoded_objects_are_new fuel js position buffer readString st v st' :
  convertNode fuel js position buffer readString st = Return (v, st') ->
  forall old before,
    allocated_within before st old ->
    forall id, In id (identities v) -> ~ In id (identities old).
Proof.
  intros H old before Hold id Hid Hin.
  apply convertNode_allocates in H. destruct H as (_ & Hnew & _).
  unfold allocated_within in Hold, Hnew. rewrite Forall_forall in Hold, Hnew.
  specialize (Hold _ Hin). specialize (Hnew _ Hid). lia.
Qed.

(** At a second decoding of the Identifier of [export { a }], from the
    state in which the first one has made the object 0: the object 1 that
    it makes is no object of the first node. *)
Lemma decoded_objects_are_new_witness :
  allocated_within 0 1 identifier_a_node /\
  ~ In 1%nat (identities identifier_a_node).
Proof.
  split; [repeat constructor | ].
  apply (decoded_objects_are_new 1 lenient_host (Some 4) export_a
           (text_in export_a) 1%nat
           (VObject 1 [("end", VNumber 10); ("name", VString "a");
                       ("start", VNumber 9); ("type", VString "Identifier")])
           2%nat eq_refl identifier_a_node O).
  - repeat constructor.
  - simpl. auto.
Defined.

(** At the specifier whose exported reference is set, to the node that is
    its local Identifier: the two are not one object. *)
Lemma set_reference_is_another_object_witness :
  exists other default,
    property "exported" export_a_as_a_node = Some other /\
    property "local" export_a_as_a_node = Some default /\
    ~ same_object other default.
Proof.
  apply (set_reference_is_another_object 2 lenient_host 0 export_a_as_a
           (text_in export_a_as_a) 23 3 "exported" "local" 4 O
           export_a_as_a_node 3%nat).
  - simpl. auto.
  - reflexivity.
  - reflexivity.
  - lia.
  - vm_compute. reflexivity.
Defined.
